(** * ocr-go-prototype: the extraction pipeline, embedded and verified

    A shallow embedding of the Go packages [ocr/models], [ocr/utils]
    (validator), [ocr/prompt], [ocr/engine] and the result assembler of
    [ocr/ocr.go], followed by the properties of the pipeline.

    Conventions of the embedding:
    - a Go [string] is a byte sequence: Rocq's [string] (8-bit characters);
      byte-level operations of package [strings] work on [list ascii];
    - a pointer [*T] that the code only tests against [nil] and copies is
      [option T];
    - a Go slice is [option (list T)] where [None] is the [nil] slice, a Go
      map is [option (gmap string string)] where [None] is the [nil] map;
    - [int], [int64] and [time.Duration] are [Z] with 64-bit wrap-around
      written out where the code adds;
    - a [float64] that came out of the JSON decoder is finite; it is
      modelled by the rational number it denotes, which is all the order
      comparisons of the code look at;
    - a Go [error] is a tree of wrapped messages. *)

From Stdlib Require Import ZArith QArith Ascii String List Lia.
From stdpp Require Import base option list gmap strings pretty.

Local Open Scope string_scope.
Local Open Scope list_scope.
Local Open Scope Z_scope.

(** ** Go base types *)

Definition wrap64 (z : Z) : Z := (z + 2 ^ 63) mod 2 ^ 64 - 2 ^ 63.

(** [a + b] on [int] / [int64] / [time.Duration]. *)
Definition add64 (a b : Z) : Z := wrap64 (a + b).

(** A [time.Duration] that does not fit is pinned to the largest or
    smallest one ([Time.Sub]). *)
Definition sat64 (z : Z) : Z := Z.max (- 2 ^ 63) (Z.min (2 ^ 63 - 1) z).

Definition float64 : Type := Q.

Definition slice (A : Type) : Type := option (list A).

Definition elems {A : Type} (s : slice A) : list A := default [] s.

(** The builtin [append(s, xs...)]: with nothing to add the slice itself is
    returned (a [nil] slice stays [nil]). *)
Definition append {A : Type} (s : slice A) (xs : list A) : slice A :=
  match xs with
  | [] => s
  | _ :: _ => Some (elems s ++ xs)
  end.

Definition gomap : Type := option (gmap string string).

Definition entries (m : gomap) : gmap string string := default ∅ m.

(** [for k, v := range src { dst[k] = v }]; ranging over a [nil] map runs
    no iteration. *)
Definition map_copy_into (src : gomap) (dst : gmap string string)
  : gmap string string :=
  map_fold (fun k v acc => <[k := v]> acc) dst (entries src).

(** Errors: a leaf message, or [fmt.Errorf("<prefix>: %w", err)]. *)
Inductive error : Type :=
| errors_New (msg : string)
| Errorf_w (prefix : string) (wrapped : error).

Fixpoint Error (e : error) : string :=
  match e with
  | errors_New msg => msg
  | Errorf_w prefix wrapped => prefix +:+ ": " +:+ Error wrapped
  end.

Definition Unwrap (e : error) : option error :=
  match e with
  | errors_New _ => None
  | Errorf_w _ wrapped => Some wrapped
  end.

(** ** Package models *)

Record BoundingBox : Type := mkBoundingBox {
  X : float64; Y : float64; bbWidth : float64; bbHeight : float64 }.

Record Table : Type := mkTable {
  Headers : slice string; Rows : slice (slice string) }.

Record ImageInfo : Type := mkImageInfo {
  Width : Z; Height : Z; DPI : option Z; ColorMode : string }.

Definition ColorModeRGB : string := "RGB".
Definition ColorModeGrayscale : string := "Grayscale".
Definition ColorModeCMYK : string := "CMYK".
Definition ColorModeUnknown : string := "Unknown".

Definition SourceTypeFile : string := "file".
Definition SourceTypeURL : string := "url".

Record Source : Type := mkSource {
  Type_ : string; Path : string; Checksum : string }.

Definition DocumentTypeInvoice : string := "invoice".
Definition DocumentTypeReceipt : string := "receipt".
Definition DocumentTypeIDCard : string := "id_card".
Definition DocumentTypeContract : string := "contract".
Definition DocumentTypeUnknown : string := "unknown".

Record Metadata : Type := mkMetadata {
  Language : option string;
  DocumentType : string;
  ConfidenceScore : float64 }.

Record TextLine : Type := mkTextLine {
  Text : string;
  BoundingBox_ : option BoundingBox;
  Confidence : float64 }.

Record TextResult : Type := mkTextResult {
  Raw : string; Lines : slice TextLine }.

Record StructuredData : Type := mkStructuredData {
  KeyValuePairs : gomap; Tables : slice Table }.

Record OCRResult : Type := mkOCRResult {
  Source_ : Source;
  Image : ImageInfo;
  Metadata_ : Metadata;
  Text_ : TextResult;
  StructuredData_ : StructuredData;
  Summary : option string }.

(** The forgiving intermediate structures. *)

Record OllamaMetadata : Type := mkOllamaMetadata {
  oLanguage : option string;
  oDocumentType : string;
  oConfidenceScore : float64 }.

Record OllamaTextLine : Type := mkOllamaTextLine {
  oText : string;
  oBoundingBox : option BoundingBox;
  oConfidence : float64 }.

Record OllamaTextResult : Type := mkOllamaTextResult {
  oRaw : string; oLines : slice OllamaTextLine }.

Record OllamaStructuredData : Type := mkOllamaStructuredData {
  oKeyValuePairs : gomap; oTables : slice Table }.

Record OllamaImageInfo : Type := mkOllamaImageInfo {
  oWidth : Z; oHeight : Z; oDPI : option Z; oColorMode : string }.

Record OllamaVisionResponse : Type := mkOllamaVisionResponse {
  vMetadata : option OllamaMetadata;
  vText : option OllamaTextResult;
  vStructuredData : option OllamaStructuredData;
  vSummary : option string;
  vImage : option OllamaImageInfo }.

(** ** Package strings of the Go library, on byte sequences *)

Definition bytes : Type := list ascii.

Definition HasPrefix (s prefix : bytes) : bool :=
  bool_decide (prefix `prefix_of` s).

Definition HasSuffix (s suffix : bytes) : bool :=
  bool_decide (suffix `suffix_of` s).

Definition TrimPrefix (s prefix : bytes) : bytes :=
  if HasPrefix s prefix then drop (length prefix) s else s.

Definition TrimSuffix (s suffix : bytes) : bytes :=
  if HasSuffix s suffix then take (length s - length suffix)%nat s else s.

(** [Index]: offset of the first occurrence of [substr] at or after offset
    [i] of the string whose remainder is [s], or -1. *)
Fixpoint index_from (substr s : bytes) (i : Z) : Z :=
  if HasPrefix s substr then i
  else match s with
       | [] => -1
       | _ :: s' => index_from substr s' (i + 1)
       end.

Definition Index (s substr : bytes) : Z := index_from substr s 0.

Fixpoint last_index_from (substr s : bytes) (i : Z) : Z :=
  match s with
  | [] => if HasPrefix s substr then i else -1
  | _ :: s' =>
      let later := last_index_from substr s' (i + 1) in
      if later =? -1 then (if HasPrefix s substr then i else -1) else later
  end.

Definition LastIndex (s substr : bytes) : Z := last_index_from substr s 0.

Definition Contains (s substr : bytes) : bool := negb (Index s substr =? -1).

(** The slice expression [s[lo:hi]] for [0 <= lo <= hi <= len(s)]. *)
Definition substr (s : bytes) (lo hi : Z) : bytes :=
  take (Z.to_nat (hi - lo)) (drop (Z.to_nat lo) s).

Fixpoint Join (elems : list string) (sep : string) : string :=
  match elems with
  | [] => ""
  | [x] => x
  | x :: rest => x +:+ sep +:+ Join rest sep
  end.

(** White space, as [unicode.IsSpace] sees it through the UTF-8 decoder:
    the one-byte code points U+0009..U+000D and U+0020, the two-byte
    U+0085 and U+00A0, and the three-byte U+1680, U+2000..U+200A, U+2028,
    U+2029, U+202F, U+205F and U+3000.  Any other byte sequence decodes to
    a rune that is not white space (an invalid one to U+FFFD). *)
Definition code (c : ascii) : N := N_of_ascii c.

Definition isSpace1 (c : ascii) : bool :=
  ((0x09 <=? code c) && (code c <=? 0x0D) || (code c =? 0x20))%N.

Definition isSpace2 (c1 c2 : ascii) : bool :=
  ((code c1 =? 0xC2) && ((code c2 =? 0x85) || (code c2 =? 0xA0)))%N.

Definition isSpace3 (c1 c2 c3 : ascii) : bool :=
  ((code c1 =? 0xE1) && (code c2 =? 0x9A) && (code c3 =? 0x80)
   || (code c1 =? 0xE2) && (code c2 =? 0x80)
      && ((0x80 <=? code c3) && (code c3 <=? 0x8A)
          || (code c3 =? 0xA8) || (code c3 =? 0xA9) || (code c3 =? 0xAF))
   || (code c1 =? 0xE2) && (code c2 =? 0x81) && (code c3 =? 0x9F)
   || (code c1 =? 0xE3) && (code c2 =? 0x80) && (code c3 =? 0x80))%N.

Section TrimRunes.

(** The tests for a white-space rune of one, two and three bytes, in the
    order in which the bytes are met. *)
Variable sp1 : ascii -> bool.
Variable sp2 : ascii -> ascii -> bool.
Variable sp3 : ascii -> ascii -> ascii -> bool.

(** The number of bytes of the white-space rune [s] starts with, 0 when it
    starts with none. *)
Definition rune_len (s : bytes) : nat :=
  match s with
  | [] => 0
  | c1 :: s1 =>
      if sp1 c1 then 1
      else match s1 with
           | [] => 0
           | c2 :: s2 =>
               if sp2 c1 c2 then 2
               else match s2 with
                    | [] => 0
                    | c3 :: _ => if sp3 c1 c2 c3 then 3 else 0
                    end
           end
  end%nat.

(** Drop white-space runes from the front while there is one. *)
Fixpoint trim_runes (s : bytes) : bytes :=
  match s with
  | [] => []
  | c1 :: s1 =>
      if sp1 c1 then trim_runes s1
      else match s1 with
           | [] => s
           | c2 :: s2 =>
               if sp2 c1 c2 then trim_runes s2
               else match s2 with
                    | [] => s
                    | c3 :: s3 => if sp3 c1 c2 c3 then trim_runes s3 else s
                    end
           end
  end.

End TrimRunes.

(** [TrimLeftFunc(s, unicode.IsSpace)]. *)
Definition TrimLeft (s : bytes) : bytes :=
  trim_runes isSpace1 isSpace2 isSpace3 s.

(** [TrimRightFunc(s, unicode.IsSpace)] works from the back:
    [DecodeLastRuneInString] finds the rune that ends the string.  On the
    reversed string [r] (last byte first) that is a trim from the front,
    with the bytes of a rune met in reverse. *)
Definition trim_reversed (r : bytes) : bytes :=
  trim_runes isSpace1 (fun c1 c2 => isSpace2 c2 c1)
    (fun c1 c2 c3 => isSpace3 c3 c2 c1) r.

Definition TrimRight (s : bytes) : bytes := reverse (trim_reversed (reverse s)).

Definition TrimSpace (s : bytes) : bytes := TrimRight (TrimLeft s).

Definition b (s : string) : bytes := list_ascii_of_string s.

(** ** Package utils: the validator *)

Definition ValidDocumentTypes : gmap string bool :=
  <[DocumentTypeInvoice := true]> (<[DocumentTypeReceipt := true]>
  (<[DocumentTypeIDCard := true]> (<[DocumentTypeContract := true]>
  (<[DocumentTypeUnknown := true]> ∅)))).

Definition ValidColorModes : gmap string bool :=
  <[ColorModeRGB := true]> (<[ColorModeGrayscale := true]>
  (<[ColorModeCMYK := true]> (<[ColorModeUnknown := true]> ∅))).

(** [m[k]] on a [map[K]bool]: the zero value for a missing key. *)
Definition index_bool (m : gmap string bool) (k : string) : bool :=
  default false (m !! k).

(** [_, ok := m[k]]. *)
Definition comma_ok (m : gmap string bool) (k : string) : bool :=
  bool_decide (is_Some (m !! k)).

Definition flt (x y : float64) : bool := negb (Qle_bool y x).

(** The loop over [result.Text.Lines]; [i] is the index of the head of
    [lines]. *)
Fixpoint validate_lines (i : Z) (lines : list TextLine) : option error :=
  match lines with
  | [] => None
  | line :: rest =>
      if bool_decide (Text line = "") then
        Some (errors_New ("text line " +:+ pretty i +:+ " has empty text"))
      else if flt (Confidence line) 0%Q || flt 1%Q (Confidence line) then
        Some (errors_New ("text line " +:+ pretty i
                          +:+ " confidence out of range [0, 1]"))
      else validate_lines (i + 1) rest
  end.

(** [ValidateOCRResult]; [None] is the [nil] error.  The messages keep
    their fixed text, the formatted operand ([%q], [%f]) is left out. *)
Definition ValidateOCRResult (result : option OCRResult) : option error :=
  match result with
  | None => Some (errors_New "result is nil")
  | Some result =>
      if negb (bool_decide (Type_ (Source_ result) = SourceTypeFile))
         && negb (bool_decide (Type_ (Source_ result) = SourceTypeURL))
      then Some (errors_New "invalid source type")
      else if bool_decide (Path (Source_ result) = "")
      then Some (errors_New "source path is empty")
      else if bool_decide (Checksum (Source_ result) = "")
      then Some (errors_New "source checksum is empty")
      else if negb (index_bool ValidDocumentTypes (DocumentType (Metadata_ result)))
      then Some (errors_New "invalid document type")
      else if flt (ConfidenceScore (Metadata_ result)) 0%Q
              || flt 1%Q (ConfidenceScore (Metadata_ result))
      then Some (errors_New "confidence_score out of range [0, 1]")
      else if negb (index_bool ValidColorModes (ColorMode (Image result)))
      then Some (errors_New "invalid color mode")
      else match validate_lines 0 (elems (Lines (Text_ result))) with
           | Some err => Some err
           | None =>
               if bool_decide (KeyValuePairs (StructuredData_ result) = None)
               then Some (errors_New
                 "structured_data.key_value_pairs is nil (should be empty map)")
               else if bool_decide (Tables (StructuredData_ result) = None)
               then Some (errors_New
                 "structured_data.tables is nil (should be empty slice)")
               else None
           end
  end.

Definition str (s : bytes) : string := string_of_list_ascii s.

(** [CleanJSONResponse] strips markdown code fences and extraneous text
    from model output, extracting only the JSON object. *)
Definition CleanJSONResponse (raw : string) : string :=
  let s := TrimSpace (b raw) in
  let s :=
    if HasPrefix s (b "```json") then TrimPrefix s (b "```json")
    else if HasPrefix s (b "```") then TrimPrefix s (b "```")
    else s in
  let s := TrimSuffix s (b "```") in
  let s := TrimSpace s in
  let start := Index s (b "{") in
  let end_ := LastIndex s (b "}") in
  let s :=
    if negb (start =? -1) && negb (end_ =? -1) && (end_ >? start)
    then substr s start (end_ + 1)
    else s in
  str s.

Section Parse.

(** [json.Unmarshal] into an [OllamaVisionResponse], from the Go library. *)
Variable json_Unmarshal : string -> error + OllamaVisionResponse.

Definition ParseAndValidateJSON (raw : string) : error + OllamaVisionResponse :=
  let cleaned := CleanJSONResponse raw in
  match json_Unmarshal cleaned with
  | inl err => inl (Errorf_w "json unmarshal" err)
  | inr resp => inr resp
  end.

End Parse.

(** ** Package prompt *)

Record PromptConfig : Type := mkPromptConfig {
  pWithSummary : bool;
  pWithLanguageDetection : bool;
  pWithStructuredExtraction : bool;
  pWithBoundingBoxes : bool;
  pWithConfidenceScores : bool }.

Definition dquote : ascii := ascii_of_N 34.

(** The prompt text is written with an apostrophe wherever the Go raw
    string has a double quote (the Go text has no apostrophe of its own);
    [unq] puts the double quotes back. *)
Fixpoint unq (s : string) : string :=
  match s with
  | EmptyString => EmptyString
  | String c s' => String (if Ascii.eqb c "'" then dquote else c) (unq s')
  end.

(** [sb.WriteString(s)] on a [strings.Builder] holding [sb]. *)
Definition WriteString (sb s : string) : string := sb +:+ s.

Definition BuildOCRPrompt (cfg : PromptConfig) : string :=
  let sb := "" in
  let sb := WriteString sb (unq "You are a precise OCR engine. Analyze the provided image and extract all text content.

CRITICAL INSTRUCTIONS:
- Respond ONLY with valid JSON.
- No markdown. No code fences. No explanations. No comments.
- Do NOT wrap the JSON in backticks or any markup.
- Output MUST start with { and end with }
- Every string value must be properly escaped.

You must return a JSON object with EXACTLY this structure:

{
  'metadata': {
    'language': ") in
  let sb :=
    if pWithLanguageDetection cfg
    then WriteString sb (unq "'<detected ISO 639-1 language code or null if unknown>',")
    else WriteString sb (unq "null,") in
  let sb := WriteString sb (unq "
    'document_type': '<one of: invoice, receipt, id_card, contract, unknown>',
    'confidence_score': <float between 0.0 and 1.0 representing overall OCR confidence>
  },
  'text': {
    'raw': '<all extracted text as a single string, preserving line breaks with \\n>',
    'lines': [
      {
        'text': '<text content of this line>',") in
  let sb :=
    if pWithBoundingBoxes cfg
    then WriteString sb (unq "
        'bounding_box': {
          'x': <estimated x coordinate>,
          'y': <estimated y coordinate>,
          'width': <estimated width>,
          'height': <estimated height>
        },")
    else WriteString sb (unq "
        'bounding_box': null,") in
  let sb :=
    if pWithConfidenceScores cfg
    then WriteString sb (unq "
        'confidence': <float between 0.0 and 1.0>")
    else WriteString sb (unq "
        'confidence': 0.0") in
  let sb := WriteString sb (unq "
      }
    ]
  },") in
  let sb :=
    if pWithStructuredExtraction cfg
    then WriteString sb (unq "
  'structured_data': {
    'key_value_pairs': {
      '<key>': '<value>'
    },
    'tables': [
      {
        'headers': ['<column header 1>', '<column header 2>'],
        'rows': [['<cell 1>', '<cell 2>']]
      }
    ]
  },")
    else WriteString sb (unq "
  'structured_data': {
    'key_value_pairs': {},
    'tables': []
  },") in
  let sb :=
    if pWithSummary cfg
    then WriteString sb (unq "
  'summary': '<brief natural language summary of the document content>'")
    else WriteString sb (unq "
  'summary': null") in
  let sb := WriteString sb (unq "
}

RULES:
1. Extract ALL visible text from the image, missing nothing.
2. 'document_type' MUST be exactly one of: 'invoice', 'receipt', 'id_card', 'contract', 'unknown'.
3. If no tables are found, return 'tables': [].
4. If no key-value pairs are found, return 'key_value_pairs': {}.
5. 'lines' must contain every line of text found, even if only one.") in
  let sb :=
    if pWithBoundingBoxes cfg
    then WriteString sb (unq "
6. Estimate bounding boxes as best as possible based on text position in the image.")
    else sb in
  let sb :=
    if pWithLanguageDetection cfg
    then WriteString sb (unq "
7. Detect the primary language of the document and use ISO 639-1 codes (e.g., 'en', 'fr', 'de').")
    else sb in
  let sb := WriteString sb (unq "

Remember: Output ONLY the JSON object. Nothing else.") in
  sb.

(** ** Package client: the wire types of the generation endpoint *)

Record ModelOptions : Type := mkModelOptions {
  Temperature : float64; NumPredict : Z }.

Record GenerateRequest : Type := mkGenerateRequest {
  rModel : string;
  rPrompt : string;
  rImages : slice string;
  rStream : bool;
  rOptions : option ModelOptions;
  rFormat : string }.

Record GenerateResponse : Type := mkGenerateResponse {
  gModel : string;
  CreatedAt : string;
  Response : string;
  Done : bool;
  TotalDuration : Z;
  LoadDuration : Z;
  PromptEvalCount : Z;
  PromptEvalDuration : Z;
  EvalCount : Z;
  EvalDuration : Z }.

(** ** Package engine *)

Record ProcessConfig : Type := mkProcessConfig {
  cModel : string;
  cTemperature : float64;
  RequestID : string;
  cWithSummary : bool;
  cWithLanguageDetection : bool;
  cWithStructuredExtraction : bool;
  cWithBoundingBoxes : bool;
  cWithConfidenceScores : bool }.

(** [VisionResponse] is a pointer in Go; [Process] always sets it and
    [mergeResults] dereferences it unconditionally, so it is a plain field. *)
Record ProcessResult : Type := mkProcessResult {
  VisionResponse : OllamaVisionResponse;
  Model : string;
  PromptTokens : Z;
  EvalTokens : Z;
  Latency : Z }.

(** The state of the merge loop: the fields of the freshly allocated
    [merged] result that the loop writes, [rawParts] and [totalLatency]. *)
Record merge_state : Type := mkMergeState {
  mLines : slice OllamaTextLine;
  mKeyValuePairs : gmap string string;
  mTables : slice Table;
  mSummary : option string;
  mPromptTokens : Z;
  mEvalTokens : Z;
  rawParts : slice string;
  totalLatency : Z }.

Definition newline : string := String (ascii_of_N 10) EmptyString.

(** One iteration of [for i, r := range results]. *)
Definition merge_body (i : Z) (r : ProcessResult) (st : merge_state)
  : merge_state :=
  let resp := VisionResponse r in
  let pagePrefix := "--- Page " +:+ pretty (i + 1) +:+ " ---" +:+ newline in
  {| totalLatency := add64 (totalLatency st) (Latency r);
     mPromptTokens := add64 (mPromptTokens st) (PromptTokens r);
     mEvalTokens := add64 (mEvalTokens st) (EvalTokens r);
     rawParts :=
       match vText resp with
       | Some text => append (rawParts st) [pagePrefix +:+ oRaw text]
       | None => rawParts st
       end;
     mLines :=
       match vText resp with
       | Some text => append (mLines st) (elems (oLines text))
       | None => mLines st
       end;
     mKeyValuePairs :=
       match vStructuredData resp with
       | Some sd => map_copy_into (oKeyValuePairs sd) (mKeyValuePairs st)
       | None => mKeyValuePairs st
       end;
     mTables :=
       match vStructuredData resp with
       | Some sd => append (mTables st) (elems (oTables sd))
       | None => mTables st
       end;
     mSummary :=
       match vSummary resp with
       | Some summary => Some summary
       | None => mSummary st
       end |}.

Fixpoint merge_loop (i : Z) (results : list ProcessResult) (st : merge_state)
  : merge_state :=
  match results with
  | [] => st
  | r :: rest => merge_loop (i + 1) rest (merge_body i r st)
  end.

Definition merge_init : merge_state :=
  {| mLines := None; mKeyValuePairs := ∅; mTables := None; mSummary := None;
     mPromptTokens := 0; mEvalTokens := 0; rawParts := None;
     totalLatency := 0 |}.

(** [mergeResults] combines multiple page results into a single result;
    [None] is the [nil] result. *)
Definition mergeResults (results : list ProcessResult) : option ProcessResult :=
  match results with
  | [] => None
  | [r] => Some r
  | r0 :: _ =>
      let st := merge_loop 0 results merge_init in
      Some {| VisionResponse :=
                {| vMetadata := vMetadata (VisionResponse r0);
                   vText := Some {| oRaw := Join (elems (rawParts st)) newline;
                                    oLines := mLines st |};
                   vStructuredData :=
                     Some {| oKeyValuePairs := Some (mKeyValuePairs st);
                             oTables := mTables st |};
                   vSummary := mSummary st;
                   vImage := None |};
              Model := Model r0;
              PromptTokens := mPromptTokens st;
              EvalTokens := mEvalTokens st;
              Latency := totalLatency st |}
  end.

Section Engine.

(** The outside of the engine: the inference server behind
    [client.Generate], the clock, the cancellation signal of the context,
    the PDF rasteriser, and the two library codecs. *)
Context {World : Type}.
Variable Generate : GenerateRequest -> World -> (error + GenerateResponse) * World.
Variable time_Now : World -> Z.
Variable ctx_Err : World -> option error.
Variable PDFToImages : string -> World -> error + list bytes.
Variable json_Unmarshal : string -> error + OllamaVisionResponse.
Variable EncodeBase64 : bytes -> string.

(** What a run threads along: the world, and the generation requests sent
    so far, oldest first. *)
Record State : Type := mkState { world : World; sent : list GenerateRequest }.

Definition M (A : Type) : Type := State -> A * State.

Definition ret {A : Type} (a : A) : M A := fun st => (a, st).

Definition bind {A B : Type} (m : M A) (k : A -> M B) : M B :=
  fun st => let (a, st') := m st in k a st'.

Notation "x <- m ;; k" := (bind m (fun x => k))
  (at level 100, m at next level, right associativity).

Definition call_Generate (req : GenerateRequest) : M (error + GenerateResponse) :=
  fun st =>
    let (r, w) := Generate req (world st) in
    (r, {| world := w; sent := sent st ++ [req] |}).

Definition now : M Z := fun st => (time_Now (world st), st).

(** [time.Since(startTime)]. *)
Definition since (startTime : Z) : M Z :=
  fun st => (sat64 (time_Now (world st) - startTime), st).

Definition ctx_done : M (option error) := fun st => (ctx_Err (world st), st).

(** [for attempt := 0; attempt <= 1; attempt++ { ... }] of [Process], and
    the return after it; [None] when the fuel runs out first. *)
Fixpoint attempts (fuel : nat) (req : GenerateRequest) (startTime : Z)
    (attempt : Z) (lastErr : option error) : M (option (error + ProcessResult)) :=
  match fuel with
  | O => ret None
  | S fuel' =>
      if attempt <=? 1 then
        r <- call_Generate req ;;
        match r with
        | inl err =>
            ret (Some (inl (Errorf_w
              ("ollama generate (attempt " +:+ pretty attempt +:+ ")") err)))
        | inr resp =>
            match ParseAndValidateJSON json_Unmarshal (Response resp) with
            | inl err =>
                attempts fuel' req startTime (attempt + 1)
                  (Some (Errorf_w
                     ("parse response (attempt " +:+ pretty attempt +:+ ")") err))
            | inr visionResp =>
                latency <- since startTime ;;
                ret (Some (inr {| VisionResponse := visionResp;
                                  Model := gModel resp;
                                  PromptTokens := PromptEvalCount resp;
                                  EvalTokens := EvalCount resp;
                                  Latency := latency |}))
            end
        end
      else
        ret (Some (inl match lastErr with
                       | Some err => Errorf_w "all attempts failed" err
                       | None => errors_New "all attempts failed: %!w(<nil>)"
                       end))
  end.

Definition Process_request (imageData : bytes) (cfg : ProcessConfig)
  : GenerateRequest :=
  let promptCfg :=
    {| pWithSummary := cWithSummary cfg;
       pWithLanguageDetection := cWithLanguageDetection cfg;
       pWithStructuredExtraction := cWithStructuredExtraction cfg;
       pWithBoundingBoxes := cWithBoundingBoxes cfg;
       pWithConfidenceScores := cWithConfidenceScores cfg |} in
  let ocrPrompt := BuildOCRPrompt promptCfg in
  let base64Image := EncodeBase64 imageData in
  {| rModel := cModel cfg;
     rPrompt := ocrPrompt;
     rImages := Some [base64Image];
     rStream := false;
     rFormat := "json";
     rOptions := Some {| Temperature := cTemperature cfg; NumPredict := 4096 |} |}.

(** [Process] runs OCR on a single image.  The loop needs three rounds of
    fuel: two attempts and the test that ends it. *)
Definition Process_fuel (fuel : nat) (imageData : bytes) (cfg : ProcessConfig)
  : M (option (error + ProcessResult)) :=
  startTime <- now ;;
  attempts fuel (Process_request imageData cfg) startTime 0 None.

Definition Process (imageData : bytes) (cfg : ProcessConfig)
  : M (option (error + ProcessResult)) :=
  Process_fuel 3 imageData cfg.

(** The page loop of [ProcessPDF]; [i] is the index of the head of
    [pages]. *)
Fixpoint process_pages (cfg : ProcessConfig) (i : Z) (pages : list bytes)
    (allResults : list ProcessResult) : M (option (error + list ProcessResult)) :=
  match pages with
  | [] => ret (Some (inr allResults))
  | page :: rest =>
      done <- ctx_done ;;
      match done with
      | Some err => ret (Some (inl err))
      | None =>
          r <- Process page cfg ;;
          match r with
          | None => ret None
          | Some (inl err) =>
              ret (Some (inl (Errorf_w ("process page " +:+ pretty (i + 1)) err)))
          | Some (inr result) =>
              process_pages cfg (i + 1) rest (allResults ++ [result])
          end
      end
  end.

(** [ProcessPDF]; the result pointer may be [nil] as far as the types go,
    hence the [option]. *)
Definition ProcessPDF (pdfPath : string) (cfg : ProcessConfig)
  : M (option (error + option ProcessResult)) :=
  fun st =>
    match PDFToImages pdfPath (world st) with
    | inl err => (Some (inl (Errorf_w "convert PDF to images" err)), st)
    | inr pages =>
        match pages with
        | [] => (Some (inl (errors_New "PDF produced no pages")), st)
        | [page] =>
            let (r, st') := Process page cfg st in
            (match r with
             | None => None
             | Some (inl err) => Some (inl err)
             | Some (inr result) => Some (inr (Some result))
             end, st')
        | _ :: _ :: _ =>
            let (r, st') := process_pages cfg 0 pages [] st in
            (match r with
             | None => None
             | Some (inl err) => Some (inl err)
             | Some (inr allResults) => Some (inr (mergeResults allResults))
             end, st')
        end
    end.

End Engine.

(** ** Package utils: image introspection *)

(** What [image.DecodeConfig] of the Go library hands back: the colour
    model is an interface value, compared with [color.YCbCrModel] and
    otherwise looked at through the name of its dynamic type ([%T]). *)
Inductive color_Model : Type :=
| YCbCrModel
| OtherModel (typeName : string).

Record image_Config : Type := mkImageConfig {
  ColorModel : option color_Model; cfgWidth : Z; cfgHeight : Z }.

Section ImageInfo.

Variable strings_ToLower : string -> string.
Variable image_DecodeConfig : bytes -> error + image_Config.

(** [GetImageInfo] decodes image dimensions and color mode from raw
    bytes. *)
Definition GetImageInfo (data : bytes) (ext : string) : ImageInfo :=
  if bool_decide (strings_ToLower ext = ".pdf") then
    {| Width := 0; Height := 0; DPI := None; ColorMode := ColorModeUnknown |}
  else
    match image_DecodeConfig data with
    | inl _ =>
        {| Width := 0; Height := 0; DPI := None; ColorMode := ColorModeUnknown |}
    | inr cfg =>
        let colorMode :=
          match ColorModel cfg with
          | None => ColorModeUnknown
          | Some YCbCrModel => ColorModeRGB
          | Some (OtherModel modelStr) =>
              if Contains (b modelStr) (b "RGBA")
                 || Contains (b modelStr) (b "NRGBA")
              then ColorModeRGB
              else if Contains (b modelStr) (b "Gray") then ColorModeGrayscale
              else if Contains (b modelStr) (b "CMYK") then ColorModeCMYK
              else ColorModeUnknown
          end in
        {| Width := cfgWidth cfg; Height := cfgHeight cfg; DPI := None;
           ColorMode := colorMode |}
    end.

End ImageInfo.

(** ** Package ocr: configuration *)

Record Config : Type := mkConfig {
  OllamaURL : string;
  Model_ : string;
  Timeout : Z;
  Temperature_ : float64;
  MaxFileSize : Z;
  MaxImageDimension : Z;
  WithSummary_ : bool;
  WithLanguageDetection_ : bool;
  WithStructuredExtraction_ : bool;
  WithBoundingBoxes_ : bool;
  WithConfidenceScores_ : bool }.

Definition DefaultOllamaURL : string := "http://localhost:11434".
Definition DefaultModel : string := "llama3.2-vision".
Definition Second : Z := 1000000000.
Definition DefaultTimeout : Z := 120 * Second.
Definition DefaultTemperature : float64 := 0.1%Q.
Definition DefaultMaxFileSize : Z := 50 * 1024 * 1024.
Definition DefaultMaxImageDimension : Z := 8192.
Definition MaxRetries : Z := 1.

Definition DefaultConfig : Config :=
  {| OllamaURL := DefaultOllamaURL;
     Model_ := DefaultModel;
     Timeout := DefaultTimeout;
     Temperature_ := DefaultTemperature;
     MaxFileSize := DefaultMaxFileSize;
     MaxImageDimension := DefaultMaxImageDimension;
     WithSummary_ := false;
     WithLanguageDetection_ := true;
     WithStructuredExtraction_ := true;
     WithBoundingBoxes_ := true;
     WithConfidenceScores_ := true |}.

(** An [Option] is a function that updates the configuration in place. *)
Definition Option : Type := Config -> Config.

Definition set_WithSummary (v : bool) (c : Config) : Config :=
  {| OllamaURL := OllamaURL c; Model_ := Model_ c; Timeout := Timeout c;
     Temperature_ := Temperature_ c; MaxFileSize := MaxFileSize c;
     MaxImageDimension := MaxImageDimension c;
     WithSummary_ := v;
     WithLanguageDetection_ := WithLanguageDetection_ c;
     WithStructuredExtraction_ := WithStructuredExtraction_ c;
     WithBoundingBoxes_ := WithBoundingBoxes_ c;
     WithConfidenceScores_ := WithConfidenceScores_ c |}.

Definition set_WithLanguageDetection (v : bool) (c : Config) : Config :=
  {| OllamaURL := OllamaURL c; Model_ := Model_ c; Timeout := Timeout c;
     Temperature_ := Temperature_ c; MaxFileSize := MaxFileSize c;
     MaxImageDimension := MaxImageDimension c;
     WithSummary_ := WithSummary_ c;
     WithLanguageDetection_ := v;
     WithStructuredExtraction_ := WithStructuredExtraction_ c;
     WithBoundingBoxes_ := WithBoundingBoxes_ c;
     WithConfidenceScores_ := WithConfidenceScores_ c |}.

Definition set_WithStructuredExtraction (v : bool) (c : Config) : Config :=
  {| OllamaURL := OllamaURL c; Model_ := Model_ c; Timeout := Timeout c;
     Temperature_ := Temperature_ c; MaxFileSize := MaxFileSize c;
     MaxImageDimension := MaxImageDimension c;
     WithSummary_ := WithSummary_ c;
     WithLanguageDetection_ := WithLanguageDetection_ c;
     WithStructuredExtraction_ := v;
     WithBoundingBoxes_ := WithBoundingBoxes_ c;
     WithConfidenceScores_ := WithConfidenceScores_ c |}.

Definition set_WithBoundingBoxes (v : bool) (c : Config) : Config :=
  {| OllamaURL := OllamaURL c; Model_ := Model_ c; Timeout := Timeout c;
     Temperature_ := Temperature_ c; MaxFileSize := MaxFileSize c;
     MaxImageDimension := MaxImageDimension c;
     WithSummary_ := WithSummary_ c;
     WithLanguageDetection_ := WithLanguageDetection_ c;
     WithStructuredExtraction_ := WithStructuredExtraction_ c;
     WithBoundingBoxes_ := v;
     WithConfidenceScores_ := WithConfidenceScores_ c |}.

Definition set_WithConfidenceScores (v : bool) (c : Config) : Config :=
  {| OllamaURL := OllamaURL c; Model_ := Model_ c; Timeout := Timeout c;
     Temperature_ := Temperature_ c; MaxFileSize := MaxFileSize c;
     MaxImageDimension := MaxImageDimension c;
     WithSummary_ := WithSummary_ c;
     WithLanguageDetection_ := WithLanguageDetection_ c;
     WithStructuredExtraction_ := WithStructuredExtraction_ c;
     WithBoundingBoxes_ := WithBoundingBoxes_ c;
     WithConfidenceScores_ := v |}.

Definition set_Model (v : string) (c : Config) : Config :=
  {| OllamaURL := OllamaURL c; Model_ := v; Timeout := Timeout c;
     Temperature_ := Temperature_ c; MaxFileSize := MaxFileSize c;
     MaxImageDimension := MaxImageDimension c;
     WithSummary_ := WithSummary_ c;
     WithLanguageDetection_ := WithLanguageDetection_ c;
     WithStructuredExtraction_ := WithStructuredExtraction_ c;
     WithBoundingBoxes_ := WithBoundingBoxes_ c;
     WithConfidenceScores_ := WithConfidenceScores_ c |}.

Definition set_Timeout (v : Z) (c : Config) : Config :=
  {| OllamaURL := OllamaURL c; Model_ := Model_ c; Timeout := v;
     Temperature_ := Temperature_ c; MaxFileSize := MaxFileSize c;
     MaxImageDimension := MaxImageDimension c;
     WithSummary_ := WithSummary_ c;
     WithLanguageDetection_ := WithLanguageDetection_ c;
     WithStructuredExtraction_ := WithStructuredExtraction_ c;
     WithBoundingBoxes_ := WithBoundingBoxes_ c;
     WithConfidenceScores_ := WithConfidenceScores_ c |}.

Definition set_OllamaURL (v : string) (c : Config) : Config :=
  {| OllamaURL := v; Model_ := Model_ c; Timeout := Timeout c;
     Temperature_ := Temperature_ c; MaxFileSize := MaxFileSize c;
     MaxImageDimension := MaxImageDimension c;
     WithSummary_ := WithSummary_ c;
     WithLanguageDetection_ := WithLanguageDetection_ c;
     WithStructuredExtraction_ := WithStructuredExtraction_ c;
     WithBoundingBoxes_ := WithBoundingBoxes_ c;
     WithConfidenceScores_ := WithConfidenceScores_ c |}.

Definition set_Temperature (v : float64) (c : Config) : Config :=
  {| OllamaURL := OllamaURL c; Model_ := Model_ c; Timeout := Timeout c;
     Temperature_ := v; MaxFileSize := MaxFileSize c;
     MaxImageDimension := MaxImageDimension c;
     WithSummary_ := WithSummary_ c;
     WithLanguageDetection_ := WithLanguageDetection_ c;
     WithStructuredExtraction_ := WithStructuredExtraction_ c;
     WithBoundingBoxes_ := WithBoundingBoxes_ c;
     WithConfidenceScores_ := WithConfidenceScores_ c |}.

Definition set_MaxFileSize (v : Z) (c : Config) : Config :=
  {| OllamaURL := OllamaURL c; Model_ := Model_ c; Timeout := Timeout c;
     Temperature_ := Temperature_ c; MaxFileSize := v;
     MaxImageDimension := MaxImageDimension c;
     WithSummary_ := WithSummary_ c;
     WithLanguageDetection_ := WithLanguageDetection_ c;
     WithStructuredExtraction_ := WithStructuredExtraction_ c;
     WithBoundingBoxes_ := WithBoundingBoxes_ c;
     WithConfidenceScores_ := WithConfidenceScores_ c |}.

Definition WithSummary (enabled : bool) : Option := set_WithSummary enabled.

Definition WithLanguageDetection (enabled : bool) : Option :=
  set_WithLanguageDetection enabled.

Definition WithStructuredExtraction (enabled : bool) : Option :=
  set_WithStructuredExtraction enabled.

Definition WithBoundingBoxes (enabled : bool) : Option :=
  set_WithBoundingBoxes enabled.

Definition WithConfidenceScores (enabled : bool) : Option :=
  set_WithConfidenceScores enabled.

Definition WithModel (model : string) : Option :=
  fun c => if negb (bool_decide (model = "")) then set_Model model c else c.

Definition WithTimeout (d : Z) : Option :=
  fun c => if d >? 0 then set_Timeout d c else c.

Definition WithOllamaURL (url : string) : Option :=
  fun c => if negb (bool_decide (url = "")) then set_OllamaURL url c else c.

Definition fle (x y : float64) : bool := Qle_bool x y.

Definition WithTemperature (t : float64) : Option :=
  fun c => if fle 0%Q t && fle t 2%Q then set_Temperature t c else c.

Definition WithMaxFileSize (size : Z) : Option :=
  fun c => if size >? 0 then set_MaxFileSize size c else c.

(** [cfg := DefaultConfig(); for _, opt := range opts { opt(cfg) }]. *)
Definition apply_options (opts : list Option) : Config :=
  fold_left (fun cfg opt => opt cfg) opts DefaultConfig.

(** ** Package ocr: the result assembler *)

Definition buildMetadata (resp : OllamaVisionResponse) : Metadata :=
  let md := {| Language := None; DocumentType := DocumentTypeUnknown;
               ConfidenceScore := 0%Q |} in
  match vMetadata resp with
  | None => md
  | Some m =>
      let dt := oDocumentType m in
      {| Language := oLanguage m;
         ConfidenceScore := oConfidenceScore m;
         DocumentType :=
           if comma_ok ValidDocumentTypes dt then dt else DocumentType md |}
  end.

(** The body of [for _, line := range resp.Text.Lines]. *)
Definition build_line (cfg : Config) (line : OllamaTextLine) : TextLine :=
  {| Text := oText line;
     BoundingBox_ :=
       if WithBoundingBoxes_ cfg && bool_decide (oBoundingBox line <> None)
       then oBoundingBox line else None;
     Confidence :=
       if negb (WithConfidenceScores_ cfg) then 0%Q else oConfidence line |}.

Definition buildText (resp : OllamaVisionResponse) (cfg : Config) : TextResult :=
  match vText resp with
  | None => {| Raw := ""; Lines := Some [] |}
  | Some t =>
      {| Raw := oRaw t;
         Lines := fold_left (fun lines line => append lines [build_line cfg line])
                    (elems (oLines t)) (Some []) |}
  end.

Definition buildStructuredData (resp : OllamaVisionResponse) (cfg : Config)
  : StructuredData :=
  let sd := {| KeyValuePairs := Some ∅; Tables := Some [] |} in
  if negb (WithStructuredExtraction_ cfg)
     || bool_decide (vStructuredData resp = None)
  then sd
  else
    match vStructuredData resp with
    | None => sd
    | Some rsd =>
        {| KeyValuePairs :=
             if bool_decide (oKeyValuePairs rsd <> None)
             then oKeyValuePairs rsd else KeyValuePairs sd;
           Tables :=
             if bool_decide (oTables rsd <> None)
             then oTables rsd else Tables sd |}
    end.

Definition buildSummary (resp : OllamaVisionResponse) (cfg : Config)
  : option string :=
  if negb (WithSummary_ cfg) then None else vSummary resp.

(** [buildOCRResult] assembles the final OCRResult from engine output. *)
Definition buildOCRResult (source sourceType checksum : string)
    (imageInfo : ImageInfo) (result : ProcessResult) (cfg : Config) : OCRResult :=
  let resp := VisionResponse result in
  let image :=
    match vImage resp with
    | None => imageInfo
    | Some vi =>
        {| Width := if oWidth vi >? 0 then oWidth vi else Width imageInfo;
           Height := if oHeight vi >? 0 then oHeight vi else Height imageInfo;
           DPI := match oDPI vi with
                  | Some d => Some d
                  | None => DPI imageInfo
                  end;
           ColorMode :=
             if negb (bool_decide (oColorMode vi = ""))
                && comma_ok ValidColorModes (oColorMode vi)
             then oColorMode vi else ColorMode imageInfo |}
    end in
  {| Source_ := {| Type_ := sourceType; Path := source; Checksum := checksum |};
     Image := image;
     Metadata_ := buildMetadata resp;
     Text_ := buildText resp cfg;
     StructuredData_ := buildStructuredData resp cfg;
     Summary := buildSummary resp cfg |}.

(** [Extract] from the point where the engine has handed back [result]
    (the last statements of the function): the result is assembled,
    validated and returned with a [nil] error whatever the validation
    says.  The first component is the result returned to the caller, the
    second the validation error, which only goes to the log. *)
Definition Extract_finish (source sourceType checksum : string)
    (imageInfo : ImageInfo) (result : ProcessResult) (cfg : Config)
  : OCRResult * option error :=
  let ocrResult := buildOCRResult source sourceType checksum imageInfo result cfg in
  (ocrResult, ValidateOCRResult (Some ocrResult)).

(** The engine configuration [Extract] derives from the options. *)
Definition processCfg_of (cfg : Config) (requestID : string) : ProcessConfig :=
  {| cModel := Model_ cfg;
     cTemperature := Temperature_ cfg;
     RequestID := requestID;
     cWithSummary := WithSummary_ cfg;
     cWithLanguageDetection := WithLanguageDetection_ cfg;
     cWithStructuredExtraction := WithStructuredExtraction_ cfg;
     cWithBoundingBoxes := WithBoundingBoxes_ cfg;
     cWithConfidenceScores := WithConfidenceScores_ cfg |}.

(** ** Package engine: small helpers *)

(** [truncate] truncates a string to maxLen bytes. *)
Definition truncate (s : bytes) (maxLen : Z) : bytes :=
  if Z.of_nat (length s) <=? maxLen then s
  else substr s 0 maxLen ++ b "...".

(** ** Views used to state the properties *)

(** What a page result holds, with [nil] sections, maps and slices read
    as empty. *)
Definition result_kvs (r : ProcessResult) : gmap string string :=
  match vStructuredData (VisionResponse r) with
  | Some sd => entries (oKeyValuePairs sd)
  | None => ∅
  end.

Definition result_lines (r : ProcessResult) : list OllamaTextLine :=
  match vText (VisionResponse r) with
  | Some t => elems (oLines t)
  | None => []
  end.

Definition result_tables (r : ProcessResult) : list Table :=
  match vStructuredData (VisionResponse r) with
  | Some sd => elems (oTables sd)
  | None => []
  end.

Definition result_summary (r : ProcessResult) : option string :=
  vSummary (VisionResponse r).

(** The value of the last element of [l] on which [f] is defined. *)
Definition last_defined {A B : Type} (f : A -> option B) (l : list A) : option B :=
  last (omap f l).


Definition in_range (q : float64) : Prop := (0 <= q)%Q /\ (q <= 1)%Q.

Definition response_lines (resp : OllamaVisionResponse) : list OllamaTextLine :=
  match vText resp with
  | Some t => elems (oLines t)
  | None => []
  end.

(** The confidence values a model reply carries are all in [0,1]. *)
Definition response_confidences_in_range (resp : OllamaVisionResponse) : Prop :=
  match vMetadata resp with
  | Some m => in_range (oConfidenceScore m)
  | None => True
  end
  /\ Forall (fun line => in_range (oConfidence line)) (response_lines resp).

Definition DocumentTypes : list string :=
  [DocumentTypeInvoice; DocumentTypeReceipt; DocumentTypeIDCard;
   DocumentTypeContract; DocumentTypeUnknown].

Definition ColorModes : list string :=
  [ColorModeRGB; ColorModeGrayscale; ColorModeCMYK; ColorModeUnknown].

(** A reply whose only content is its metadata. *)
Definition reply_with_metadata (m : OllamaMetadata) : ProcessResult :=
  {| VisionResponse :=
       {| vMetadata := Some m; vText := None; vStructuredData := None;
          vSummary := None; vImage := None |};
     Model := DefaultModel; PromptTokens := 0; EvalTokens := 0; Latency := 0 |}.

Definition sample_image : ImageInfo :=
  {| Width := 800; Height := 600; DPI := None; ColorMode := ColorModeRGB |}.

(** [strings.Contains] on strings. *)
Definition str_contains (s substr : string) : bool := Contains (b s) (b substr).

(** The JSON field names of the schema, quoted as they stand in a JSON
    text: the frame every reply has, and those of each feature. *)
Definition frame_fields : list string :=
  map unq ["'metadata'"; "'document_type'"; "'confidence_score'"; "'text'";
           "'raw'"; "'lines'"].

Definition feature_fields (cfg : PromptConfig) : list string :=
  map unq
    ((if pWithLanguageDetection cfg then ["'language'"] else [])
     ++ (if pWithBoundingBoxes cfg
         then ["'bounding_box'"; "'x'"; "'y'"; "'width'"; "'height'"] else [])
     ++ (if pWithConfidenceScores cfg then ["'confidence'"] else [])
     ++ (if pWithStructuredExtraction cfg
         then ["'structured_data'"; "'key_value_pairs'"; "'tables'";
               "'headers'"; "'rows'"] else [])
     ++ (if pWithSummary cfg then ["'summary'"] else [])).

(** The two stages of [CleanJSONResponse]: the reply trimmed and without
    its code fence, and the text from its first opening to its last closing
    brace. *)
Definition strip_fences (raw : bytes) : bytes :=
  let s := TrimSpace raw in
  let s :=
    if HasPrefix s (b "```json") then TrimPrefix s (b "```json")
    else if HasPrefix s (b "```") then TrimPrefix s (b "```")
    else s in
  let s := TrimSuffix s (b "```") in
  TrimSpace s.

Definition extract_braces (s : bytes) : bytes :=
  let start := Index s (b "{") in
  let end_ := LastIndex s (b "}") in
  if negb (start =? -1) && negb (end_ =? -1) && (end_ >? start)
  then substr s start (end_ + 1)
  else s.

(** A reply inside a markdown JSON code fence, the way the tests of the
    validator write one. *)
Definition wrap_in_json_fence (reply : string) : string :=
  "```json" +:+ newline +:+ reply +:+ newline +:+ "```".

Definition lf : ascii := ascii_of_N 10.
Definition lbrace : ascii := "{"%char.
Definition rbrace : ascii := "}"%char.

(** [s] has an opening brace somewhere before a closing one. *)
Definition has_brace_pair (s : bytes) : Prop :=
  exists i j : nat, (i < j)%nat /\ s !! i = Some lbrace /\ s !! j = Some rbrace.

(** [i] is the offset of the first [c] of [s], [j] that of the last. *)
Definition first_at (c : ascii) (s : bytes) (i : nat) : Prop :=
  s !! i = Some c /\ forall k : nat, (k < i)%nat -> s !! k <> Some c.

Definition last_at (c : ascii) (s : bytes) (j : nat) : Prop :=
  s !! j = Some c /\ forall k : nat, (j < k)%nat -> s !! k <> Some c.

Definition nobrace (c : ascii) : Prop := c <> lbrace /\ c <> rbrace.

(** A byte that is neither a brace nor a backquote. *)
Definition plain (c : ascii) : Prop :=
  c <> lbrace /\ c <> rbrace /\ c <> "`"%char.

(** What the validator asks of a result. *)
Definition valid_line (line : TextLine) : Prop :=
  Text line <> "" /\ in_range (Confidence line).

Definition conforms (r : OCRResult) : Prop :=
  (Type_ (Source_ r) = SourceTypeFile \/ Type_ (Source_ r) = SourceTypeURL)
  /\ Path (Source_ r) <> ""
  /\ Checksum (Source_ r) <> ""
  /\ DocumentType (Metadata_ r) ∈ DocumentTypes
  /\ in_range (ConfidenceScore (Metadata_ r))
  /\ ColorMode (Image r) ∈ ColorModes
  /\ Forall valid_line (elems (Lines (Text_ r)))
  /\ KeyValuePairs (StructuredData_ r) <> None
  /\ Tables (StructuredData_ r) <> None.

(** The document-level confidence a reply carries, 0 without metadata. *)
Definition response_confidence (resp : OllamaVisionResponse) : float64 :=
  match vMetadata resp with
  | Some m => oConfidenceScore m
  | None => 0%Q
  end.

(** A line of a reply copied field by field. *)
Definition copy_line (line : OllamaTextLine) : TextLine :=
  {| Text := oText line; BoundingBox_ := oBoundingBox line;
     Confidence := oConfidence line |}.

(** The placeholder [GetImageInfo] gives for what it cannot measure. *)
Definition no_image_info : ImageInfo :=
  {| Width := 0; Height := 0; DPI := None; ColorMode := ColorModeUnknown |}.

(** The options a caller can pass, as calls of the ten constructors. *)
Inductive OptionCall : Type :=
| CallWithSummary (enabled : bool)
| CallWithLanguageDetection (enabled : bool)
| CallWithStructuredExtraction (enabled : bool)
| CallWithBoundingBoxes (enabled : bool)
| CallWithConfidenceScores (enabled : bool)
| CallWithModel (model : string)
| CallWithTimeout (d : Z)
| CallWithOllamaURL (url : string)
| CallWithTemperature (t : float64)
| CallWithMaxFileSize (size : Z).

Definition option_of (call : OptionCall) : Option :=
  match call with
  | CallWithSummary enabled => WithSummary enabled
  | CallWithLanguageDetection enabled => WithLanguageDetection enabled
  | CallWithStructuredExtraction enabled => WithStructuredExtraction enabled
  | CallWithBoundingBoxes enabled => WithBoundingBoxes enabled
  | CallWithConfidenceScores enabled => WithConfidenceScores enabled
  | CallWithModel model => WithModel model
  | CallWithTimeout d => WithTimeout d
  | CallWithOllamaURL url => WithOllamaURL url
  | CallWithTemperature t => WithTemperature t
  | CallWithMaxFileSize size => WithMaxFileSize size
  end.

(** A configuration a request can run with. *)
Definition usable (c : Config) : Prop :=
  OllamaURL c <> ""
  /\ Model_ c <> ""
  /\ 0 < Timeout c
  /\ (0 <= Temperature_ c)%Q /\ (Temperature_ c <= 2)%Q
  /\ 0 < MaxFileSize c
  /\ MaxImageDimension c = DefaultMaxImageDimension.

(** What each call asks for, when it asks for something the option
    accepts. *)
Definition asks_summary (call : OptionCall) : option bool :=
  match call with CallWithSummary enabled => Some enabled | _ => None end.

Definition asks_model (call : OptionCall) : option string :=
  match call with
  | CallWithModel model => if bool_decide (model = "") then None else Some model
  | _ => None
  end.

Definition asks_temperature (call : OptionCall) : option float64 :=
  match call with
  | CallWithTemperature t => if fle 0%Q t && fle t 2%Q then Some t else None
  | _ => None
  end.

Definition asks_timeout (call : OptionCall) : option Z :=
  match call with
  | CallWithTimeout d => if d >? 0 then Some d else None
  | _ => None
  end.

(** The sum of a counter over the pages, in the integers. *)
Definition total (f : ProcessResult -> Z) (rs : list ProcessResult) : Z :=
  foldr (fun r acc => f r + acc) 0 rs.

(** The raw text a page contributes to the merged text: its own raw text
    under a header with its page number, nothing when the page has no
    text section.  [i] is the page's index, from 0. *)
Definition page_part (i : Z) (r : ProcessResult) : option string :=
  match vText (VisionResponse r) with
  | Some text =>
      Some (("--- Page " +:+ pretty (i + 1) +:+ " ---" +:+ newline)
            +:+ oRaw text)
  | None => None
  end.

Definition page_parts (rs : list ProcessResult) : list string :=
  omap id (imap (fun i r => page_part (Z.of_nat i) r) rs).

Definition int64_range (z : Z) : Prop := - 2 ^ 63 <= z < 2 ^ 63.

Section EngineRuns.

Context {World : Type}.
Variable Generate : GenerateRequest -> World -> (error + GenerateResponse) * World.
Variable time_Now : World -> Z.
Variable ctx_Err : World -> option error.
Variable json_Unmarshal : string -> error + OllamaVisionResponse.
Variable EncodeBase64 : bytes -> string.

(** The pages of [pages] are all processed, one after the other from the
    state [st], each with the context not done and [Process] giving a
    result: the results in page order and the state reached. *)
Fixpoint run_pages (cfg : ProcessConfig) (pages : list bytes) (st : State)
  : option (list ProcessResult * State) :=
  match pages with
  | [] => Some ([], st)
  | page :: rest =>
      match ctx_Err (world st) with
      | Some _ => None
      | None =>
          match Process Generate time_Now json_Unmarshal EncodeBase64
                  page cfg st with
          | (Some (inr result), st') =>
              match run_pages cfg rest st' with
              | Some (results, st'') => Some (result :: results, st'')
              | None => None
              end
          | _ => None
          end
      end
  end.

End EngineRuns.

(** A stand-in for the model server in the examples: the world counts the
    requests made; every request is answered with an empty JSON object,
    except request number [refused], which fails. *)
Definition stub_reply : OllamaVisionResponse :=
  {| vMetadata := None; vText := None; vStructuredData := None;
     vSummary := None; vImage := None |}.

Definition stub_Generate (refused : nat) (req : GenerateRequest) (w : nat)
  : (error + GenerateResponse) * nat :=
  (if bool_decide (w = refused) then inl (errors_New "connection refused")
   else inr {| gModel := rModel req; CreatedAt := ""; Response := "{}";
               Done := true; TotalDuration := 0; LoadDuration := 0;
               PromptEvalCount := 1; PromptEvalDuration := 0;
               EvalCount := 1; EvalDuration := 0 |},
   S w).

Definition stub_Unmarshal (s : string) : error + OllamaVisionResponse :=
  inr stub_reply.

Definition stub_cfg : ProcessConfig :=
  {| cModel := "llama3.2-vision"; cTemperature := 0.1%Q; RequestID := "ocr-1";
     cWithSummary := false; cWithLanguageDetection := true;
     cWithStructuredExtraction := true; cWithBoundingBoxes := true;
     cWithConfidenceScores := true |}.

Definition is_result {A : Type} (outcome : error + A) : Prop :=
  match outcome with inr _ => True | inl _ => False end.

(** ** Package utils: sources *)

(** What the package reads of a parsed [url.URL]: the fields [Scheme],
    [Host] and [Path], and the value of the method [Hostname()]. *)
Record url_URL : Type := mkURL {
  Scheme : string; Host : string; urlPath : string; Hostname : string }.

Definition blockedPrefixes : list string :=
  ["127."; "10."; "192.168."; "172.16."; "172.17."; "172.18.";
   "172.19."; "172.20."; "172.21."; "172.22."; "172.23."; "172.24."; "172.25.";
   "172.26."; "172.27."; "172.28."; "172.29."; "172.30."; "172.31."].

Definition blockedHosts : list string := ["localhost"; "0.0.0.0"; "[::1]"].

(** [IsURL] returns true if the source looks like a URL. *)
Definition IsURL (source : string) : bool :=
  HasPrefix (b source) (b "http://") || HasPrefix (b source) (b "https://").

Section URLs.

Variable url_Parse : string -> error + url_URL.
Variable strings_ToLower : string -> string.

(** [ValidateURL] checks that a URL is well-formed and uses http/https;
    [None] is the [nil] error. *)
Definition ValidateURL (rawURL : string) : option error :=
  match url_Parse rawURL with
  | inl err => Some (Errorf_w "invalid URL" err)
  | inr u =>
      if negb (bool_decide (Scheme u = "http"))
         && negb (bool_decide (Scheme u = "https"))
      then Some (errors_New ("unsupported URL scheme: " +:+ Scheme u
                             +:+ " (only http and https are allowed)"))
      else if bool_decide (Host u = "")
      then Some (errors_New "URL has no host")
      else
        let host := strings_ToLower (Hostname u) in
        if existsb (fun blocked => bool_decide (host = blocked)) blockedHosts
        then Some (errors_New ("URL points to a blocked host: " +:+ host))
        else if existsb (fun prefix => HasPrefix (b host) (b prefix))
                  blockedPrefixes
        then Some (errors_New ("URL points to a private network: " +:+ host))
        else None
  end.

End URLs.

(** What [DownloadImage] sees of an [http.Response]: the status code, and
    the body as the bytes it delivers and the error, if any, that the read
    after its last byte gives instead of the end of the stream. *)
Record http_Response : Type := mkResponse {
  StatusCode : Z; Body : bytes; BodyErr : option error }.

(** [io.ReadAll(io.LimitReader(body, n))]: a limit that is not positive
    reads nothing, and a body of [n] bytes or more is cut at [n] without
    reaching its end. *)
Definition read_limited (resp : http_Response) (n : Z) : bytes * option error :=
  if n <=? 0 then ([], None)
  else if Z.of_nat (length (Body resp)) <? n then (Body resp, BodyErr resp)
  else (take (Z.to_nat n) (Body resp), None).

Section Download.

Context {World : Type}.
Variable http_Get : string -> World -> (error + http_Response) * World.

(** [DownloadImage] fetches an image from a URL and returns its bytes. *)
Definition DownloadImage (rawURL : string) (maxSize : Z) (w : World)
  : (error + bytes) * World :=
  let (got, w') := http_Get rawURL w in
  (match got with
   | inl err => inl (Errorf_w "download image" err)
   | inr resp =>
       if negb (StatusCode resp =? 200)
       then inl (errors_New ("download image: HTTP " +:+ pretty (StatusCode resp)))
       else
         let (data, err) := read_limited resp (add64 maxSize 1) in
         match err with
         | Some err => inl (Errorf_w "download image: read body" err)
         | None =>
             if Z.of_nat (length data) >? maxSize
             then inl (errors_New ("downloaded file exceeds maximum size of "
                                   +:+ pretty maxSize +:+ " bytes"))
             else inr data
         end
   end, w').

End Download.

(** The largest [int64]. *)
Definition MaxInt64 : Z := 2 ^ 63 - 1.

(** The colour mode [GetImageInfo] reads off the name of a colour model. *)
Definition mode_of_name (modelStr : string) : string :=
  if Contains (b modelStr) (b "RGBA") then ColorModeRGB
  else if Contains (b modelStr) (b "Gray") then ColorModeGrayscale
  else if Contains (b modelStr) (b "CMYK") then ColorModeCMYK
  else ColorModeUnknown.

(** Host names in dotted form that lie in the loopback network and in the
    private networks of the 10, 172.16 to 172.31 and 192.168 ranges. *)
Inductive private_dotted : string -> Prop :=
| private_127 rest : private_dotted ("127." +:+ rest)
| private_10 rest : private_dotted ("10." +:+ rest)
| private_192_168 rest : private_dotted ("192.168." +:+ rest)
| private_172 (n : Z) rest :
    16 <= n <= 31 -> private_dotted ("172." +:+ pretty n +:+ "." +:+ rest).

(** What the prompt writes for a feature that is switched off, and the
    two rules it adds for features that are switched on. *)
Definition asks_null_summary : string := unq "'summary': null".
Definition asks_null_language : string := unq "'language': null,".
Definition asks_null_bounding_box : string := unq "'bounding_box': null,".
Definition asks_zero_confidence : string := unq "'confidence': 0.0".
Definition asks_empty_structured_data : string :=
  unq "'key_value_pairs': {}," +:+ newline +:+ unq "    'tables': []".
Definition rule_bounding_boxes : string := "6. Estimate bounding boxes".
Definition rule_language : string := "7. Detect the primary language".

(** ** Package utils: files *)

Definition SupportedExtensions : gmap string bool :=
  <[".png" := true]> (<[".jpg" := true]> (<[".jpeg" := true]>
  (<[".pdf" := true]> ∅))).

(** What [ValidateFilePath] reads of an [os.FileInfo], and what [os.Stat]
    hands back: the info, or an error that [os.IsNotExist] recognises or
    does not. *)
Record FileInfo : Type := mkFileInfo { IsDir : bool; Size : Z }.

Inductive stat : Type :=
| stat_info (info : FileInfo)
| stat_error (isNotExist : bool) (err : error).

Section Files.

Context {World : Type}.
Variable url_Parse : string -> error + url_URL.
Variable strings_ToLower : string -> string.
Variable filepath_Ext : string -> string.
Variable strconv_Quote : string -> string.
Variable os_Stat : string -> World -> stat.
Variable os_ReadFile : string -> World -> error + bytes.

(** [ValidateFilePath] checks that a file exists, is within size limits,
    and has a supported extension; [%q] is [strconv.Quote]. *)
Definition ValidateFilePath (path : string) (maxSize : Z) (w : World)
  : option error :=
  let ext := strings_ToLower (filepath_Ext path) in
  if negb (index_bool SupportedExtensions ext)
  then Some (errors_New ("unsupported extension " +:+ strconv_Quote ext))
  else
    match os_Stat path w with
    | stat_error isNotExist err =>
        if isNotExist then Some (errors_New ("file not found: " +:+ path))
        else Some (Errorf_w "stat file" err)
    | stat_info info =>
        if IsDir info
        then Some (errors_New ("path is a directory, not a file: " +:+ path))
        else if Size info >? maxSize
        then Some (errors_New ("file size " +:+ pretty (Size info)
                               +:+ " exceeds maximum " +:+ pretty maxSize
                               +:+ " bytes"))
        else None
    end.

(** [LoadImageFromFile] reads an image file and returns its bytes. *)
Definition LoadImageFromFile (path : string) (w : World) : error + bytes :=
  match os_ReadFile path w with
  | inl err => inl (Errorf_w "read file" err)
  | inr data => inr data
  end.

(** [FileExtension] returns the lowercase extension for a source path or
    URL; [url.Parse] gives no URL when it gives an error. *)
Definition FileExtension (source : string) : string :=
  if IsURL source then
    match url_Parse source with
    | inr u => strings_ToLower (filepath_Ext (urlPath u))
    | inl _ => ""
    end
  else strings_ToLower (filepath_Ext source).

End Files.

(** ** Package ocr: errors *)

Definition ErrUnsupportedFormat : error := errors_New "ocr: unsupported file format".
Definition ErrFileTooLarge : error :=
  errors_New "ocr: file exceeds maximum allowed size".
Definition ErrInvalidURL : error := errors_New "ocr: invalid or unsafe URL".
Definition ErrFileNotFound : error := errors_New "ocr: file not found".
Definition ErrFileReadFailed : error := errors_New "ocr: failed to read file".
Definition ErrImageDecodeFailed : error := errors_New "ocr: failed to decode image".
Definition ErrPDFParseFailed : error := errors_New "ocr: failed to parse PDF".
Definition ErrOllamaUnavailable : error :=
  errors_New "ocr: ollama server is unavailable".
Definition ErrOllamaRequestFailed : error :=
  errors_New "ocr: ollama API request failed".
Definition ErrInvalidJSONResponse : error :=
  errors_New "ocr: model returned invalid JSON".
Definition ErrContextCanceled : error :=
  errors_New "ocr: context canceled or deadline exceeded".
Definition ErrValidationFailed : error := errors_New "ocr: output validation failed".
Definition ErrEmptySource : error := errors_New "ocr: source path or URL is empty".
Definition ErrURLFetchFailed : error :=
  errors_New "ocr: failed to fetch image from URL".

(** The underlying error of an [OCRError] as [Extract] builds it: an error
    as it is, or [fmt.Errorf("%w: %v", sentinel, err)], which wraps the
    sentinel and only quotes the text of [err]. *)
Inductive cause : Type :=
| as_is (err : error)
| Errorf_wv (sentinel : error) (err : error).

Definition cause_Error (c : cause) : string :=
  match c with
  | as_is err => Error err
  | Errorf_wv sentinel err => Error sentinel +:+ ": " +:+ Error err
  end.

(** [OCRError] wraps errors with additional context. *)
Record OCRError : Type := mkOCRError {
  Op : string; eRequestID : string; Err : cause }.

Definition OCRError_Error (e : OCRError) : string :=
  if negb (bool_decide (eRequestID e = ""))
  then "ocr [" +:+ eRequestID e +:+ "] " +:+ Op e +:+ ": " +:+ cause_Error (Err e)
  else "ocr " +:+ Op e +:+ ": " +:+ cause_Error (Err e).

Definition OCRError_Unwrap (e : OCRError) : cause := Err e.

Definition NewOCRError (op requestID : string) (err : cause) : OCRError :=
  {| Op := op; eRequestID := requestID; Err := err |}.

Definition WrapError (op : string) (err : cause) : OCRError :=
  {| Op := op; eRequestID := ""; Err := err |}.

(** ** Package ocr: [Extract] *)

(** What the first half of [Extract] establishes about the source. *)
Record loaded : Type := mkLoaded {
  imageData : bytes; sourceType : string; checksum : string; ext : string }.

Section Extract.

(** The outside of [Extract]: the clock behind the request identifier,
    the URL parser, the file system, the HTTP client behind
    [DownloadImage], the two hash functions of [utils], the image decoder,
    the two calls of the model client (given the base URL and the timeout
    it was made with), the state of the context derived with
    the timeout, the PDF rasteriser, the codecs, and the temporary file.
    Logging is left out. *)
Context {World : Type}.
Variable generateRequestID : World -> string.
Variable url_Parse : string -> error + url_URL.
Variable strings_ToLower : string -> string.
Variable filepath_Ext : string -> string.
Variable strconv_Quote : string -> string.
Variable os_Stat : string -> World -> stat.
Variable os_ReadFile : string -> World -> error + bytes.
Variable SHA256File : string -> World -> error + string.
Variable SHA256Bytes : bytes -> string.
Variable http_Get : string -> World -> (error + http_Response) * World.
Variable image_DecodeConfig : bytes -> error + image_Config.
Variable client_Ping : string -> Z -> World -> option error * World.
Variable client_Generate :
  string -> Z -> GenerateRequest -> World -> (error + GenerateResponse) * World.
Variable time_Now : World -> Z.
Variable ctx_Err : Z -> World -> option error.
Variable PDFToImages : string -> World -> error + list bytes.
Variable json_Unmarshal : string -> error + OllamaVisionResponse.
Variable EncodeBase64 : bytes -> string.
Variable os_CreateTemp : World -> (error + string) * World.
Variable file_Write : string -> bytes -> World -> option error * World.
Variable file_Close : string -> World -> World.
Variable os_Remove : string -> World -> World.

Definition set_world (w : World) (st : @State World) : @State World :=
  {| world := w; sent := sent st |}.

(** The block of [Extract] that determines the source type and loads the
    image data. *)
Definition load_source (requestID source : string) (cfg : Config) (st : State)
  : (OCRError + loaded) * State :=
  if IsURL source then
    match ValidateURL url_Parse strings_ToLower source with
    | Some err =>
        (inl (NewOCRError "Extract.ValidateURL" requestID
                (Errorf_wv ErrInvalidURL err)), st)
    | None =>
        let ext := FileExtension url_Parse strings_ToLower filepath_Ext source in
        let (got, w) := DownloadImage http_Get source (MaxFileSize cfg) (world st) in
        match got with
        | inl err =>
            (inl (NewOCRError "Extract.DownloadImage" requestID
                    (Errorf_wv ErrURLFetchFailed err)), set_world w st)
        | inr imageData =>
            (inr {| imageData := imageData; sourceType := SourceTypeURL;
                    checksum := SHA256Bytes imageData; ext := ext |},
             set_world w st)
        end
    end
  else
    let ext := FileExtension url_Parse strings_ToLower filepath_Ext source in
    match ValidateFilePath strings_ToLower filepath_Ext strconv_Quote os_Stat
            source (MaxFileSize cfg) (world st) with
    | Some err =>
        (inl (NewOCRError "Extract.ValidateFile" requestID
                (Errorf_wv ErrFileNotFound err)), st)
    | None =>
        match LoadImageFromFile os_ReadFile source (world st) with
        | inl err =>
            (inl (NewOCRError "Extract.LoadImage" requestID
                    (Errorf_wv ErrFileReadFailed err)), st)
        | inr imageData =>
            match SHA256File source (world st) with
            | inl err =>
                (inl (NewOCRError "Extract.Checksum" requestID
                        (Errorf_wv ErrFileReadFailed err)), st)
            | inr checksum =>
                (inr {| imageData := imageData; sourceType := SourceTypeFile;
                        checksum := checksum; ext := ext |}, st)
            end
        end
    end.

(** What [ProcessPDF] hands back, as [Extract] goes on with it: [None] is
    a run that does not get to the end (the loop out of rounds, or the
    nil result that [buildOCRResult] would dereference). *)
Definition after_ProcessPDF (requestID : string)
    (r : option (error + option ProcessResult))
  : option (OCRError + ProcessResult) :=
  match r with
  | None => None
  | Some (inl err) =>
      Some (inl (NewOCRError "Extract.ProcessPDF" requestID
                   (Errorf_wv ErrOllamaRequestFailed err)))
  | Some (inr None) => None
  | Some (inr (Some result)) => Some (inr result)
  end.

(** The block of [Extract] that runs the engine.  The removal of the
    temporary file is deferred in the source; nothing after this block
    touches the world, so it is done here, at every exit that follows the
    creation of the file. *)
Definition run_engine (requestID source : string) (cfg : Config) (src : loaded)
    (st : State) : option (OCRError + ProcessResult) * State :=
  let Generate := client_Generate (OllamaURL cfg) (Timeout cfg) in
  let processCfg := processCfg_of cfg requestID in
  let processPDF :=
    ProcessPDF Generate time_Now (ctx_Err (Timeout cfg)) PDFToImages
      json_Unmarshal EncodeBase64 in
  if bool_decide (ext src = ".pdf") then
    if bool_decide (sourceType src = SourceTypeURL) then
      let (tmp, w) := os_CreateTemp (world st) in
      match tmp with
      | inl err =>
          (Some (inl (NewOCRError "Extract.TempFile" requestID (as_is err))),
           set_world w st)
      | inr name =>
          let (failed, w) := file_Write name (imageData src) w in
          match failed with
          | Some err =>
              (Some (inl (NewOCRError "Extract.WriteTempFile" requestID
                            (as_is err))),
               set_world (os_Remove name (file_Close name w)) st)
          | None =>
              let (r, st) := processPDF name processCfg
                               (set_world (file_Close name w) st) in
              (after_ProcessPDF requestID r,
               set_world (os_Remove name (world st)) st)
          end
      end
    else
      let (r, st) := processPDF source processCfg st in
      (after_ProcessPDF requestID r, st)
  else
    let (r, st) := Process Generate time_Now json_Unmarshal EncodeBase64
                     (imageData src) processCfg st in
    (match r with
     | None => None
     | Some (inl err) =>
         Some (inl (NewOCRError "Extract.Process" requestID
                      (Errorf_wv ErrOllamaRequestFailed err)))
     | Some (inr result) => Some (inr result)
     end, st).

(** [Extract] is the primary public API for the OCR package. *)
Definition Extract (source : string) (opts : list Option) (st : State)
  : option (OCRError + OCRResult) * State :=
  let requestID := generateRequestID (world st) in
  let cfg := apply_options opts in
  if bool_decide (source = "") then
    (Some (inl (NewOCRError "Extract" requestID (as_is ErrEmptySource))), st)
  else
    match load_source requestID source cfg st with
    | (inl e, st) => (Some (inl e), st)
    | (inr src, st) =>
        let imageInfo :=
          GetImageInfo strings_ToLower image_DecodeConfig
            (imageData src) (ext src) in
        let (failed, w) :=
          client_Ping (OllamaURL cfg) (Timeout cfg) (world st) in
        match failed with
        | Some err =>
            (Some (inl (NewOCRError "Extract.Ping" requestID
                          (Errorf_wv ErrOllamaUnavailable err))),
             set_world w st)
        | None =>
            match run_engine requestID source cfg src (set_world w st) with
            | (None, st) => (None, st)
            | (Some (inl e), st) => (Some (inl e), st)
            | (Some (inr result), st) =>
                (Some (inr (fst (Extract_finish source (sourceType src)
                                   (checksum src) imageInfo result cfg))),
                 st)
            end
        end
    end.

End Extract.

(** The operations [Extract] can fail in before it asks the model. *)
Definition ops_before_the_engine : list string :=
  ["Extract"; "Extract.ValidateURL"; "Extract.DownloadImage";
   "Extract.ValidateFile"; "Extract.LoadImage"; "Extract.Checksum";
   "Extract.Ping"; "Extract.TempFile"; "Extract.WriteTempFile"].

(** The sentinel each failing operation of [Extract] wraps; the two
    operations on the temporary file pass the system's error on as it
    is. *)
Definition sentinel_of_op (op : string) : option error :=
  if bool_decide (op = "Extract") then Some ErrEmptySource
  else if bool_decide (op = "Extract.ValidateURL") then Some ErrInvalidURL
  else if bool_decide (op = "Extract.DownloadImage") then Some ErrURLFetchFailed
  else if bool_decide (op = "Extract.ValidateFile") then Some ErrFileNotFound
  else if bool_decide (op = "Extract.LoadImage") then Some ErrFileReadFailed
  else if bool_decide (op = "Extract.Checksum") then Some ErrFileReadFailed
  else if bool_decide (op = "Extract.Ping") then Some ErrOllamaUnavailable
  else if bool_decide (op = "Extract.ProcessPDF") then Some ErrOllamaRequestFailed
  else if bool_decide (op = "Extract.Process") then Some ErrOllamaRequestFailed
  else None.

(** The error [errors.Unwrap] finds behind a cause. *)
Definition wrapped_sentinel (c : cause) : option error :=
  match c with
  | as_is err => Some err
  | Errorf_wv sentinel _ => Some sentinel
  end.

(** [Extract] in a small world for the examples: every file is a PNG of ten
    bytes that no decoder knows, the network is down except for the model
    server, which is the stand-in above and never refuses; [parse] is
    what the URL parser makes of every source. *)
Definition stub_Extract_with (parse : error + url_URL) (source : string)
    (opts : list Option)
  : @State nat -> option (OCRError + OCRResult) * @State nat :=
  Extract (fun _ => "ocr-1") (fun _ => parse)
    (fun s => s) (fun _ => ".png") (fun s => s)
    (fun _ _ => stat_info {| IsDir := false; Size := 10 |})
    (fun _ _ => inr (b "0123456789")) (fun _ _ => inr "9a3f")
    (fun _ => "9a3f") (fun _ w => (inl (errors_New "network is down"), w))
    (fun _ => inl (errors_New "unknown format")) (fun _ _ w => (None, w))
    (fun _ _ => stub_Generate 9) Z.of_nat (fun _ _ => None)
    (fun _ _ => inr []) stub_Unmarshal (fun _ => "")
    (fun w => (inr "ocr-pdf-1.pdf", w)) (fun _ _ w => (None, w))
    (fun _ w => w) (fun _ w => w) source opts.

Definition stub_Extract : string -> list Option
  -> @State nat -> option (OCRError + OCRResult) * @State nat :=
  stub_Extract_with (inl (errors_New "not a URL")).

Definition private_URL : url_URL :=
  {| Scheme := "http"; Host := "192.168.1.1"; urlPath := "/image.png";
     Hostname := "192.168.1.1" |}.

(** A group of requests that is one request, made once or twice. *)
Definition one_or_two {A : Type} (x : A) (group : list A) : Prop :=
  group = [x] \/ group = [x; x].

(** A reply with metadata and two lines of text, for the examples. *)
Definition reply_with_lines : ProcessResult :=
  {| VisionResponse :=
       {| vMetadata := Some {| oLanguage := Some "en";
                               oDocumentType := "invoice";
                               oConfidenceScore := 0.9%Q |};
          vText := Some {| oRaw := "INVOICE" +:+ newline +:+ "Total 12";
                           oLines := Some
                             [ {| oText := "INVOICE"; oBoundingBox := None;
                                  oConfidence := 0.8%Q |};
                               {| oText := "Total 12"; oBoundingBox := None;
                                  oConfidence := 0.95%Q |} ] |};
          vStructuredData := None; vSummary := None; vImage := None |};
     Model := DefaultModel; PromptTokens := 0; EvalTokens := 0; Latency := 0 |}.

(** * Properties *)

(** ** Slices and maps *)

Lemma elems_append {A : Type} (s : slice A) (xs : list A) :
  elems (append s xs) = elems s ++ xs.
Proof.
  destruct xs as [|x xs]; simpl.
  - by rewrite app_nil_r.
  - done.
Qed.

Lemma map_copy_into_union (src : gomap) (dst : gmap string string) :
  map_copy_into src dst = entries src ∪ dst.
Proof.
  unfold map_copy_into.
  apply (map_fold_weak_ind (fun r m => r = m ∪ dst)).
  - by rewrite (left_id_L ∅ (∪)).
  - intros k v m r _ ->. by rewrite insert_union_l.
Qed.

Lemma map_copy_into_lookup (src : gomap) (dst : gmap string string) (k : string) :
  map_copy_into src dst !! k =
  match entries src !! k with
  | Some v => Some v
  | None => dst !! k
  end.
Proof.
  rewrite map_copy_into_union, lookup_union.
  destruct (entries src !! k), (dst !! k); done.
Qed.

(** ** The merge of page results *)

Lemma last_defined_cons {A B : Type} (f : A -> option B) (x : A) (l : list A) :
  last_defined f (x :: l) =
  match last_defined f l with
  | Some y => Some y
  | None => f x
  end.
Proof.
  unfold last_defined, omap. simpl. destruct (f x) as [y|]; simpl.
  - rewrite last_cons. reflexivity.
  - destruct (last (list_omap A B f l)); reflexivity.
Qed.

Section MergeLoop.

Implicit Types (rs : list ProcessResult) (st : merge_state).

Lemma merge_loop_summary rs : forall i st,
  mSummary (merge_loop i rs st) =
  match last_defined result_summary rs with
  | Some s => Some s
  | None => mSummary st
  end.
Proof.
  induction rs as [|r rs IH]; intros i st; [done|].
  simpl merge_loop. rewrite IH, last_defined_cons.
  destruct (last_defined result_summary rs); [done|].
  unfold result_summary. simpl. by destruct (vSummary (VisionResponse r)).
Qed.

Lemma merge_loop_lines rs : forall i st,
  elems (mLines (merge_loop i rs st)) =
  elems (mLines st) ++ concat (map result_lines rs).
Proof.
  induction rs as [|r rs IH]; intros i st; simpl.
  - by rewrite app_nil_r.
  - rewrite IH. unfold result_lines. simpl.
    destruct (vText (VisionResponse r)); simpl.
    + by rewrite elems_append, app_assoc.
    + done.
Qed.

Lemma merge_loop_tables rs : forall i st,
  elems (mTables (merge_loop i rs st)) =
  elems (mTables st) ++ concat (map result_tables rs).
Proof.
  induction rs as [|r rs IH]; intros i st; simpl.
  - by rewrite app_nil_r.
  - rewrite IH. unfold result_tables. simpl.
    destruct (vStructuredData (VisionResponse r)); simpl.
    + by rewrite elems_append, app_assoc.
    + done.
Qed.

Lemma merge_loop_kvs rs (k : string) : forall i st,
  mKeyValuePairs (merge_loop i rs st) !! k =
  match last_defined (fun r => result_kvs r !! k) rs with
  | Some v => Some v
  | None => mKeyValuePairs st !! k
  end.
Proof.
  induction rs as [|r rs IH]; intros i st; [done|].
  simpl merge_loop. rewrite IH, last_defined_cons.
  destruct (last_defined _ rs); [done|].
  unfold result_kvs. simpl.
  destruct (vStructuredData (VisionResponse r)); simpl.
  - apply map_copy_into_lookup.
  - by rewrite lookup_empty.
Qed.

End MergeLoop.

Lemma mergeResults_many (r0 r1 : ProcessResult) (rest : list ProcessResult) :
  let rs := r0 :: r1 :: rest in
  let st := merge_loop 0 rs merge_init in
  mergeResults rs =
  Some {| VisionResponse :=
            {| vMetadata := vMetadata (VisionResponse r0);
               vText := Some {| oRaw := Join (elems (rawParts st)) newline;
                                oLines := mLines st |};
               vStructuredData :=
                 Some {| oKeyValuePairs := Some (mKeyValuePairs st);
                         oTables := mTables st |};
               vSummary := mSummary st;
               vImage := None |};
          Model := Model r0;
          PromptTokens := mPromptTokens st;
          EvalTokens := mEvalTokens st;
          Latency := totalLatency st |}.
Proof. reflexivity. Qed.

(** C4: merging at least two page results takes the document metadata
    (language, document type, confidence score) from the first page as it
    is, and the summary from the last page whose summary is not null
    (null when no page has one). *)
Theorem merge_metadata_first_summary_last
    (r0 r1 : ProcessResult) (rest : list ProcessResult) :
  exists merged,
    mergeResults (r0 :: r1 :: rest) = Some merged
    /\ vMetadata (VisionResponse merged) = vMetadata (VisionResponse r0)
    /\ vSummary (VisionResponse merged)
       = last_defined result_summary (r0 :: r1 :: rest).
Proof.
  eexists. split; [apply mergeResults_many|].
  cbn [VisionResponse vMetadata vSummary]. split; [reflexivity|].
  rewrite merge_loop_summary.
  by destruct (last_defined result_summary (r0 :: r1 :: rest)).
Qed.

(** C5: for every list of page results the merged key-value mapping binds
    each key to the value of the last page that has the key (the union of
    the pages, the later page winning), and the merged text lines and
    tables are the pages' lines and tables concatenated in page order.
    Only the empty list has no merged result. *)
Theorem merge_union_and_concat (rs : list ProcessResult) :
  match mergeResults rs with
  | None => rs = []
  | Some merged =>
      (forall k, result_kvs merged !! k
                 = last_defined (fun r => result_kvs r !! k) rs)
      /\ result_lines merged = concat (map result_lines rs)
      /\ result_tables merged = concat (map result_tables rs)
  end.
Proof.
  destruct rs as [|r0 [|r1 rest]].
  - reflexivity.
  - simpl. repeat split.
    + intros k. unfold last_defined, omap. simpl.
      by destruct (result_kvs r0 !! k).
    + by rewrite app_nil_r.
    + by rewrite app_nil_r.
  - rewrite mergeResults_many. cbv zeta. repeat split.
    + intros k. unfold result_kvs at 1.
      cbn [VisionResponse vStructuredData oKeyValuePairs].
      change (entries (Some ?m)) with m.
      rewrite merge_loop_kvs.
      destruct (last_defined _ (r0 :: r1 :: rest)); [done|].
      apply lookup_empty.
    + unfold result_lines at 1. cbn [VisionResponse vText oLines].
      by rewrite merge_loop_lines.
    + unfold result_tables at 1. cbn [VisionResponse vStructuredData oTables].
      by rewrite merge_loop_tables.
Qed.

(** C6: merging a one-element list of page results gives back that
    element, every field of it (token counts, latency, model name and
    structured content) as it was. *)
Theorem merge_single_identity (r : ProcessResult) :
  mergeResults [r] = Some r.
Proof. reflexivity. Qed.

(** ** The result assembler *)

Lemma fold_append_lines {A B : Type} (f : A -> B) (l : list A) : forall acc,
  fold_left (fun lines line => append lines [f line]) l (Some acc)
  = Some (acc ++ map f l).
Proof.
  induction l as [|x l IH]; intros acc; simpl.
  - by rewrite app_nil_r.
  - rewrite IH. by rewrite <- app_assoc.
Qed.

Lemma buildText_lines (resp : OllamaVisionResponse) (cfg : Config) :
  Lines (buildText resp cfg) = Some (map (build_line cfg) (response_lines resp)).
Proof.
  unfold buildText, response_lines. destruct (vText resp) as [t|]; [|done].
  cbn [Lines]. apply (fold_append_lines (build_line cfg) _ []).
Qed.

Lemma comma_ok_DocumentTypes (dt : string) :
  comma_ok ValidDocumentTypes dt = true <-> dt ∈ DocumentTypes.
Proof.
  unfold comma_ok, ValidDocumentTypes, DocumentTypes.
  rewrite bool_decide_eq_true, <- elem_of_dom.
  rewrite !dom_insert_L, dom_empty_L. set_solver.
Qed.

Lemma comma_ok_ColorModes (cm : string) :
  comma_ok ValidColorModes cm = true <-> cm ∈ ColorModes.
Proof.
  unfold comma_ok, ValidColorModes, ColorModes.
  rewrite bool_decide_eq_true, <- elem_of_dom.
  rewrite !dom_insert_L, dom_empty_L. set_solver.
Qed.

(** C1, at the input where it fails: with language detection switched off
    a language the model supplied still reaches the result, since
    [buildMetadata] never looks at the configuration. *)
Theorem language_flag_is_not_applied :
  let cfg := WithLanguageDetection false DefaultConfig in
  let result := reply_with_metadata
    {| oLanguage := Some "en"; oDocumentType := "invoice";
       oConfidenceScore := 0.9%Q |} in
  WithLanguageDetection_ cfg = false
  /\ Language (Metadata_ (buildOCRResult "doc.png" SourceTypeFile "abc"
                            sample_image result cfg)) = Some "en".
Proof. split; reflexivity. Qed.

(** C2, as stated, fails: a confidence score of 5 in the model's reply is
    returned to the caller as 5, with validation only warning. *)
Lemma out_of_range_confidence_is_returned :
  let result := reply_with_metadata
    {| oLanguage := None; oDocumentType := "invoice"; oConfidenceScore := 5%Q |} in
  let out := Extract_finish "doc.png" SourceTypeFile "abc" sample_image result
               DefaultConfig in
  (1 < ConfidenceScore (Metadata_ (fst out)))%Q
  /\ snd out = Some (errors_New "confidence_score out of range [0, 1]").
Proof. split; reflexivity. Qed.

Lemma buildMetadata_DocumentType (resp : OllamaVisionResponse) :
  DocumentType (buildMetadata resp) ∈ DocumentTypes.
Proof.
  unfold buildMetadata. destruct (vMetadata resp) as [m|]; simpl.
  - destruct (comma_ok ValidDocumentTypes (oDocumentType m)) eqn:E.
    + by apply comma_ok_DocumentTypes.
    + unfold DocumentTypes. set_solver.
  - unfold DocumentTypes. set_solver.
Qed.

Lemma buildStructuredData_not_nil (resp : OllamaVisionResponse) (cfg : Config) :
  KeyValuePairs (buildStructuredData resp cfg) <> None
  /\ Tables (buildStructuredData resp cfg) <> None.
Proof.
  unfold buildStructuredData. destruct (negb _ || _); [done|].
  destruct (vStructuredData resp) as [rsd|]; [|done].
  simpl. split; case_bool_decide; done.
Qed.

Lemma GetImageInfo_ColorMode (strings_ToLower : string -> string)
    (image_DecodeConfig : bytes -> error + image_Config)
    (data : bytes) (ext : string) :
  ColorMode (GetImageInfo strings_ToLower image_DecodeConfig data ext)
  ∈ ColorModes.
Proof.
  unfold GetImageInfo, ColorModes.
  repeat (case_match; simpl); set_solver.
Qed.

Section Assembled.

Variable strings_ToLower : string -> string.
Variable image_DecodeConfig : bytes -> error + image_Config.
Variables (data : bytes) (ext source sourceType checksum : string).
Variables (result : ProcessResult) (cfg : Config).

Let measured := GetImageInfo strings_ToLower image_DecodeConfig data ext.
Let r := buildOCRResult source sourceType checksum measured result cfg.

(** C7: whatever the model's reply holds or leaves out, the assembled
    result has a key-value mapping and a table sequence that are not nil,
    a document type among the five enumerated values, which is "unknown"
    when the model's is none of them, and a colour mode among the four
    enumerated values, which is the measured one when the model's is none
    of them. *)
Theorem assembled_result_invariants :
  KeyValuePairs (StructuredData_ r) <> None
  /\ Tables (StructuredData_ r) <> None
  /\ DocumentType (Metadata_ r) ∈ DocumentTypes
  /\ match vMetadata (VisionResponse result) with
     | Some m => oDocumentType m ∉ DocumentTypes ->
                 DocumentType (Metadata_ r) = DocumentTypeUnknown
     | None => DocumentType (Metadata_ r) = DocumentTypeUnknown
     end
  /\ ColorMode (Image r) ∈ ColorModes
  /\ match vImage (VisionResponse result) with
     | Some vi => oColorMode vi ∉ ColorModes ->
                  ColorMode (Image r) = ColorMode measured
     | None => ColorMode (Image r) = ColorMode measured
     end.
Proof.
  subst r. unfold buildOCRResult. cbn [StructuredData_ Metadata_ Image].
  split; [|split; [|split; [|split; [|split]]]].
  - apply buildStructuredData_not_nil.
  - apply buildStructuredData_not_nil.
  - apply buildMetadata_DocumentType.
  - unfold buildMetadata. destruct (vMetadata (VisionResponse result)) as [m|];
      [|done].
    intros Hnot. cbn [DocumentType].
    destruct (comma_ok ValidDocumentTypes (oDocumentType m)) eqn:E; [|done].
    by apply comma_ok_DocumentTypes in E.
  - destruct (vImage (VisionResponse result)) as [vi|];
      [|apply GetImageInfo_ColorMode].
    cbn [ColorMode].
    destruct (negb _ && comma_ok ValidColorModes (oColorMode vi)) eqn:E.
    + apply andb_prop in E as [_ E]. by apply comma_ok_ColorModes.
    + apply GetImageInfo_ColorMode.
  - destruct (vImage (VisionResponse result)) as [vi|]; [|done].
    intros Hnot. cbn [ColorMode].
    destruct (negb _ && comma_ok ValidColorModes (oColorMode vi)) eqn:E; [|done].
    apply andb_prop in E as [_ E]. by apply comma_ok_ColorModes in E.
Qed.

End Assembled.

(** X1: the four flags the assembler does apply: a switched-off flag
    blanks its field whatever the model supplied. *)
Theorem disabled_flags_blank_their_fields (source sourceType checksum : string)
    (imageInfo : ImageInfo) (result : ProcessResult) (cfg : Config) :
  let r := buildOCRResult source sourceType checksum imageInfo result cfg in
  (WithSummary_ cfg = false -> Summary r = None)
  /\ (WithConfidenceScores_ cfg = false ->
      Forall (fun line => Confidence line = 0%Q) (elems (Lines (Text_ r))))
  /\ (WithBoundingBoxes_ cfg = false ->
      Forall (fun line => BoundingBox_ line = None) (elems (Lines (Text_ r))))
  /\ (WithStructuredExtraction_ cfg = false ->
      KeyValuePairs (StructuredData_ r) = Some ∅
      /\ Tables (StructuredData_ r) = Some []).
Proof.
  cbn zeta. unfold buildOCRResult.
  cbn [Summary Text_ StructuredData_]. rewrite buildText_lines.
  cbn [elems default from_option id].
  split; [|split; [|split]]; intros H.
  - unfold buildSummary. by rewrite H.
  - apply Forall_map, Forall_true. intros line. unfold build_line. cbn.
    by rewrite H.
  - apply Forall_map, Forall_true. intros line. unfold build_line. cbn.
    by rewrite H.
  - unfold buildStructuredData. by rewrite H.
Qed.

(** ** The prompt builder *)

(** C9: for each of the 32 settings of the five flags the prompt is
    built (the builder is a total function), holds an opening and a
    closing brace, and spells out the quoted JSON field names of the
    frame and of every feature that is switched on. *)
Theorem prompt_has_braces_and_field_names (cfg : PromptConfig) :
  let prompt := BuildOCRPrompt cfg in
  str_contains prompt "{" = true
  /\ str_contains prompt "}" = true
  /\ forallb (str_contains prompt) (frame_fields ++ feature_fields cfg) = true.
Proof.
  destruct cfg as [[] [] [] [] []]; vm_compute; repeat split.
Qed.

(** ** The engine: one image *)

Section ProcessProperties.

Context {World : Type}.
Variable Generate : GenerateRequest -> World -> (error + GenerateResponse) * World.
Variable time_Now : World -> Z.
Variable json_Unmarshal : string -> error + OllamaVisionResponse.
Variable EncodeBase64 : bytes -> string.

Let process := Process Generate time_Now json_Unmarshal EncodeBase64.
Let request := Process_request EncodeBase64.
Let parse := ParseAndValidateJSON json_Unmarshal.

(** The result [Process] builds from a reply that parsed. *)
Let success (w0 w : World) (resp : GenerateResponse)
    (visionResp : OllamaVisionResponse) : ProcessResult :=
  {| VisionResponse := visionResp;
     Model := gModel resp;
     PromptTokens := PromptEvalCount resp;
     EvalTokens := EvalCount resp;
     Latency := sat64 (time_Now w - time_Now w0) |}.

(** C3: [Process] sends the request once; when the reply does not parse
    it sends the very same request once more and no further; when that
    reply does not parse either it fails with "all attempts failed"
    wrapping the second parse error; and a failure of the generation
    request itself, at the first or the second attempt, ends the run at
    once with that error.  [sent] lists the requests made. *)
Theorem Process_retries_once_on_parse_failure
    (imageData : bytes) (cfg : ProcessConfig) (w0 : World) :
  let req := request imageData cfg in
  let run := process imageData cfg {| world := w0; sent := [] |} in
  match Generate req w0 with
  | (inl err, w1) =>
      run = (Some (inl (Errorf_w "ollama generate (attempt 0)" err)),
             {| world := w1; sent := [req] |})
  | (inr resp1, w1) =>
      match parse (Response resp1) with
      | inr visionResp =>
          run = (Some (inr (success w0 w1 resp1 visionResp)),
                 {| world := w1; sent := [req] |})
      | inl _ =>
          match Generate req w1 with
          | (inl err, w2) =>
              run = (Some (inl (Errorf_w "ollama generate (attempt 1)" err)),
                     {| world := w2; sent := [req; req] |})
          | (inr resp2, w2) =>
              match parse (Response resp2) with
              | inr visionResp =>
                  run = (Some (inr (success w0 w2 resp2 visionResp)),
                         {| world := w2; sent := [req; req] |})
              | inl parseErr =>
                  run = (Some (inl (Errorf_w "all attempts failed"
                                      (Errorf_w "parse response (attempt 1)"
                                         parseErr))),
                         {| world := w2; sent := [req; req] |})
              end
          end
      end
  end.
Proof.
  subst process request parse success. cbv zeta.
  unfold Process, Process_fuel, bind, now, attempts, call_Generate,
    since, ret, bind.
  change (0 + 1 + 1) with 2. change (0 + 1) with 1.
  change (0 <=? 1) with true. change (1 <=? 1) with true.
  change (2 <=? 1) with false. cbv iota. cbn [world sent app].
  destruct (Generate _ w0) as [[err|resp1] w1]; [reflexivity|].
  cbn [world sent app].
  destruct (ParseAndValidateJSON _ (Response resp1)) as [perr1|v1];
    [|reflexivity].
  cbn [world sent app].
  destruct (Generate _ w1) as [[err|resp2] w2]; [reflexivity|].
  cbn [world sent app].
  destruct (ParseAndValidateJSON _ (Response resp2)) as [perr2|v2];
    reflexivity.
Qed.

End ProcessProperties.

(** ** Package strings: prefixes, suffixes and searches *)

Lemma b_app (x y : string) : b (x +:+ y) = b x ++ b y.
Proof.
  unfold b. induction x as [|c x IH]; simpl; [done|]. by rewrite <- IH.
Qed.

Lemma str_b (x : string) : str (b x) = x.
Proof. apply string_of_list_ascii_of_string. Qed.

Lemma b_str (x : bytes) : b (str x) = x.
Proof. apply list_ascii_of_string_of_list_ascii. Qed.

Lemma HasPrefix_true (s p : bytes) : HasPrefix s p = true <-> exists k, s = p ++ k.
Proof. unfold HasPrefix. by rewrite bool_decide_eq_true. Qed.

Lemma HasSuffix_true (s p : bytes) : HasSuffix s p = true <-> exists k, s = k ++ p.
Proof. unfold HasSuffix. by rewrite bool_decide_eq_true. Qed.

Lemma HasPrefix_app (p k : bytes) : HasPrefix (p ++ k) p = true.
Proof. apply HasPrefix_true. by exists k. Qed.

Lemma HasSuffix_app (k p : bytes) : HasSuffix (k ++ p) p = true.
Proof. apply HasSuffix_true. by exists k. Qed.

Lemma TrimPrefix_app (p k : bytes) : TrimPrefix (p ++ k) p = k.
Proof. unfold TrimPrefix. by rewrite HasPrefix_app, drop_app_length. Qed.

Lemma TrimSuffix_app (k p : bytes) : TrimSuffix (k ++ p) p = k.
Proof.
  unfold TrimSuffix. rewrite HasSuffix_app, length_app.
  replace (length k + length p - length p)%nat with (length k) by lia.
  by rewrite take_app_length.
Qed.

Lemma TrimPrefix_decomp (s p : bytes) :
  exists f, s = f ++ TrimPrefix s p /\ (f = [] \/ f = p).
Proof.
  unfold TrimPrefix. destruct (HasPrefix s p) eqn:E.
  - apply HasPrefix_true in E as [k ->]. exists p.
    rewrite drop_app_length. auto.
  - exists []. auto.
Qed.

Lemma TrimSuffix_decomp (s p : bytes) :
  exists f, s = TrimSuffix s p ++ f /\ (f = [] \/ f = p).
Proof.
  destruct (HasSuffix s p) eqn:E.
  - apply HasSuffix_true in E as [k ->]. exists p.
    rewrite TrimSuffix_app. auto.
  - exists []. unfold TrimSuffix. rewrite E, app_nil_r. auto.
Qed.

Lemma HasPrefix_single (c a : ascii) (s : bytes) :
  HasPrefix (a :: s) [c] = bool_decide (a = c).
Proof.
  unfold HasPrefix. apply bool_decide_ext. split.
  - intros [k Hk]. by injection Hk.
  - intros ->. by exists s.
Qed.

Lemma HasPrefix_single_nil (c : ascii) : HasPrefix [] [c] = false.
Proof. apply bool_decide_eq_false. by intros [k Hk]. Qed.

Lemma index_from_cons (c a : ascii) (s : bytes) (i : Z) :
  index_from [c] (a :: s) i = if bool_decide (a = c) then i
                              else index_from [c] s (i + 1).
Proof. cbn [index_from]. by rewrite HasPrefix_single. Qed.

Lemma index_from_nil (c : ascii) (i : Z) : index_from [c] [] i = -1.
Proof. cbn [index_from]. by rewrite HasPrefix_single_nil. Qed.

Lemma last_index_from_cons (c a : ascii) (s : bytes) (i : Z) :
  last_index_from [c] (a :: s) i =
  if last_index_from [c] s (i + 1) =? -1
  then (if bool_decide (a = c) then i else -1)
  else last_index_from [c] s (i + 1).
Proof. cbn [last_index_from]. by rewrite HasPrefix_single. Qed.

Lemma last_index_from_nil (c : ascii) (i : Z) : last_index_from [c] [] i = -1.
Proof. cbn [last_index_from]. by rewrite HasPrefix_single_nil. Qed.

(** The first occurrence, found or not. *)
Lemma index_from_spec (c : ascii) (s : bytes) : forall i : Z,
  0 <= i ->
  (index_from [c] s i = -1 /\ c ∉ s)
  \/ (exists n : nat, index_from [c] s i = i + Z.of_nat n /\ first_at c s n).
Proof.
  induction s as [|a s IH]; intros i Hi.
  - left. rewrite index_from_nil. split; [done|]. apply not_elem_of_nil.
  - rewrite index_from_cons. case_bool_decide as Hac.
    + right. exists 0%nat. subst a. repeat split; [lia|].
      intros k Hk. lia.
    + destruct (IH (i + 1)) as [[Hm Hn]|(n & Hn & Hf & Hb)]; [lia| |].
      * left. split; [done|]. rewrite not_elem_of_cons. by split; [congruence|].
      * right. exists (S n). split; [lia|]. split; [done|].
        intros [|k] Hk; simpl; [congruence|]. apply Hb. lia.
Qed.

Lemma last_index_from_spec (c : ascii) (s : bytes) : forall i : Z,
  0 <= i ->
  (last_index_from [c] s i = -1 /\ c ∉ s)
  \/ (exists n : nat, last_index_from [c] s i = i + Z.of_nat n /\ last_at c s n).
Proof.
  induction s as [|a s IH]; intros i Hi.
  - left. rewrite last_index_from_nil. split; [done|]. apply not_elem_of_nil.
  - rewrite last_index_from_cons.
    destruct (IH (i + 1)) as [[Hm Hn]|(n & Hn & Hf & Hb)]; [lia| |].
    + rewrite Hm. simpl. case_bool_decide as Hac.
      * right. exists 0%nat. subst a. split; [lia|]. split; [done|].
        intros [|k] Hk; [lia|]. simpl. intros Hk'.
        apply Hn. by eapply list_elem_of_lookup_2.
      * left. split; [done|]. rewrite not_elem_of_cons. by split; [congruence|].
    + rewrite Hn. destruct (i + 1 + Z.of_nat n =? -1) eqn:E; [lia|].
      right. exists (S n). split; [lia|]. split; [done|].
      intros [|k] Hk; [lia|]. simpl. apply Hb. lia.
Qed.

Lemma first_at_unique (c : ascii) (s : bytes) (i i' : nat) :
  first_at c s i -> first_at c s i' -> i = i'.
Proof.
  intros [Hi Hbi] [Hi' Hbi'].
  destruct (Nat.lt_trichotomy i i') as [H|[H|H]]; [|done|].
  - by destruct (Hbi' i H).
  - by destruct (Hbi i' H).
Qed.

Lemma last_at_unique (c : ascii) (s : bytes) (j j' : nat) :
  last_at c s j -> last_at c s j' -> j = j'.
Proof.
  intros [Hj Hbj] [Hj' Hbj'].
  destruct (Nat.lt_trichotomy j j') as [H|[H|H]]; [|done|].
  - by destruct (Hbj j' H).
  - by destruct (Hbj' j H).
Qed.

(** What the brace extraction does, case by case. *)
Lemma extract_braces_cases (s : bytes) :
  (extract_braces s = s
   /\ (lbrace ∉ s \/ rbrace ∉ s
       \/ exists i j, first_at lbrace s i /\ last_at rbrace s j /\ (j <= i)%nat))
  \/ (exists i j, first_at lbrace s i /\ last_at rbrace s j /\ (i < j)%nat
                  /\ extract_braces s = take (j + 1 - i) (drop i s)).
Proof.
  unfold extract_braces, Index, LastIndex.
  change (b "{") with [lbrace]. change (b "}") with [rbrace].
  destruct (index_from_spec lbrace s 0) as [[-> Hno]|(i & -> & Hi)]; [lia| |].
  { left. simpl. auto. }
  destruct (last_index_from_spec rbrace s 0) as [[-> Hno]|(j & -> & Hj)]; [lia| |].
  { left. rewrite andb_false_r. simpl. auto. }
  replace (negb (0 + Z.of_nat i =? -1)) with true
    by (symmetry; apply negb_true_iff, Z.eqb_neq; lia).
  replace (negb (0 + Z.of_nat j =? -1)) with true
    by (symmetry; apply negb_true_iff, Z.eqb_neq; lia).
  simpl andb. destruct (0 + Z.of_nat j >? 0 + Z.of_nat i) eqn:E.
  - right. exists i, j. repeat split; try apply Hi; try apply Hj; [lia|].
    unfold substr. f_equal; [lia|]. f_equal. lia.
  - left. split; [done|]. right. right. exists i, j. repeat split;
      try apply Hi; try apply Hj. lia.
Qed.

Lemma CleanJSONResponse_stages (raw : string) :
  CleanJSONResponse raw = str (extract_braces (strip_fences (b raw))).
Proof. reflexivity. Qed.

(** C10: the clean step always yields a string.  With [s] the reply
    trimmed and stripped of its fence: when [s] has no opening brace, no
    closing brace, or its last closing brace not after its first opening
    one, [s] comes back as it is; the text between the braces is taken
    only when an opening brace comes before a closing one, and is then the
    stretch from the first opening to the last closing brace. *)
Theorem clean_keeps_text_without_brace_pair (raw : string) :
  let s := strip_fences (b raw) in
  ((lbrace ∉ s \/ rbrace ∉ s
    \/ exists i j, first_at lbrace s i /\ last_at rbrace s j /\ (j <= i)%nat) ->
   CleanJSONResponse raw = str s)
  /\ (CleanJSONResponse raw <> str s -> has_brace_pair s)
  /\ (forall i j, first_at lbrace s i -> last_at rbrace s j -> (i < j)%nat ->
      CleanJSONResponse raw = str (take (j + 1 - i) (drop i s))).
Proof.
  intros s. rewrite CleanJSONResponse_stages. fold s.
  destruct (extract_braces_cases s) as [[He Hc]|(i & j & Hi & Hj & Hij & He)].
  - rewrite He. split; [done|]. split; [done|].
    intros i j Hi Hj Hij. exfalso.
    destruct Hc as [Hc|[Hc|(i' & j' & Hi' & Hj' & Hle)]].
    + apply Hc. eapply list_elem_of_lookup_2, Hi.
    + apply Hc. eapply list_elem_of_lookup_2, Hj.
    + rewrite (first_at_unique _ _ _ _ Hi Hi') in Hij.
      rewrite (last_at_unique _ _ _ _ Hj Hj') in Hij. lia.
  - rewrite He. split; [|split].
    + intros [Hc|[Hc|(i' & j' & Hi' & Hj' & Hle)]]; exfalso.
      * apply Hc. eapply list_elem_of_lookup_2, Hi.
      * apply Hc. eapply list_elem_of_lookup_2, Hj.
      * rewrite (first_at_unique _ _ _ _ Hi Hi') in Hij.
        rewrite (last_at_unique _ _ _ _ Hj Hj') in Hij. lia.
    + intros _. exists i, j. split; [done|]. split; [apply Hi | apply Hj].
    + intros i' j' Hi' Hj' _.
      by rewrite (first_at_unique _ _ _ _ Hi Hi'), (last_at_unique _ _ _ _ Hj Hj').
Qed.

(** ** Package strings: trimming white space *)

Section TrimRunesProperties.

Variable sp1 : ascii -> bool.
Variable sp2 : ascii -> ascii -> bool.
Variable sp3 : ascii -> ascii -> ascii -> bool.

Hypothesis sp1_plain : forall c, sp1 c = true -> plain c.
Hypothesis sp2_plain : forall c1 c2, sp2 c1 c2 = true -> plain c1 /\ plain c2.
Hypothesis sp3_plain : forall c1 c2 c3,
  sp3 c1 c2 c3 = true -> plain c1 /\ plain c2 /\ plain c3.

Let len := rune_len sp1 sp2 sp3.
Let trim := trim_runes sp1 sp2 sp3.

Lemma trim_runes_unfold (s : bytes) :
  trim s = if bool_decide (len s = 0%nat) then s else trim (drop (len s) s).
Proof.
  subst len trim. destruct s as [|c1 [|c2 [|c3 s3]]]; simpl; [done|..].
  - by destruct (sp1 c1).
  - destruct (sp1 c1); [done|]. by destruct (sp2 c1 c2).
  - destruct (sp1 c1); [done|]. destruct (sp2 c1 c2); [done|].
    by destruct (sp3 c1 c2 c3).
Qed.

Lemma rune_len_bound (s : bytes) : (len s <= length s)%nat.
Proof.
  subst len. destruct s as [|c1 [|c2 [|c3 s3]]]; simpl;
    repeat case_match; lia.
Qed.

Lemma rune_len_plain (s : bytes) : Forall plain (take (len s) s).
Proof.
  subst len. destruct s as [|c1 [|c2 [|c3 s3]]]; simpl; [constructor|..].
  - destruct (sp1 c1) eqn:E1; simpl; [|constructor].
    apply sp1_plain in E1. auto.
  - destruct (sp1 c1) eqn:E1; simpl.
    { apply sp1_plain in E1. auto. }
    destruct (sp2 c1 c2) eqn:E2; simpl; [|constructor].
    apply sp2_plain in E2 as [? ?]. auto.
  - destruct (sp1 c1) eqn:E1; simpl.
    { apply sp1_plain in E1. auto. }
    destruct (sp2 c1 c2) eqn:E2; simpl.
    { apply sp2_plain in E2 as [? ?]. auto. }
    destruct (sp3 c1 c2 c3) eqn:E3; simpl; [|constructor].
    apply sp3_plain in E3 as (? & ? & ?). auto.
Qed.

(** A rune a string starts with is still there when the string goes on. *)
Lemma rune_len_app (s t : bytes) : len s <> 0%nat -> len (s ++ t) = len s.
Proof.
  subst len. destruct s as [|c1 [|c2 [|c3 s3]]]; simpl; [done|..].
  - by destruct (sp1 c1).
  - destruct (sp1 c1); [done|]. by destruct (sp2 c1 c2).
  - done.
Qed.

Lemma rune_len_head (c : ascii) (s : bytes) : ~ plain c -> len (c :: s) = 0%nat.
Proof.
  intros Hc. destruct (decide (len (c :: s) = 0%nat)) as [|Hn]; [done|].
  exfalso. apply Hc. pose proof (rune_len_plain (c :: s)) as Hp.
  destruct (len (c :: s)); [done|]. simpl in Hp. by inversion Hp.
Qed.

(** All the lemmas below go by induction on the length of the string. *)
Lemma trim_runes_ind (P : bytes -> Prop) :
  (forall s, len s = 0%nat -> P s) ->
  (forall s, len s <> 0%nat -> P (drop (len s) s) -> P s) ->
  forall s, P s.
Proof.
  intros H0 Hstep s. remember (length s) as n eqn:Hn. revert s Hn.
  induction n as [n IH] using lt_wf_ind. intros s ->.
  destruct (decide (len s = 0%nat)) as [E|E]; [by apply H0|].
  apply Hstep; [done|]. apply (IH (length (drop (len s) s))); [|done].
  rewrite length_drop. pose proof (rune_len_bound s). lia.
Qed.

Lemma trim_runes_stop (s : bytes) : len s = 0%nat -> trim s = s.
Proof. intros H. rewrite trim_runes_unfold. by rewrite bool_decide_eq_true_2. Qed.

Lemma trim_runes_step (s : bytes) :
  len s <> 0%nat -> trim s = trim (drop (len s) s).
Proof. intros H. rewrite trim_runes_unfold. by rewrite bool_decide_eq_false_2. Qed.

Lemma trim_runes_done (s : bytes) : len (trim s) = 0%nat.
Proof.
  induction s as [s H|s H IH] using trim_runes_ind.
  - by rewrite trim_runes_stop.
  - by rewrite trim_runes_step.
Qed.

Lemma trim_runes_idemp (s : bytes) : trim (trim s) = trim s.
Proof. apply trim_runes_stop, trim_runes_done. Qed.

(** What is trimmed away is made of plain bytes. *)
Lemma trim_runes_decomp (s : bytes) :
  exists p, s = p ++ trim s /\ Forall plain p.
Proof.
  induction s as [s H|s H (p & Hp & Hplain)] using trim_runes_ind.
  - exists []. by rewrite trim_runes_stop.
  - exists (take (len s) s ++ p). rewrite trim_runes_step by done. split.
    + rewrite <- app_assoc, <- Hp. by rewrite take_drop.
    + apply Forall_app. split; [apply rune_len_plain | done].
Qed.

Lemma trim_runes_head (c : ascii) (s : bytes) : ~ plain c -> trim (c :: s) = c :: s.
Proof. intros Hc. by apply trim_runes_stop, rune_len_head. Qed.

(** Appending a one-byte white space [c] that no longer rune ends with:
    it is trimmed with the rest when the string is all white space, and
    stays otherwise. *)
Lemma trim_runes_snoc (c : ascii) (s : bytes) :
  sp1 c = true -> (forall a, sp2 a c = false) ->
  (forall a a', sp3 a a' c = false) ->
  trim (s ++ [c]) = if decide (trim s = []) then [] else trim s ++ [c].
Proof.
  intros H1 H2 H3.
  induction s as [s H|s H IH] using trim_runes_ind.
  - rewrite (trim_runes_stop s H). destruct s as [|c1 s1].
    + simpl. subst trim. simpl. by rewrite H1.
    + rewrite decide_False by done. apply trim_runes_stop.
      subst len. destruct s1 as [|c2 [|c3 s3]]; simpl in *.
      * destruct (sp1 c1); [done|]. by rewrite H2.
      * destruct (sp1 c1); [done|]. destruct (sp2 c1 c2); [done|].
        by rewrite H3.
      * done.
  - rewrite (trim_runes_step s H).
    rewrite trim_runes_step by (by rewrite rune_len_app).
    rewrite rune_len_app by done.
    rewrite drop_app_le by apply rune_len_bound. apply IH.
Qed.

End TrimRunesProperties.

Lemma isSpace1_plain (c : ascii) : isSpace1 c = true -> plain c.
Proof. intros H. repeat split; intros ->; vm_compute in H; discriminate. Qed.

Lemma isSpace2_plain (c1 c2 : ascii) :
  isSpace2 c1 c2 = true -> plain c1 /\ plain c2.
Proof.
  unfold isSpace2. intros [H1 H2]%andb_prop.
  repeat split; intros ->; vm_compute in H1, H2; discriminate.
Qed.

Lemma isSpace3_plain (c1 c2 c3 : ascii) :
  isSpace3 c1 c2 c3 = true -> plain c1 /\ plain c2 /\ plain c3.
Proof.
  unfold isSpace3. intros H.
  assert ((0x80 <=? code c1)%N = true /\ (0x80 <=? code c2)%N = true
          /\ (0x80 <=? code c3)%N = true) as (H1 & H2 & H3).
  { repeat (apply orb_prop in H as [H|H]);
      repeat (apply andb_prop in H as [H ?]);
      repeat match goal with
             | E : (_ =? _)%N = true |- _ => apply N.eqb_eq in E; rewrite E
             | E : (_ || _) = true |- _ => apply orb_prop in E as [E|E]
             | E : (_ && _) = true |- _ => apply andb_prop in E as [E ?]
             end; repeat split; try reflexivity; try assumption;
      apply N.leb_le; apply N.leb_le in H; lia. }
  repeat split; intros ->; vm_compute in H1, H2, H3; discriminate.
Qed.

Lemma isSpace2_flip_plain (c1 c2 : ascii) :
  isSpace2 c2 c1 = true -> plain c1 /\ plain c2.
Proof. intros H. apply isSpace2_plain in H. tauto. Qed.

Lemma isSpace3_flip_plain (c1 c2 c3 : ascii) :
  isSpace3 c3 c2 c1 = true -> plain c1 /\ plain c2 /\ plain c3.
Proof. intros H. apply isSpace3_plain in H. tauto. Qed.

Lemma TrimLeft_decomp (s : bytes) :
  exists p, s = p ++ TrimLeft s /\ Forall plain p.
Proof.
  apply trim_runes_decomp;
    [apply isSpace1_plain | apply isSpace2_plain | apply isSpace3_plain].
Qed.

Lemma TrimRight_decomp (s : bytes) :
  exists q, s = TrimRight s ++ q /\ Forall plain q.
Proof.
  destruct (trim_runes_decomp isSpace1 (fun c1 c2 => isSpace2 c2 c1)
              (fun c1 c2 c3 => isSpace3 c3 c2 c1) isSpace1_plain
              isSpace2_flip_plain isSpace3_flip_plain (reverse s))
    as (p & Hp & Hplain).
  exists (reverse p). split.
  - unfold TrimRight, trim_reversed. rewrite <- reverse_app, <- Hp.
    by rewrite reverse_involutive.
  - by apply Forall_reverse.
Qed.

Lemma TrimSpace_decomp (s : bytes) :
  exists p q, s = p ++ TrimSpace s ++ q /\ Forall plain p /\ Forall plain q.
Proof.
  destruct (TrimLeft_decomp s) as (p & Hp & Hpp).
  destruct (TrimRight_decomp (TrimLeft s)) as (q & Hq & Hqp).
  exists p, q. unfold TrimSpace. by rewrite <- Hq.
Qed.

Lemma TrimLeft_stop (s : bytes) :
  rune_len isSpace1 isSpace2 isSpace3 s = 0%nat -> TrimLeft s = s.
Proof. apply trim_runes_stop. Qed.

Lemma TrimLeft_done (s : bytes) :
  rune_len isSpace1 isSpace2 isSpace3 (TrimLeft s) = 0%nat.
Proof. apply trim_runes_done. Qed.

Lemma TrimRight_idemp (s : bytes) : TrimRight (TrimRight s) = TrimRight s.
Proof.
  unfold TrimRight, trim_reversed. rewrite reverse_involutive.
  by rewrite trim_runes_idemp.
Qed.

(** Trimming the back of a string that does not start with white space
    leaves one that does not either. *)
Lemma TrimLeft_TrimRight (s : bytes) :
  rune_len isSpace1 isSpace2 isSpace3 s = 0%nat ->
  TrimLeft (TrimRight s) = TrimRight s.
Proof.
  intros H. apply TrimLeft_stop.
  destruct (TrimRight_decomp s) as (q & Hq & _).
  destruct (decide (rune_len isSpace1 isSpace2 isSpace3 (TrimRight s) = 0%nat))
    as [|Hn]; [done|].
  rewrite Hq in H. by rewrite rune_len_app in H.
Qed.

Lemma TrimSpace_idemp (s : bytes) : TrimSpace (TrimSpace s) = TrimSpace s.
Proof.
  unfold TrimSpace. rewrite TrimLeft_TrimRight by apply TrimLeft_done.
  apply TrimRight_idemp.
Qed.

Lemma not_plain_backquote : ~ plain "`"%char.
Proof. intros (_ & _ & H). by apply H. Qed.

(** A string between two backquotes has nothing to trim. *)
Lemma TrimSpace_backquotes (s : bytes) :
  TrimSpace ("`"%char :: s ++ ["`"%char]) = "`"%char :: s ++ ["`"%char].
Proof.
  unfold TrimSpace.
  rewrite (TrimLeft_stop ("`"%char :: s ++ ["`"%char])).
  - unfold TrimRight, trim_reversed.
    rewrite app_comm_cons, reverse_app.
    change (reverse ["`"%char] ++ reverse ("`"%char :: s))
      with ("`"%char :: reverse ("`"%char :: s)).
    rewrite trim_runes_stop.
    + by rewrite reverse_cons, reverse_involutive.
    + apply (rune_len_head _ _ _ isSpace1_plain isSpace2_flip_plain
               isSpace3_flip_plain), not_plain_backquote.
  - apply (rune_len_head _ _ _ isSpace1_plain isSpace2_plain isSpace3_plain),
      not_plain_backquote.
Qed.

Lemma isSpace2_lf (a : ascii) : isSpace2 a lf = false.
Proof.
  unfold isSpace2. change (code lf) with 10%N.
  by destruct (code a =? 0xC2)%N.
Qed.

Lemma isSpace3_lf (a a' : ascii) : isSpace3 a a' lf = false.
Proof.
  unfold isSpace3. change (code lf) with 10%N.
  by destruct (code a =? 0xE1)%N, (code a =? 0xE2)%N, (code a =? 0xE3)%N,
    (code a' =? 0x9A)%N, (code a' =? 0x80)%N, (code a' =? 0x81)%N.
Qed.

(** A line feed put before and after a string is trimmed away with the
    white space around the string. *)
Lemma TrimSpace_line_feeds (s : bytes) :
  TrimSpace (lf :: s ++ [lf]) = TrimSpace s.
Proof.
  unfold TrimSpace.
  assert (TrimLeft (lf :: s ++ [lf]) = TrimLeft (s ++ [lf])) as -> by done.
  unfold TrimLeft.
  rewrite (trim_runes_snoc isSpace1 isSpace2 isSpace3 lf s eq_refl
             isSpace2_lf isSpace3_lf).
  case_decide as E; [by rewrite E|].
  unfold TrimRight, trim_reversed. by rewrite reverse_app.
Qed.

(** ** The brace extraction does not see what surrounds the braces *)

Lemma plain_nobrace (c : ascii) : plain c -> nobrace c.
Proof. intros (? & ? & _). by split. Qed.

Lemma exists_first_at (c : ascii) (s : bytes) : c ∈ s -> exists n, first_at c s n.
Proof.
  intros Hc. destruct (index_from_spec c s 0) as [[_ Hn]|(n & _ & Hn)];
    [lia|done|by exists n].
Qed.

Lemma exists_last_at (c : ascii) (s : bytes) : c ∈ s -> exists n, last_at c s n.
Proof.
  intros Hc. destruct (last_index_from_spec c s 0) as [[_ Hn]|(n & _ & Hn)];
    [lia|done|by exists n].
Qed.

Lemma extract_braces_found (s : bytes) (i j : nat) :
  first_at lbrace s i -> last_at rbrace s j -> (i < j)%nat ->
  extract_braces s = take (j + 1 - i) (drop i s).
Proof.
  intros Hi Hj Hij.
  destruct (extract_braces_cases s)
    as [[_ Hc]|(i' & j' & Hi' & Hj' & _ & He)].
  - exfalso. destruct Hc as [Hc|[Hc|(i' & j' & Hi' & Hj' & Hle)]].
    + apply Hc. eapply list_elem_of_lookup_2, Hi.
    + apply Hc. eapply list_elem_of_lookup_2, Hj.
    + rewrite (first_at_unique _ _ _ _ Hi Hi') in Hij.
      rewrite (last_at_unique _ _ _ _ Hj Hj') in Hij. lia.
  - by rewrite (first_at_unique _ _ _ _ Hi Hi'), (last_at_unique _ _ _ _ Hj Hj').
Qed.

Lemma lookup_frame (c : ascii) (p m q : bytes) (k : nat) :
  Forall (fun a => a <> c) p -> Forall (fun a => a <> c) q ->
  (p ++ m ++ q) !! k = Some c ->
  exists k', k = (length p + k')%nat /\ m !! k' = Some c.
Proof.
  intros Hp Hq Hk.
  apply lookup_app_Some in Hk as [Hk|[Hle Hk]].
  { exfalso. eapply Forall_lookup_1 in Hp; [|exact Hk]. done. }
  apply lookup_app_Some in Hk as [Hk|[_ Hk]].
  - exists (k - length p)%nat. split; [lia|done].
  - exfalso. eapply Forall_lookup_1 in Hq; [|exact Hk]. done.
Qed.

Lemma lookup_frame_inv (p m q : bytes) (k : nat) (c : ascii) :
  m !! k = Some c -> (p ++ m ++ q) !! (length p + k)%nat = Some c.
Proof.
  intros Hk. rewrite lookup_app_r by lia.
  replace (length p + k - length p)%nat with k by lia.
  by apply lookup_app_l_Some.
Qed.

Lemma first_at_frame (c : ascii) (p m q : bytes) (n : nat) :
  Forall (fun a => a <> c) p -> Forall (fun a => a <> c) q ->
  first_at c m n -> first_at c (p ++ m ++ q) (length p + n).
Proof.
  intros Hp Hq [Hn Hb]. split; [by apply lookup_frame_inv|].
  intros k Hk Hc. apply lookup_frame in Hc as (k' & -> & Hc); [|done..].
  apply (Hb k'); [lia|done].
Qed.

Lemma last_at_frame (c : ascii) (p m q : bytes) (n : nat) :
  Forall (fun a => a <> c) p -> Forall (fun a => a <> c) q ->
  last_at c m n -> last_at c (p ++ m ++ q) (length p + n).
Proof.
  intros Hp Hq [Hn Hb]. split; [by apply lookup_frame_inv|].
  intros k Hk Hc. apply lookup_frame in Hc as (k' & -> & Hc); [|done..].
  apply (Hb k'); [lia|done].
Qed.

(** Text without braces around a string that has a brace pair does not
    change what is extracted. *)
Lemma extract_braces_frame (p m q : bytes) :
  Forall nobrace p -> Forall nobrace q -> has_brace_pair (p ++ m ++ q) ->
  has_brace_pair m /\ extract_braces (p ++ m ++ q) = extract_braces m.
Proof.
  intros Hp Hq (x & y & Hxy & Hx & Hy).
  assert (Forall (fun a => a <> lbrace) p) as Hpl
    by (eapply Forall_impl; [exact Hp|]; by intros a [? ?]).
  assert (Forall (fun a => a <> rbrace) p) as Hpr
    by (eapply Forall_impl; [exact Hp|]; by intros a [? ?]).
  assert (Forall (fun a => a <> lbrace) q) as Hql
    by (eapply Forall_impl; [exact Hq|]; by intros a [? ?]).
  assert (Forall (fun a => a <> rbrace) q) as Hqr
    by (eapply Forall_impl; [exact Hq|]; by intros a [? ?]).
  apply lookup_frame in Hx as (x' & -> & Hx); [|done..].
  apply lookup_frame in Hy as (y' & -> & Hy); [|done..].
  split; [exists x', y'; repeat split; [lia|done..]|].
  destruct (exists_first_at lbrace m) as [i Hi];
    [by eapply list_elem_of_lookup_2|].
  destruct (exists_last_at rbrace m) as [j Hj];
    [by eapply list_elem_of_lookup_2|].
  assert (i <= x')%nat as Hix.
  { destruct (decide (i <= x')%nat) as [|Hn]; [done|].
    destruct Hi as [_ Hb]. destruct (Hb x'); [lia|done]. }
  assert (y' <= j)%nat as Hyj.
  { destruct (decide (y' <= j)%nat) as [|Hn]; [done|].
    destruct Hj as [_ Hb]. destruct (Hb y'); [lia|done]. }
  assert (j < length m)%nat as Hjm by (eapply lookup_lt_Some, Hj).
  rewrite (extract_braces_found m i j) by (done || lia).
  rewrite (extract_braces_found (p ++ m ++ q) (length p + i) (length p + j));
    [|by apply first_at_frame|by apply last_at_frame|lia].
  rewrite drop_app_add', drop_app_le by lia.
  replace (length p + j + 1 - (length p + i))%nat with (j + 1 - i)%nat by lia.
  rewrite take_app_le; [done|]. rewrite length_drop. lia.
Qed.

(** ** The clean step and code fences *)

Lemma nobrace_fence_json : Forall nobrace (b "```json").
Proof. repeat (constructor; [by split|]). constructor. Qed.

Lemma nobrace_fence : Forall nobrace (b "```").
Proof. repeat (constructor; [by split|]). constructor. Qed.

Lemma Forall_plain_nobrace (p : bytes) : Forall plain p -> Forall nobrace p.
Proof. intros H. eapply Forall_impl; [exact H | apply plain_nobrace]. Qed.

(** The fence stripping only removes text without braces, at both ends. *)
Lemma strip_fences_decomp (x : bytes) :
  exists p q, x = p ++ strip_fences x ++ q /\ Forall nobrace p /\ Forall nobrace q.
Proof.
  unfold strip_fences. cbv zeta.
  destruct (TrimSpace_decomp x) as (p1 & q1 & Hx & Hp1 & Hq1).
  set (t := TrimSpace x) in *.
  match goal with |- context [TrimSuffix ?v _] => set (u := v) end.
  assert (exists f1, t = f1 ++ u /\ Forall nobrace f1) as (f1 & Ht & Hf1).
  { subst u. destruct (HasPrefix t (b "```json")) eqn:E1.
    - apply HasPrefix_true in E1 as [k Hk]. exists (b "```json").
      rewrite Hk, TrimPrefix_app. auto using nobrace_fence_json.
    - destruct (HasPrefix t (b "```")) eqn:E2.
      + apply HasPrefix_true in E2 as [k Hk]. exists (b "```").
        rewrite Hk, TrimPrefix_app. auto using nobrace_fence.
      + exists []. auto. }
  clearbody u.
  destruct (TrimSuffix_decomp u (b "```")) as (f2 & Hv & Hf2).
  destruct (TrimSpace_decomp (TrimSuffix u (b "```")))
    as (p2 & q2 & Hw & Hp2 & Hq2).
  exists (p1 ++ f1 ++ p2), (q2 ++ f2 ++ q1). split; [|split].
  - rewrite Hx, Ht, Hv at 1. rewrite Hw at 1. by rewrite <- !app_assoc.
  - rewrite !Forall_app. auto using Forall_plain_nobrace.
  - rewrite !Forall_app. repeat split; auto using Forall_plain_nobrace.
    destruct Hf2 as [->| ->]; [constructor | apply nobrace_fence].
Qed.

(** When the reply has an opening brace before a closing one, trimming
    and fences play no part: the candidate is the reply from its first
    opening to its last closing brace. *)
Lemma clean_with_brace_pair (raw : string) :
  has_brace_pair (b raw) ->
  CleanJSONResponse raw = str (extract_braces (b raw)).
Proof.
  intros Hpair. rewrite CleanJSONResponse_stages. f_equal.
  destruct (strip_fences_decomp (b raw)) as (p & q & Hx & Hp & Hq).
  rewrite Hx in Hpair. rewrite Hx at 2.
  symmetry. by apply extract_braces_frame.
Qed.

Lemma b_wrap_in_json_fence (reply : string) :
  b (wrap_in_json_fence reply)
  = b "```json" ++ (lf :: b reply ++ [lf]) ++ b "```".
Proof.
  unfold wrap_in_json_fence. rewrite !b_app. simpl.
  by rewrite <- !app_assoc.
Qed.

(** C8, as stated, fails: for the reply that is itself a bare fence the
    wrapped form keeps the fence and the bare form loses it. *)
Lemma wrapped_fence_is_cleaned_differently :
  CleanJSONResponse (wrap_in_json_fence "```") = "```"
  /\ CleanJSONResponse "```" = "".
Proof. split; reflexivity. Qed.

(** C8, amended: for every reply that has an opening brace before a
    closing one, and for every reply whose trimmed text neither starts nor
    ends with a code fence, cleaning the reply wrapped in a markdown JSON
    fence gives the same candidate, byte for byte, as cleaning the reply
    itself. *)
Theorem fence_wrapping_does_not_change_candidate (reply : string) :
  has_brace_pair (b reply)
  \/ (HasPrefix (TrimSpace (b reply)) (b "```") = false
      /\ HasSuffix (TrimSpace (b reply)) (b "```") = false) ->
  CleanJSONResponse (wrap_in_json_fence reply) = CleanJSONResponse reply.
Proof.
  intros [Hpair|[Hpre Hsuf]].
  - rewrite (clean_with_brace_pair reply Hpair).
    assert (Forall nobrace (b "```json" ++ [lf])) as Hp.
    { apply Forall_app. split; [apply nobrace_fence_json|].
      by repeat constructor. }
    assert (Forall nobrace (lf :: b "```")) as Hq.
    { constructor; [by split | apply nobrace_fence]. }
    assert (b (wrap_in_json_fence reply)
            = (b "```json" ++ [lf]) ++ b reply ++ lf :: b "```") as Hw.
    { rewrite b_wrap_in_json_fence. simpl. by rewrite <- !app_assoc. }
    rewrite clean_with_brace_pair; rewrite Hw.
    + f_equal. apply extract_braces_frame; [done..|].
      destruct Hpair as (i & j & Hij & Hi & Hj).
      exists (length (b "```json" ++ [lf]) + i)%nat,
             (length (b "```json" ++ [lf]) + j)%nat.
      split; [lia|]. split; by apply lookup_frame_inv.
    + destruct Hpair as (i & j & Hij & Hi & Hj).
      exists (length (b "```json" ++ [lf]) + i)%nat,
             (length (b "```json" ++ [lf]) + j)%nat.
      split; [lia|]. split; by apply lookup_frame_inv.
  - rewrite !CleanJSONResponse_stages. do 2 f_equal.
    assert (strip_fences (b reply) = TrimSpace (b reply)) as ->.
    { unfold strip_fences.
      assert (HasPrefix (TrimSpace (b reply)) (b "```json") = false) as ->.
      { apply not_true_is_false. intros [k Hk]%HasPrefix_true.
        rewrite Hk in Hpre. apply not_true_iff_false in Hpre. apply Hpre.
        apply HasPrefix_true. by exists (b "json" ++ k). }
      rewrite Hpre. unfold TrimSuffix. rewrite Hsuf. apply TrimSpace_idemp. }
    unfold strip_fences. rewrite b_wrap_in_json_fence.
    assert (TrimSpace (b "```json" ++ (lf :: b reply ++ [lf]) ++ b "```")
            = b "```json" ++ (lf :: b reply ++ [lf]) ++ b "```") as ->.
    { change (b "```json" ++ (lf :: b reply ++ [lf]) ++ b "```")
        with ("`"%char :: (b "``json" ++ (lf :: b reply ++ [lf]) ++ b "```")).
      replace (b "``json" ++ (lf :: b reply ++ [lf]) ++ b "```")
        with ((b "``json" ++ (lf :: b reply ++ [lf]) ++ b "``") ++ ["`"%char])
        by (rewrite <- !app_assoc; simpl; by rewrite <- !app_assoc).
      apply TrimSpace_backquotes. }
    rewrite HasPrefix_app, TrimPrefix_app, TrimSuffix_app.
    apply TrimSpace_line_feeds.
Qed.

Lemma fence_wrapping_does_not_change_candidate_witness :
  CleanJSONResponse (wrap_in_json_fence "{a}") = CleanJSONResponse "{a}".
Proof.
  apply fence_wrapping_does_not_change_candidate.
  right. split; reflexivity.
Defined.

(** ** The validator *)

Lemma index_bool_DocumentTypes (dt : string) :
  index_bool ValidDocumentTypes dt = true <-> dt ∈ DocumentTypes.
Proof.
  rewrite <- comma_ok_DocumentTypes. unfold index_bool, comma_ok.
  rewrite bool_decide_eq_true. unfold ValidDocumentTypes.
  split.
  - intros H. destruct (_ !! dt) eqn:E; [by eexists | done].
  - intros [v Hv]. rewrite Hv. simpl.
    repeat (apply lookup_insert_Some in Hv as [[_ <-]|[_ Hv]]; [done|]).
    by rewrite lookup_empty in Hv.
Qed.

Lemma index_bool_ColorModes (cm : string) :
  index_bool ValidColorModes cm = true <-> cm ∈ ColorModes.
Proof.
  rewrite <- comma_ok_ColorModes. unfold index_bool, comma_ok.
  rewrite bool_decide_eq_true. unfold ValidColorModes.
  split.
  - intros H. destruct (_ !! cm) eqn:E; [by eexists | done].
  - intros [v Hv]. rewrite Hv. simpl.
    repeat (apply lookup_insert_Some in Hv as [[_ <-]|[_ Hv]]; [done|]).
    by rewrite lookup_empty in Hv.
Qed.

Lemma flt_false (x y : float64) : flt x y = false <-> (y <= x)%Q.
Proof.
  unfold flt. rewrite negb_false_iff. apply Qle_bool_iff.
Qed.

Lemma out_of_range_false (x : float64) :
  flt x 0%Q || flt 1%Q x = false <-> in_range x.
Proof.
  rewrite orb_false_iff, !flt_false. reflexivity.
Qed.

Lemma validate_lines_None (lines : list TextLine) : forall i,
  validate_lines i lines = None <-> Forall valid_line lines.
Proof.
  induction lines as [|line rest IH]; intros i; simpl.
  - split; [constructor | done].
  - rewrite Forall_cons. unfold valid_line at 1.
    case_bool_decide as Ht.
    + split; [done | tauto].
    + destruct (flt (Confidence line) 0%Q || flt 1%Q (Confidence line)) eqn:E.
      * split; [done|]. intros [[_ Hr] _].
        apply out_of_range_false in Hr. congruence.
      * apply out_of_range_false in E. rewrite IH. tauto.
Qed.

Lemma ValidateOCRResult_None (r : OCRResult) :
  ValidateOCRResult (Some r) = None <-> conforms r.
Proof.
  unfold ValidateOCRResult, conforms.
  rewrite <- index_bool_DocumentTypes, <- index_bool_ColorModes.
  rewrite <- (validate_lines_None _ 0), <- out_of_range_false.
  destruct (negb (bool_decide (Type_ (Source_ r) = SourceTypeFile))
            && negb (bool_decide (Type_ (Source_ r) = SourceTypeURL))) eqn:E1.
  { split; [done|].
    intros ([Hs|Hs] & _); rewrite Hs in E1; vm_compute in E1; done. }
  assert (Type_ (Source_ r) = SourceTypeFile
          \/ Type_ (Source_ r) = SourceTypeURL) as Hsrc.
  { apply andb_false_iff in E1 as [E1|E1];
      apply negb_false_iff, bool_decide_eq_true in E1; tauto. }
  clear E1.
  destruct (bool_decide (Path (Source_ r) = "")) eqn:E2.
  { apply bool_decide_eq_true in E2. split; [done | tauto]. }
  apply bool_decide_eq_false in E2.
  destruct (bool_decide (Checksum (Source_ r) = "")) eqn:E3.
  { apply bool_decide_eq_true in E3. split; [done | tauto]. }
  apply bool_decide_eq_false in E3.
  destruct (index_bool ValidDocumentTypes _) eqn:E4; simpl;
    [|split; [done | intros (_ & _ & _ & ? & _); done]].
  destruct (flt _ 0%Q || flt 1%Q _) eqn:E5; simpl;
    [split; [done | intros (_ & _ & _ & _ & ? & _); done]|].
  destruct (index_bool ValidColorModes _) eqn:E6; simpl;
    [|split; [done | intros (_ & _ & _ & _ & _ & ? & _); done]].
  destruct (validate_lines 0 _) eqn:E7;
    [split; [done | intros (_ & _ & _ & _ & _ & _ & ? & _); done]|].
  destruct (bool_decide (KeyValuePairs (StructuredData_ r) = None)) eqn:E8.
  { apply bool_decide_eq_true in E8. split; [done | tauto]. }
  apply bool_decide_eq_false in E8.
  destruct (bool_decide (Tables (StructuredData_ r) = None)) eqn:E9.
  { apply bool_decide_eq_true in E9. split; [done | tauto]. }
  apply bool_decide_eq_false in E9.
  split; [|done]. intros _. repeat split; done.
Qed.


(** ** The assembler and the validator together *)

Lemma buildMetadata_ConfidenceScore (resp : OllamaVisionResponse) :
  ConfidenceScore (buildMetadata resp) = response_confidence resp.
Proof.
  unfold buildMetadata, response_confidence. by destruct (vMetadata resp).
Qed.

Lemma buildOCRResult_ColorMode (source sourceType checksum : string)
    (imageInfo : ImageInfo) (result : ProcessResult) (cfg : Config) :
  ColorMode imageInfo ∈ ColorModes ->
  ColorMode (Image (buildOCRResult source sourceType checksum imageInfo
                      result cfg)) ∈ ColorModes.
Proof.
  intros Hm. unfold buildOCRResult. cbn [Image].
  destruct (vImage (VisionResponse result)) as [vi|]; [|done].
  cbn [ColorMode].
  destruct (negb _ && comma_ok ValidColorModes (oColorMode vi)) eqn:E; [|done].
  apply andb_prop in E as [_ E]. by apply comma_ok_ColorModes.
Qed.

Lemma in_range_0 : in_range 0%Q.
Proof. split; [apply Qle_refl | discriminate]. Qed.

Lemma valid_build_line (cfg : Config) (line : OllamaTextLine) :
  valid_line (build_line cfg line)
  <-> oText line <> ""
      /\ (WithConfidenceScores_ cfg = true -> in_range (oConfidence line)).
Proof.
  unfold valid_line, build_line. cbn [Text Confidence].
  destruct (WithConfidenceScores_ cfg); cbn [negb].
  - tauto.
  - split; [intros [? _]; by split | intros [? _]; split; [done | apply in_range_0]].
Qed.

Section AssembledValidation.

Variable strings_ToLower : string -> string.
Variable image_DecodeConfig : bytes -> error + image_Config.

Let measure := GetImageInfo strings_ToLower image_DecodeConfig.

(** X3: for a source of type file or url with a path and a checksum, the
    validation that closes [Extract] passes exactly when the document
    confidence of the reply lies in [0,1], no line of the reply has an
    empty text and, with confidence scores switched on, every line's
    confidence lies in [0,1]: nothing else of an assembled result can
    fail the validator. *)
Theorem Extract_validation_depends_on_model_values_only
    (data : bytes) (ext source sourceType checksum : string)
    (result : ProcessResult) (cfg : Config) :
  sourceType = SourceTypeFile \/ sourceType = SourceTypeURL ->
  source <> "" ->
  checksum <> "" ->
  snd (Extract_finish source sourceType checksum (measure data ext) result cfg)
  = None
  <-> in_range (response_confidence (VisionResponse result))
      /\ Forall (fun line =>
                   oText line <> ""
                   /\ (WithConfidenceScores_ cfg = true ->
                       in_range (oConfidence line)))
           (response_lines (VisionResponse result)).
Proof.
  intros Htype Hsource Hsum. unfold Extract_finish. cbn [snd].
  rewrite ValidateOCRResult_None. unfold conforms.
  pose proof (buildOCRResult_ColorMode source sourceType checksum
                (measure data ext) result cfg
                (GetImageInfo_ColorMode _ _ data ext)) as Hcolor.
  unfold buildOCRResult in *.
  cbn [Source_ Type_ Path Checksum Metadata_ Image Text_ StructuredData_] in *.
  rewrite buildMetadata_ConfidenceScore, buildText_lines.
  cbn [elems default from_option id]. rewrite Forall_map.
  pose proof (buildMetadata_DocumentType (VisionResponse result)).
  pose proof (buildStructuredData_not_nil (VisionResponse result) cfg) as [? ?].
  rewrite (Forall_iff _ _ _ (valid_build_line cfg)). tauto.
Qed.

(** X5: the resolution of an assembled result is the reply's or none (the
    measurement never has one), and a width or height of the reply that
    is not positive never replaces the measured one. *)
Theorem assembled_image_dimensions
    (data : bytes) (ext source sourceType checksum : string)
    (result : ProcessResult) (cfg : Config) :
  let measured := measure data ext in
  let image := Image (buildOCRResult source sourceType checksum measured
                        result cfg) in
  DPI image = vImage (VisionResponse result) ≫= oDPI
  /\ (Width image <> Width measured ->
      0 < Width image
      /\ (oWidth <$> vImage (VisionResponse result)) = Some (Width image))
  /\ (Height image <> Height measured ->
      0 < Height image
      /\ (oHeight <$> vImage (VisionResponse result)) = Some (Height image)).
Proof.
  cbv zeta. unfold buildOCRResult. cbn [Image].
  assert (DPI (measure data ext) = None) as Hdpi.
  { subst measure. unfold GetImageInfo. by repeat case_match. }
  destruct (vImage (VisionResponse result)) as [vi|]; cbn.
  - split; [|split].
    + rewrite Hdpi. by destruct (oDPI vi).
    + destruct (oWidth vi >? 0) eqn:E; [|done]. intros _. split; [lia | done].
    + destruct (oHeight vi >? 0) eqn:E; [|done]. intros _. split; [lia | done].
  - done.
Qed.

(** X6: the result of a PDF of two pages or more carries the placeholder
    image information (0 by 0, no resolution, colour mode Unknown): the
    merged reply has no image section, and a PDF is not measured. *)
Theorem multi_page_pdf_has_placeholder_image
    (r0 r1 : ProcessResult) (rest : list ProcessResult)
    (data : bytes) (ext source sourceType checksum : string) (cfg : Config) :
  strings_ToLower ext = ".pdf" ->
  exists merged,
    mergeResults (r0 :: r1 :: rest) = Some merged
    /\ Image (buildOCRResult source sourceType checksum (measure data ext)
                merged cfg) = no_image_info.
Proof.
  intros Hext. eexists. split; [apply mergeResults_many|].
  unfold buildOCRResult. cbn [Image VisionResponse vImage].
  subst measure. unfold GetImageInfo. by rewrite Hext, bool_decide_eq_true_2.
Qed.

End AssembledValidation.

Lemma Extract_validation_depends_on_model_values_only_witness :
  snd (Extract_finish "doc.png" SourceTypeFile "abc"
         (GetImageInfo (fun s => s) (fun _ => inl (errors_New "unknown format"))
            [] ".png")
         (reply_with_metadata
            {| oLanguage := None; oDocumentType := "invoice";
               oConfidenceScore := 0.5%Q |})
         DefaultConfig) = None.
Proof.
  apply Extract_validation_depends_on_model_values_only;
    [by left | done | done |].
  split; [split; discriminate | constructor].
Defined.

Lemma multi_page_pdf_has_placeholder_image_witness :
  let page := reply_with_metadata
    {| oLanguage := None; oDocumentType := "invoice";
       oConfidenceScore := 0.5%Q |} in
  exists merged,
    mergeResults [page; page] = Some merged
    /\ Image (buildOCRResult "doc.pdf" SourceTypeFile "abc"
                (GetImageInfo (fun s => s)
                   (fun _ => inl (errors_New "unknown format")) [] ".pdf")
                merged DefaultConfig) = no_image_info.
Proof.
  intros page.
  exact (multi_page_pdf_has_placeholder_image (fun s => s)
           (fun _ => inl (errors_New "unknown format")) page page []
           [] ".pdf" "doc.pdf" SourceTypeFile "abc" DefaultConfig eq_refl).
Defined.

(** X4: whatever the flags, the assembled text keeps the reply's raw text
    and its lines one for one, in order and with their text; with
    bounding boxes and confidence scores switched on the lines are the
    reply's, field by field. *)
Theorem text_lines_keep_text_and_order (resp : OllamaVisionResponse)
    (cfg : Config) :
  Raw (buildText resp cfg) = default "" (oRaw <$> vText resp)
  /\ map Text (elems (Lines (buildText resp cfg)))
     = map oText (response_lines resp)
  /\ (WithBoundingBoxes_ cfg = true -> WithConfidenceScores_ cfg = true ->
      elems (Lines (buildText resp cfg)) = map copy_line (response_lines resp)).
Proof.
  rewrite buildText_lines. cbn [elems default from_option id].
  split; [|split].
  - unfold buildText. by destruct (vText resp).
  - rewrite map_map. done.
  - intros Hb Hc. apply map_ext. intros line.
    unfold build_line, copy_line. rewrite Hb, Hc. cbn. f_equal.
    destruct (oBoundingBox line); [|by case_bool_decide].
    by rewrite bool_decide_eq_true_2.
Qed.

(** ** The options *)

Lemma apply_options_snoc (opts : list Option) (opt : Option) :
  apply_options (opts ++ [opt]) = opt (apply_options opts).
Proof. unfold apply_options. by rewrite fold_left_app. Qed.

Lemma usable_DefaultConfig : usable DefaultConfig.
Proof. unfold usable. cbn. repeat split; done. Qed.

Lemma option_of_usable (call : OptionCall) (c : Config) :
  usable c -> usable (option_of call c).
Proof.
  intros (Hu & Hm & Ht & Hlo & Hhi & Hs & Hd).
  destruct call; cbn; try done.
  - unfold WithModel. case_bool_decide; cbn; [done|]. by repeat split.
  - unfold WithTimeout. destruct (d >? 0) eqn:E; cbn; [|done].
    repeat split; try done. cbn. lia.
  - unfold WithOllamaURL. case_bool_decide; cbn; [done|]. by repeat split.
  - unfold WithTemperature, fle.
    destruct (Qle_bool 0 t) eqn:E1; cbn; [|done].
    destruct (Qle_bool t 2) eqn:E2; cbn; [|done].
    apply Qle_bool_iff in E1, E2. by repeat split.
  - unfold WithMaxFileSize. destruct (size >? 0) eqn:E; cbn; [|done].
    repeat split; try done. cbn. lia.
Qed.

(** X7: whatever options a caller passes, in whatever order and with
    whatever values, the configuration [Extract] ends up with has a
    server URL and a model name that are not empty, a positive timeout
    and file-size limit, a temperature in [0,2], and the default image
    dimension limit, which no option changes. *)
Theorem options_keep_configuration_usable (calls : list OptionCall) :
  usable (apply_options (map option_of calls)).
Proof.
  induction calls as [|call calls IH] using rev_ind.
  - apply usable_DefaultConfig.
  - rewrite map_app. cbn [map]. rewrite apply_options_snoc.
    by apply option_of_usable.
Qed.

Lemma last_defined_snoc {A B : Type} (f : A -> option B) (l : list A) (x : A) :
  last_defined f (l ++ [x]) =
  match f x with
  | Some y => Some y
  | None => last_defined f l
  end.
Proof.
  unfold last_defined. rewrite omap_app. cbn.
  destruct (f x); [by rewrite last_snoc | by rewrite app_nil_r].
Qed.

(** X8: of several calls for the same setting the last one that asks for
    an accepted value decides, and the default stays when there is none:
    shown for the summary flag, the model name (an empty name asks for
    nothing), the temperature (a value outside [0,2] asks for nothing)
    and the timeout (a duration that is not positive asks for nothing). *)
Theorem last_accepted_option_wins (calls : list OptionCall) :
  let cfg := apply_options (map option_of calls) in
  WithSummary_ cfg = default false (last_defined asks_summary calls)
  /\ Model_ cfg = default DefaultModel (last_defined asks_model calls)
  /\ Temperature_ cfg
     = default DefaultTemperature (last_defined asks_temperature calls)
  /\ Timeout cfg = default DefaultTimeout (last_defined asks_timeout calls).
Proof.
  cbv zeta. induction calls as [|call calls IH] using rev_ind.
  - done.
  - rewrite map_app. cbn [map]. rewrite apply_options_snoc.
    rewrite !last_defined_snoc.
    destruct IH as (IH1 & IH2 & IH3 & IH4).
    destruct call; cbn; try done.
    + unfold WithModel. case_bool_decide; cbn; done.
    + unfold WithTimeout. destruct (d >? 0); cbn; done.
    + unfold WithOllamaURL. case_bool_decide; cbn; done.
    + unfold WithTemperature. destruct (fle 0%Q t && fle t 2%Q); cbn; done.
    + unfold WithMaxFileSize. destruct (size >? 0); cbn; done.
Qed.

(** ** Merging: counters and raw text *)

Lemma wrap64_add_l (a c : Z) : wrap64 (wrap64 a + c) = wrap64 (a + c).
Proof.
  unfold wrap64. f_equal.
  replace ((a + 2 ^ 63) mod 2 ^ 64 - 2 ^ 63 + c + 2 ^ 63)
    with ((a + 2 ^ 63) mod 2 ^ 64 + c) by lia.
  rewrite Zplus_mod_idemp_l. f_equal. lia.
Qed.

Lemma wrap64_idemp (a : Z) : wrap64 (wrap64 a) = wrap64 a.
Proof.
  pose proof (wrap64_add_l a 0) as H. by rewrite !Z.add_0_r in H.
Qed.

Lemma wrap64_in_range (z : Z) : int64_range z -> wrap64 z = z.
Proof.
  unfold int64_range, wrap64. intros H.
  rewrite Z.mod_small; lia.
Qed.

Ltac merge_counter :=
  let rs := fresh "rs" in let IH := fresh "IH" in
  intros rs; induction rs as [|? ? IH]; intros i st Hst; cbn [merge_loop total foldr];
  [ by rewrite Z.add_0_r
  | rewrite IH by (cbn; apply wrap64_idemp);
    cbn; unfold add64; rewrite wrap64_add_l; f_equal; unfold total; lia ].

Lemma merge_loop_PromptTokens : forall (rs : list ProcessResult) i st,
  wrap64 (mPromptTokens st) = mPromptTokens st ->
  mPromptTokens (merge_loop i rs st)
  = wrap64 (mPromptTokens st + total PromptTokens rs).
Proof. merge_counter. Qed.

Lemma merge_loop_EvalTokens : forall (rs : list ProcessResult) i st,
  wrap64 (mEvalTokens st) = mEvalTokens st ->
  mEvalTokens (merge_loop i rs st)
  = wrap64 (mEvalTokens st + total EvalTokens rs).
Proof. merge_counter. Qed.

Lemma merge_loop_totalLatency : forall (rs : list ProcessResult) i st,
  wrap64 (totalLatency st) = totalLatency st ->
  totalLatency (merge_loop i rs st)
  = wrap64 (totalLatency st + total Latency rs).
Proof. merge_counter. Qed.

(** X9: merging two pages or more adds up the pages' prompt tokens,
    evaluation tokens and latencies with 64-bit wrap-around, so each
    merged counter is the exact sum whenever that sum fits in 64 bits; the
    model name is the first page's. *)
Theorem merged_counters_are_sums (r0 r1 : ProcessResult)
    (rest : list ProcessResult) :
  let rs := r0 :: r1 :: rest in
  exists merged,
    mergeResults rs = Some merged
    /\ Model merged = Model r0
    /\ PromptTokens merged = wrap64 (total PromptTokens rs)
    /\ EvalTokens merged = wrap64 (total EvalTokens rs)
    /\ Latency merged = wrap64 (total Latency rs)
    /\ (int64_range (total PromptTokens rs) ->
        PromptTokens merged = total PromptTokens rs)
    /\ (int64_range (total EvalTokens rs) ->
        EvalTokens merged = total EvalTokens rs)
    /\ (int64_range (total Latency rs) ->
        Latency merged = total Latency rs).
Proof.
  cbv zeta. eexists. split; [apply mergeResults_many|].
  cbn [Model PromptTokens EvalTokens Latency].
  rewrite merge_loop_PromptTokens, merge_loop_EvalTokens,
    merge_loop_totalLatency by done.
  cbn [merge_init mPromptTokens mEvalTokens totalLatency].
  rewrite !Z.add_0_l.
  repeat split; try done; apply wrap64_in_range.
Qed.

Lemma merge_loop_rawParts (rs : list ProcessResult) : forall (i : nat) st,
  elems (rawParts (merge_loop (Z.of_nat i) rs st))
  = elems (rawParts st)
    ++ omap id (imap (fun k r => page_part (Z.of_nat (i + k)) r) rs).
Proof.
  induction rs as [|r rs IH]; intros i st; cbn [merge_loop].
  - cbn. by rewrite app_nil_r.
  - replace (Z.of_nat i + 1) with (Z.of_nat (S i)) by lia.
    rewrite IH. cbn [imap omap list_omap]. unfold compose.
    replace (i + 0)%nat with i by lia.
    rewrite (imap_ext (fun k r0 => page_part (Z.of_nat (S i + k)) r0)
               (fun k r0 => page_part (Z.of_nat (i + S k)) r0))
      by (intros; f_equal; lia).
    cbn [merge_body rawParts]. unfold page_part at 2.
    destruct (vText (VisionResponse r)) as [text|]; cbn [id].
    + rewrite elems_append, <- app_assoc. done.
    + done.
Qed.

(** X10: the raw text of two pages or more merged is the pages' raw
    texts, each under the header "--- Page n ---" with n the page's
    position counted from 1, joined by line feeds; a page without a text
    section contributes nothing, and the pages after it keep their
    numbers. *)
Theorem merged_raw_text_has_page_headers (r0 r1 : ProcessResult)
    (rest : list ProcessResult) :
  exists merged,
    mergeResults (r0 :: r1 :: rest) = Some merged
    /\ (oRaw <$> vText (VisionResponse merged))
       = Some (Join (page_parts (r0 :: r1 :: rest)) newline).
Proof.
  eexists. split; [apply mergeResults_many|].
  cbn [VisionResponse vText fmap option_fmap option_map oRaw]. f_equal.
  by rewrite (merge_loop_rawParts _ 0).
Qed.

(** ** The engine: requests made, and the pages of a PDF *)

Section EngineProperties.

Context {World : Type}.
Variable Generate : GenerateRequest -> World -> (error + GenerateResponse) * World.
Variable time_Now : World -> Z.
Variable ctx_Err : World -> option error.
Variable PDFToImages : string -> World -> error + list bytes.
Variable json_Unmarshal : string -> error + OllamaVisionResponse.
Variable EncodeBase64 : bytes -> string.

Let process := Process Generate time_Now json_Unmarshal EncodeBase64.
Let process_fuel := Process_fuel Generate time_Now json_Unmarshal EncodeBase64.
Let request := Process_request EncodeBase64.
Let pages_loop :=
  process_pages Generate time_Now ctx_Err json_Unmarshal EncodeBase64.
Let processPDF :=
  ProcessPDF Generate time_Now ctx_Err PDFToImages json_Unmarshal EncodeBase64.
Let run := run_pages Generate time_Now ctx_Err json_Unmarshal EncodeBase64.

Lemma Process_fuel_run (imageData : bytes) (cfg : ProcessConfig) (st : State)
    (k : nat) :
  exists outcome st',
    process_fuel (3 + k)%nat imageData cfg st = (Some outcome, st')
    /\ process imageData cfg st = (Some outcome, st')
    /\ (sent st' = sent st ++ [request imageData cfg]
        \/ sent st' = sent st
                      ++ [request imageData cfg; request imageData cfg]).
Proof.
  subst process process_fuel request.
  unfold Process. change (3 + k)%nat with (S (S (S k))).
  unfold Process_fuel, bind, now, attempts, call_Generate, since, ret, bind.
  change (0 + 1 + 1) with 2. change (0 + 1) with 1.
  change (0 <=? 1) with true. change (1 <=? 1) with true.
  change (2 <=? 1) with false. cbv iota. cbn [world sent].
  destruct (Generate _ (world st)) as [[err|resp1] w1];
    [eexists _, _; split; [reflexivity|]; split; [reflexivity|]; by left|].
  cbn [world sent].
  destruct (ParseAndValidateJSON _ (Response resp1)) as [perr1|v1];
    [|eexists _, _; split; [reflexivity|]; split; [reflexivity|]; by left].
  cbn [world sent].
  destruct (Generate _ w1) as [[err|resp2] w2];
    [eexists _, _; split; [reflexivity|]; split; [reflexivity|];
     right; cbn; by rewrite <- app_assoc|].
  cbn [world sent].
  destruct (ParseAndValidateJSON _ (Response resp2)) as [perr2|v2];
    eexists _, _; (split; [reflexivity|]); (split; [reflexivity|]);
    right; cbn; by rewrite <- app_assoc.
Qed.

(** X11: from any state [Process] ends with an outcome (the loop never
    runs out of rounds, and more rounds change nothing), having sent its
    request once or twice and nothing else. *)
Theorem Process_sends_its_request_once_or_twice
    (imageData : bytes) (cfg : ProcessConfig) (st : State) :
  exists outcome st',
    process imageData cfg st = (Some outcome, st')
    /\ (sent st' = sent st ++ [request imageData cfg]
        \/ sent st' = sent st
                      ++ [request imageData cfg; request imageData cfg])
    /\ forall k, process_fuel (3 + k)%nat imageData cfg st = (Some outcome, st').
Proof.
  destruct (Process_fuel_run imageData cfg st 0) as (outcome & st' & _ & Hp & Hs).
  exists outcome, st'. split; [done|]. split; [done|].
  intros k.
  destruct (Process_fuel_run imageData cfg st k) as (o & s & Hk & Hp' & _).
  rewrite Hk. rewrite Hp in Hp'. by injection Hp' as <- <-.
Qed.

Lemma pages_loop_requests (cfg : ProcessConfig) (pages : list bytes) :
  forall i acc st,
  exists outcome st' new,
    pages_loop cfg i pages acc st = (Some outcome, st')
    /\ sent st' = sent st ++ new
    /\ Forall (fun req => exists page, page ∈ pages /\ req = request page cfg) new
    /\ (length new <= 2 * length pages)%nat
    /\ (is_result outcome -> (length pages <= length new)%nat).
Proof.
  subst pages_loop.
  induction pages as [|page rest IH]; intros i acc st; cbn [process_pages].
  - exists (inr acc), st, []. unfold ret. rewrite app_nil_r.
    repeat split; [constructor | cbn; lia | cbn; lia].
  - unfold bind at 1. unfold ctx_done at 1.
    destruct (ctx_Err (world st)) as [err|].
    { exists (inl err), st, []. unfold ret. rewrite app_nil_r.
      repeat split; [constructor | cbn; lia | done]. }
    unfold bind.
    destruct (Process_fuel_run page cfg st 0) as (o & st1 & _ & Hp & Hs).
    subst process. rewrite Hp.
    assert (exists new1, sent st1 = sent st ++ new1
              /\ Forall (fun req => exists p, p ∈ page :: rest
                                     /\ req = request p cfg) new1
              /\ (1 <= length new1 <= 2)%nat) as (new1 & Hs1 & Hf1 & Hl1).
    { destruct Hs as [Hs|Hs]; eexists; (split; [exact Hs|]);
        (split; [|cbn; lia]);
        repeat (constructor; [exists page; split; [left | done]|]);
        constructor. }
    destruct o as [err|result].
    { exists (inl (Errorf_w ("process page " +:+ pretty (i + 1)) err)), st1, new1.
      unfold ret. repeat split; [done | done | cbn; lia | done]. }
    destruct (IH (i + 1) (acc ++ [result]) st1)
      as (o2 & st2 & new2 & Hrun & Hs2 & Hf2 & Hl2 & Hr2).
    exists o2, st2, (new1 ++ new2). rewrite Hrun.
    split; [done|]. split; [by rewrite Hs2, Hs1, app_assoc|].
    split; [|split].
    + apply Forall_app. split; [done|].
      eapply Forall_impl; [exact Hf2|]. intros req (p & Hin & ->).
      exists p. split; [by right | done].
    + rewrite length_app. cbn. lia.
    + intros Hres. rewrite length_app. cbn. specialize (Hr2 Hres). lia.
Qed.

Lemma pages_loop_groups (cfg : ProcessConfig) (pages : list bytes) :
  forall i acc st,
  exists outcome st' asked groups,
    pages_loop cfg i pages acc st = (Some outcome, st')
    /\ sent st' = sent st ++ concat groups
    /\ Forall2 (fun page group => one_or_two (request page cfg) group)
         asked groups
    /\ asked `prefix_of` pages
    /\ (is_result outcome -> asked = pages).
Proof.
  unfold pages_loop.
  induction pages as [|page rest IH]; intros i acc st; cbn [process_pages].
  - exists (inr acc), st, [], []. unfold ret. split; [reflexivity|].
    split; [by cbn; rewrite app_nil_r|]. split; [constructor|]. done.
  - unfold bind at 1. unfold ctx_done at 1.
    destruct (ctx_Err (world st)) as [err|].
    { exists (inl err), st, [], []. unfold ret. split; [reflexivity|].
      split; [by cbn; rewrite app_nil_r|]. split; [constructor|].
      split; [apply prefix_nil | done]. }
    unfold bind.
    destruct (Process_fuel_run page cfg st 0) as (o & st1 & _ & Hp & Hs).
    unfold process in Hp. rewrite Hp.
    assert (exists group, sent st1 = sent st ++ group
              /\ one_or_two (request page cfg) group) as (group & Hs1 & Hg).
    { destruct Hs as [Hs|Hs]; eexists; (split; [exact Hs|]);
        [by left | by right]. }
    destruct o as [err|result].
    { exists (inl (Errorf_w ("process page " +:+ pretty (i + 1)) err)), st1,
        [page], [group].
      unfold ret. split; [reflexivity|].
      split; [by cbn; rewrite app_nil_r|].
      split; [constructor; [exact Hg | constructor]|].
      split; [by apply prefix_cons, prefix_nil | done]. }
    destruct (IH (i + 1) (acc ++ [result]) st1)
      as (o2 & st2 & asked & groups & Hrun & Hs2 & Hf2 & Hpre & Hr2).
    exists o2, st2, (page :: asked), (group :: groups). rewrite Hrun.
    split; [done|]. split; [by cbn; rewrite Hs2, Hs1, app_assoc|].
    split; [by constructor|]. split; [by apply prefix_cons|].
    intros Hres. by rewrite (Hr2 Hres).
Qed.

(** X12: [ProcessPDF] always ends with an outcome.  When the PDF cannot be
    converted, or has no page, it fails without sending any request.
    Otherwise the requests it sends fall into one group per page asked
    for, in page order: the pages asked for are the first pages of the
    PDF, each one's group is that page's request once or twice, and when
    [ProcessPDF] gives a result every page has been asked for. *)
Theorem ProcessPDF_requests_are_for_its_pages
    (pdfPath : string) (cfg : ProcessConfig) (st : State) :
  exists outcome st' asked groups,
    processPDF pdfPath cfg st = (Some outcome, st')
    /\ sent st' = sent st ++ concat groups
    /\ Forall2 (fun page group => one_or_two (request page cfg) group)
         asked groups
    /\ match PDFToImages pdfPath (world st) with
       | inl err =>
           outcome = inl (Errorf_w "convert PDF to images" err) /\ asked = []
       | inr [] =>
           outcome = inl (errors_New "PDF produced no pages") /\ asked = []
       | inr pages =>
           asked `prefix_of` pages /\ (is_result outcome -> asked = pages)
       end.
Proof.
  unfold processPDF, ProcessPDF.
  destruct (PDFToImages pdfPath (world st)) as [err|[|page [|page2 rest]]].
  - eexists _, st, [], []. split; [reflexivity|].
    split; [by cbn; rewrite app_nil_r|]. split; [constructor | done].
  - eexists _, st, [], []. split; [reflexivity|].
    split; [by cbn; rewrite app_nil_r|]. split; [constructor | done].
  - destruct (Process_fuel_run page cfg st 0) as (o & st1 & _ & Hp & Hs).
    unfold process in Hp. rewrite Hp.
    assert (exists group, sent st1 = sent st ++ group
              /\ one_or_two (request page cfg) group) as (group & Hs1 & Hg).
    { destruct Hs as [Hs|Hs]; eexists; (split; [exact Hs|]);
        [by left | by right]. }
    destruct o as [err|result]; eexists _, st1, [page], [group];
      (split; [reflexivity|]); (split; [by cbn; rewrite app_nil_r|]);
      (split; [constructor; [exact Hg | constructor]|]); done.
  - destruct (pages_loop_groups cfg (page :: page2 :: rest) 0 [] st)
      as (o & st1 & asked & groups & Hrun & Hs & Hf & Hpre & Hr).
    unfold pages_loop in Hrun. rewrite Hrun.
    destruct o as [err|results]; eexists _, st1, asked, groups;
      (split; [reflexivity|]); (split; [done|]); (split; [done|]);
      (split; [done|]); intros; by apply Hr.
Qed.

Lemma pages_loop_run (cfg : ProcessConfig) (pre : list bytes) :
  forall i acc st results st1 rest,
  run cfg pre st = Some (results, st1) ->
  pages_loop cfg i (pre ++ rest) acc st
  = pages_loop cfg (i + Z.of_nat (length pre)) rest (acc ++ results) st1.
Proof.
  subst run pages_loop.
  induction pre as [|page pre IH]; intros i acc st results st1 rest Hrun.
  - cbn in Hrun. injection Hrun as <- <-. cbn.
    by rewrite Z.add_0_r, app_nil_r.
  - cbn [run_pages] in Hrun. cbn [app process_pages].
    unfold bind at 1. unfold ctx_done at 1.
    destruct (ctx_Err (world st)); [done|].
    unfold bind.
    destruct (Process _ _ _ _ page cfg st) as [[[err|result]|] st'];
      [done| |done].
    destruct (run_pages _ _ _ _ _ cfg pre st') as [[results' st'']|] eqn:E;
      [|done].
    injection Hrun as <- <-.
    rewrite (IH (i + 1) (acc ++ [result]) st' results' st'' rest E).
    rewrite <- app_assoc. cbn [app length]. f_equal. lia.
Qed.

(** X13: when every page of a PDF of two pages or more is processed with
    a result, the context never being done before a page, [ProcessPDF]
    gives the merge of the page results, in page order. *)
Theorem ProcessPDF_merges_the_page_results
    (pdfPath : string) (cfg : ProcessConfig) (st st' : State)
    (pages : list bytes) (results : list ProcessResult) :
  PDFToImages pdfPath (world st) = inr pages ->
  (2 <= length pages)%nat ->
  run cfg pages st = Some (results, st') ->
  processPDF pdfPath cfg st = (Some (inr (mergeResults results)), st').
Proof.
  intros Hpages Hlen Hrun. subst processPDF. unfold ProcessPDF.
  rewrite Hpages. destruct pages as [|p0 [|p1 rest]]; [cbn in Hlen; lia..|].
  pose proof (pages_loop_run cfg _ 0 [] st results st' [] Hrun) as Hloop.
  rewrite app_nil_r in Hloop. subst pages_loop. rewrite Hloop.
  by cbn.
Qed.

(** X14: [ProcessPDF] stops at the first page that cannot be processed.
    With the pages before it processed: when the context is done before
    the page, its error is returned as it is and nothing more is sent;
    when [Process] fails on the page, that error is returned under
    "process page n", n counting from 1, and the run ends in the state
    that page left, the pages after it untouched. *)
Theorem ProcessPDF_stops_at_the_first_failing_page
    (pdfPath : string) (cfg : ProcessConfig) (st st1 : State)
    (pre rest : list bytes) (page : bytes) (results : list ProcessResult) :
  PDFToImages pdfPath (world st) = inr (pre ++ page :: rest) ->
  (2 <= length (pre ++ page :: rest))%nat ->
  run cfg pre st = Some (results, st1) ->
  match ctx_Err (world st1) with
  | Some err => processPDF pdfPath cfg st = (Some (inl err), st1)
  | None =>
      forall err st2,
        process page cfg st1 = (Some (inl err), st2) ->
        processPDF pdfPath cfg st
        = (Some (inl (Errorf_w
                        ("process page "
                         +:+ pretty (Z.of_nat (length pre) + 1)) err)),
           st2)
  end.
Proof.
  intros Hpages Hlen Hrun. subst processPDF process. unfold ProcessPDF.
  rewrite Hpages.
  pose proof (pages_loop_run cfg _ 0 [] st results st1 (page :: rest) Hrun)
    as Hloop.
  subst pages_loop.
  destruct (pre ++ page :: rest) as [|p0 [|p1 tl]] eqn:E;
    [cbn in Hlen; lia..|].
  rewrite Hloop. cbn [process_pages]. unfold bind, ctx_done.
  destruct (ctx_Err (world st1)) as [err|]; [done|].
  intros err st2 Hp. rewrite Hp. cbn. done.
Qed.

End EngineProperties.

Lemma ProcessPDF_merges_the_page_results_witness :
  exists results st',
    run_pages (stub_Generate 9) Z.of_nat (fun _ => None) stub_Unmarshal
      (fun _ => "") stub_cfg [b "page one"; b "page two"]
      {| world := 0%nat; sent := [] |} = Some (results, st')
    /\ ProcessPDF (stub_Generate 9) Z.of_nat (fun _ => None)
         (fun _ _ => inr [b "page one"; b "page two"]) stub_Unmarshal
         (fun _ => "") "scan.pdf" stub_cfg {| world := 0%nat; sent := [] |}
       = (Some (inr (mergeResults results)), st').
Proof.
  destruct (run_pages (stub_Generate 9) Z.of_nat (fun _ => None) stub_Unmarshal
              (fun _ => "") stub_cfg [b "page one"; b "page two"]
              {| world := 0%nat; sent := [] |}) as [[results st']|] eqn:E;
    [|vm_compute in E; discriminate].
  exists results, st'. split; [reflexivity|].
  apply (ProcessPDF_merges_the_page_results (stub_Generate 9) Z.of_nat
           (fun _ => None) (fun _ _ => inr [b "page one"; b "page two"])
           stub_Unmarshal (fun _ => "") "scan.pdf" stub_cfg
           {| world := 0%nat; sent := [] |} st'
           [b "page one"; b "page two"] results eq_refl (le_n 2) E).
Defined.

Lemma ProcessPDF_stops_at_the_first_failing_page_witness :
  fst (ProcessPDF (stub_Generate 1) Z.of_nat (fun _ => None)
         (fun _ _ => inr [b "page one"; b "page two"; b "page three"])
         stub_Unmarshal (fun _ => "") "scan.pdf" stub_cfg
         {| world := 0%nat; sent := [] |})
  = Some (inl (Errorf_w "process page 2"
                 (Errorf_w "ollama generate (attempt 0)"
                    (errors_New "connection refused")))).
Proof.
  destruct (run_pages (stub_Generate 1) Z.of_nat (fun _ => None) stub_Unmarshal
              (fun _ => "") stub_cfg [b "page one"]
              {| world := 0%nat; sent := [] |}) as [[results st1]|] eqn:E;
    [|vm_compute in E; discriminate].
  pose proof (ProcessPDF_stops_at_the_first_failing_page (stub_Generate 1)
                Z.of_nat (fun _ => None)
                (fun _ _ => inr [b "page one"; b "page two"; b "page three"])
                stub_Unmarshal (fun _ => "") "scan.pdf" stub_cfg
                {| world := 0%nat; sent := [] |} st1
                [b "page one"] [b "page three"] (b "page two") results
                eq_refl (le_S _ _ (le_n 2)) E) as H.
  cbv beta iota in H.
  destruct (Process (stub_Generate 1) Z.of_nat stub_Unmarshal (fun _ => "")
              (b "page two") stub_cfg st1) as [o st2] eqn:Ep.
  vm_compute in E. injection E as <- <-.
  vm_compute in Ep. injection Ep as <- <-.
  rewrite (H _ _ eq_refl). reflexivity.
Defined.

(** ** The clean step: what it extracts *)

Lemma Contains_single (c : ascii) (s : bytes) :
  Contains s [c] = false <-> c ∉ s.
Proof.
  unfold Contains, Index. rewrite negb_false_iff, Z.eqb_eq.
  destruct (index_from_spec c s 0) as [[Hi Hn]|(n & Hi & Hf & _)]; [lia|..].
  - done.
  - split; [lia|]. intros Hn. exfalso. apply Hn.
    eapply list_elem_of_lookup_2, Hf.
Qed.

Lemma str_app (x y : bytes) : str (x ++ y) = str x +:+ str y.
Proof.
  unfold str. induction x as [|c x IH]; simpl; [done|]. by rewrite IH.
Qed.

Lemma clean_brace_span (pre body post : bytes) :
  lbrace ∉ pre -> rbrace ∉ post ->
  CleanJSONResponse (str (pre ++ lbrace :: body ++ rbrace :: post))
  = str (lbrace :: body ++ [rbrace]).
Proof.
  intros Hpre Hpost.
  set (x := pre ++ lbrace :: body ++ rbrace :: post).
  assert (first_at lbrace x (length pre)) as Hi.
  { split.
    - subst x. by apply list_lookup_middle.
    - intros k Hk Hl. subst x. unfold bytes in *. rewrite lookup_app_l in Hl by done.
      apply Hpre. eapply list_elem_of_lookup_2, Hl. }
  assert (last_at rbrace x (length pre + S (length body))) as Hj.
  { split.
    - subst x. rewrite app_comm_cons, app_assoc.
      apply list_lookup_middle. rewrite length_app. cbn. lia.
    - intros k Hk Hl. subst x. rewrite app_comm_cons, app_assoc in Hl.
      unfold bytes in *. rewrite lookup_app_r in Hl by (rewrite length_app; cbn; lia).
      rewrite length_app in Hl. cbn [length] in Hl.
      destruct (k - (length pre + S (length body)))%nat as [|m] eqn:Em; [lia|].
      apply Hpost. apply (list_elem_of_lookup_2 _ m). exact Hl. }
  rewrite clean_with_brace_pair; rewrite b_str.
  - f_equal. rewrite (extract_braces_found x _ _ Hi Hj) by lia.
    subst x. unfold bytes in *. rewrite drop_app_length.
    replace (length pre + S (length body) + 1 - length pre)%nat
      with (S (length body + 1)) by lia.
    cbn. f_equal. rewrite take_app_add'; [|done].
    done.
  - exists (length pre), (length pre + S (length body))%nat.
    split; [lia|]. split; [apply Hi | apply Hj].
Qed.

(** X15: text around a JSON object does not reach the parser: when the
    text before the object has no opening brace and the text after it no
    closing brace, cleaning gives the object from its opening to its
    closing brace, whatever fences, prose or white space surround it and
    whatever the object holds. *)
Theorem clean_extracts_the_outermost_braces (pre body post : string) :
  str_contains pre "{" = false ->
  str_contains post "}" = false ->
  CleanJSONResponse (pre +:+ "{" +:+ body +:+ "}" +:+ post)
  = "{" +:+ body +:+ "}".
Proof.
  unfold str_contains. change (b "{") with [lbrace]. change (b "}") with [rbrace].
  rewrite !Contains_single. intros Hpre Hpost.
  rewrite <- (str_b (pre +:+ "{" +:+ body +:+ "}" +:+ post)).
  rewrite !b_app. change (b "{") with [lbrace]. change (b "}") with [rbrace].
  cbn [app]. rewrite (clean_brace_span _ _ _ Hpre Hpost).
  change (lbrace :: b body ++ [rbrace]) with ([lbrace] ++ b body ++ [rbrace]).
  by rewrite !str_app, str_b.
Qed.

Lemma clean_extracts_the_outermost_braces_witness :
  CleanJSONResponse ("Here is the JSON: " +:+ "{" +:+ "'a': {'b': 1}" +:+ "}"
                     +:+ " Hope that helps!")
  = "{" +:+ "'a': {'b': 1}" +:+ "}".
Proof.
  apply clean_extracts_the_outermost_braces; reflexivity.
Defined.

(** X16: when the reply has an opening brace before a closing one, the
    cleaned text starts with an opening brace and ends with a closing
    one, and cleaning it again changes nothing. *)
Theorem clean_candidate_is_a_brace_span (raw : string) :
  has_brace_pair (b raw) ->
  exists body : string,
    CleanJSONResponse raw = "{" +:+ body +:+ "}"
    /\ CleanJSONResponse (CleanJSONResponse raw) = CleanJSONResponse raw.
Proof.
  intros (i0 & j0 & Hij & Hi0 & Hj0).
  destruct (exists_first_at lbrace (b raw)) as [i [Hi Hib]];
    [eapply list_elem_of_lookup_2, Hi0|].
  destruct (exists_last_at rbrace (b raw)) as [j [Hj Hjb]];
    [eapply list_elem_of_lookup_2, Hj0|].
  assert (i <= i0)%nat as Hle1.
  { destruct (decide (i <= i0)%nat); [done|]. exfalso. apply (Hib i0); [lia|done]. }
  assert (j0 <= j)%nat as Hle2.
  { destruct (decide (j0 <= j)%nat); [done|]. exfalso. apply (Hjb j0); [lia|done]. }
  assert (drop (S i) (b raw) !! (j - S i)%nat = Some rbrace) as Hj'.
  { rewrite lookup_drop. replace (S i + (j - S i))%nat with j by lia. done. }
  pose proof (take_drop_middle _ _ _ Hi) as E1.
  pose proof (take_drop_middle _ _ _ Hj') as E2.
  rewrite <- E2 in E1. rewrite drop_drop in E1.
  replace (S i + S (j - S i))%nat with (S j) in E1 by lia.
  set (pre := take i (b raw)) in *.
  set (body := take (j - S i) (drop (S i) (b raw))) in *.
  set (post := drop (S j) (b raw)) in *.
  assert (lbrace ∉ pre) as Hpre.
  { intros Hin. apply list_elem_of_lookup_1 in Hin as [k Hk]. subst pre.
    apply lookup_take_Some in Hk as [Hk Hlt]. by apply (Hib k). }
  assert (rbrace ∉ post) as Hpost.
  { intros Hin. apply list_elem_of_lookup_1 in Hin as [k Hk]. subst post.
    rewrite lookup_drop in Hk. apply (Hjb (S j + k)%nat); [lia | done]. }
  assert (CleanJSONResponse raw = str (lbrace :: body ++ [rbrace])) as Hc.
  { rewrite <- (str_b raw), <- E1. by apply clean_brace_span. }
  exists (str body). rewrite Hc. split.
  - change (lbrace :: body ++ [rbrace]) with ([lbrace] ++ body ++ [rbrace]).
    by rewrite !str_app.
  - apply (clean_brace_span [] body []); apply not_elem_of_nil.
Qed.

Lemma clean_candidate_is_a_brace_span_witness :
  exists body : string,
    CleanJSONResponse "```json {'a': 1} ```" = "{" +:+ body +:+ "}"
    /\ CleanJSONResponse (CleanJSONResponse "```json {'a': 1} ```")
       = CleanJSONResponse "```json {'a': 1} ```".
Proof.
  apply clean_candidate_is_a_brace_span.
  exists 8%nat, 15%nat. split; [lia | split; reflexivity].
Defined.

(** ** The engine's log preview *)

(** X17: for a limit that is not negative, [truncate] gives back a string
    that fits as it is, and otherwise the first [maxLen] bytes followed
    by three dots; either way the result is at most [maxLen + 3] bytes
    long and starts with the same [maxLen] bytes as the string. *)
Theorem truncate_keeps_a_prefix (s : bytes) (maxLen : Z) :
  0 <= maxLen ->
  (Z.of_nat (length s) <= maxLen -> truncate s maxLen = s)
  /\ (maxLen < Z.of_nat (length s) ->
      truncate s maxLen = take (Z.to_nat maxLen) s ++ b "...")
  /\ Z.of_nat (length (truncate s maxLen)) <= maxLen + 3
  /\ take (Z.to_nat maxLen) (truncate s maxLen) = take (Z.to_nat maxLen) s.
Proof.
  intros Hmax. unfold truncate, substr.
  rewrite Z.sub_0_r. change (Z.to_nat 0) with 0%nat. rewrite drop_0.
  destruct (Z.of_nat (length s) <=? maxLen) eqn:E.
  - apply Z.leb_le in E. repeat split; try done; lia.
  - apply Z.leb_gt in E. split; [lia|]. split; [done|]. split.
    + rewrite length_app, length_take. cbn. lia.
    + rewrite take_app_le by (rewrite length_take; lia).
      rewrite take_take. f_equal. lia.
Qed.

Lemma truncate_keeps_a_prefix_witness :
  truncate (b "not json at all") 7 = take (Z.to_nat 7) (b "not json at all") ++ b "...".
Proof.
  apply (truncate_keeps_a_prefix (b "not json at all") 7); [lia | cbn; lia].
Defined.

(** ** Sources: URLs and downloads *)

Lemma existsb_false {A : Type} (f : A -> bool) (l : list A) (x : A) :
  existsb f l = false -> x ∈ l -> f x = false.
Proof.
  intros He Hx. apply not_true_is_false. intros Hf.
  apply not_true_iff_false in He. apply He.
  apply existsb_exists. exists x. split; [|done].
  by apply list_elem_of_In.
Qed.

Lemma HasPrefix_string_app (p rest : string) :
  HasPrefix (b (p +:+ rest)) (b p) = true.
Proof. rewrite b_app. apply HasPrefix_app. Qed.

Lemma string_app_assoc (x y z : string) : (x +:+ y) +:+ z = x +:+ (y +:+ z).
Proof.
  rewrite <- (str_b ((x +:+ y) +:+ z)), <- (str_b (x +:+ y +:+ z)).
  by rewrite !b_app, app_assoc.
Qed.

Lemma private_dotted_blocked (host : string) :
  private_dotted host ->
  existsb (fun prefix => HasPrefix (b host) (b prefix)) blockedPrefixes = true.
Proof.
  intros H. apply existsb_exists.
  destruct H as [rest|rest|rest|n rest Hn].
  - exists "127.". split; [cbn; tauto | apply HasPrefix_string_app].
  - exists "10.". split; [cbn; tauto | apply HasPrefix_string_app].
  - exists "192.168.". split; [cbn; tauto | apply HasPrefix_string_app].
  - exists ("172." +:+ pretty n +:+ "."). split.
    + assert (n = 16 \/ n = 17 \/ n = 18 \/ n = 19 \/ n = 20 \/ n = 21
              \/ n = 22 \/ n = 23 \/ n = 24 \/ n = 25 \/ n = 26 \/ n = 27
              \/ n = 28 \/ n = 29 \/ n = 30 \/ n = 31) as Hcases by lia.
      repeat (destruct Hcases as [->|Hcases]; [vm_compute; tauto|]).
      subst n. vm_compute; tauto.
    + replace ("172." +:+ pretty n +:+ "." +:+ rest)
        with (("172." +:+ pretty n +:+ ".") +:+ rest)
        by (by rewrite !string_app_assoc).
      apply HasPrefix_string_app.
Qed.

Section URLProperties.

Variable url_Parse : string -> error + url_URL.
Variable strings_ToLower : string -> string.

Let validate := ValidateURL url_Parse strings_ToLower.

(** X18: a URL that [ValidateURL] accepts parses, has the scheme http or
    https and a host, and its lower-cased host name is neither localhost
    nor 0.0.0.0 nor a dotted name in the loopback range 127.x or the
    private ranges 10.x, 192.168.x and 172.16.x to 172.31.x. *)
Theorem ValidateURL_accepts_no_private_host (rawURL : string) :
  validate rawURL = None ->
  exists u,
    url_Parse rawURL = inr u
    /\ (Scheme u = "http" \/ Scheme u = "https")
    /\ Host u <> ""
    /\ strings_ToLower (Hostname u) <> "localhost"
    /\ strings_ToLower (Hostname u) <> "0.0.0.0"
    /\ ~ private_dotted (strings_ToLower (Hostname u)).
Proof.
  subst validate. unfold ValidateURL.
  destruct (url_Parse rawURL) as [err|u]; [done|].
  destruct (negb (bool_decide (Scheme u = "http"))
            && negb (bool_decide (Scheme u = "https"))) eqn:E1; [done|].
  destruct (bool_decide (Host u = "")) eqn:E2; [done|].
  cbv zeta.
  destruct (existsb _ blockedHosts) eqn:E3; [done|].
  destruct (existsb _ blockedPrefixes) eqn:E4; [done|].
  intros _. exists u. split; [done|].
  apply bool_decide_eq_false in E2.
  split; [|split; [done|split; [|split]]].
  - apply andb_false_iff in E1 as [E1|E1];
      apply negb_false_iff, bool_decide_eq_true in E1; tauto.
  - intros Hh.
    pose proof (existsb_false _ _ "localhost" E3) as Hf. cbv beta in Hf.
    rewrite bool_decide_eq_true_2 in Hf by done.
    by specialize (Hf ltac:(set_solver)).
  - intros Hh.
    pose proof (existsb_false _ _ "0.0.0.0" E3) as Hf. cbv beta in Hf.
    rewrite bool_decide_eq_true_2 in Hf by done.
    by specialize (Hf ltac:(set_solver)).
  - intros Hp. apply private_dotted_blocked in Hp. congruence.
Qed.

End URLProperties.

Lemma ValidateURL_accepts_no_private_host_witness :
  exists u,
    inr {| Scheme := "https"; Host := "cdn.example.org";
           urlPath := "/files/scan.pdf"; Hostname := "cdn.example.org" |}
    = inr (A := error) u
    /\ (Scheme u = "http" \/ Scheme u = "https")
    /\ Host u <> ""
    /\ Hostname u <> "localhost"
    /\ Hostname u <> "0.0.0.0"
    /\ ~ private_dotted (Hostname u).
Proof.
  exact (ValidateURL_accepts_no_private_host
           (fun _ => inr {| Scheme := "https"; Host := "cdn.example.org";
                            urlPath := "/files/scan.pdf";
                            Hostname := "cdn.example.org" |})
           (fun s => s) "https://cdn.example.org/files/scan.pdf" eq_refl).
Defined.

Section DownloadProperties.

Context {World : Type}.
Variable http_Get : string -> World -> (error + http_Response) * World.

Let download := DownloadImage http_Get.

(** X19: for a size limit below the largest 64-bit integer,
    [DownloadImage] returns data exactly when the server answers with
    status 200 and a body of at most [maxSize] bytes that is read to its
    end without error; the data is then the whole body.  In particular it
    never returns more than [maxSize] bytes. *)
Theorem DownloadImage_returns_whole_body_within_limit
    (rawURL : string) (maxSize : Z) (w w' : World) (data : bytes) :
  - 2 ^ 63 <= maxSize < MaxInt64 ->
  download rawURL maxSize w = (inr data, w')
  <-> exists resp,
        http_Get rawURL w = (inr resp, w')
        /\ StatusCode resp = 200
        /\ BodyErr resp = None
        /\ data = Body resp
        /\ Z.of_nat (length data) <= maxSize.
Proof.
  unfold MaxInt64. intros Hmax. subst download. unfold DownloadImage.
  assert (add64 maxSize 1 = maxSize + 1) as ->.
  { unfold add64, wrap64. rewrite Z.mod_small; lia. }
  destruct (http_Get rawURL w) as [[err|resp] w1].
  { split; [done|]. by intros (resp & [=] & _). }
  destruct (StatusCode resp =? 200) eqn:Es; cbn [negb].
  2:{ apply Z.eqb_neq in Es. split; [done|].
      intros (resp' & [= <- <-] & Hs & _). done. }
  apply Z.eqb_eq in Es. unfold read_limited.
  destruct (maxSize + 1 <=? 0) eqn:E0.
  { apply Z.leb_le in E0. cbn [length].
    destruct (Z.gtb_spec (Z.of_nat 0) maxSize) as [E1|E1]; [|lia].
    split; [done|]. intros (resp' & [= <- <-] & _ & _ & -> & Hl). lia. }
  apply Z.leb_gt in E0.
  destruct (Z.of_nat (length (Body resp)) <? maxSize + 1) eqn:E2.
  - apply Z.ltb_lt in E2. destruct (BodyErr resp) as [err|] eqn:Eb.
    { split; [done|]. intros (resp' & [= <- <-] & _ & Hb & _). congruence. }
    destruct (Z.gtb_spec (Z.of_nat (length (Body resp))) maxSize) as [E3|E3];
      [lia|].
    split.
    + intros [= <- <-]. exists resp. by repeat split.
    + intros (resp' & [= <- <-] & _ & _ & -> & _). done.
  - apply Z.ltb_ge in E2.
    destruct (Z.gtb_spec
                (Z.of_nat (length (take (Z.to_nat (maxSize + 1)) (Body resp))))
                maxSize) as [E3|E3].
    + split; [done|]. intros (resp' & [= <- <-] & _ & _ & -> & Hl). lia.
    + rewrite length_take in E3. lia.
Qed.

(** X20: with the largest 64-bit integer as the size limit the limit of
    the reader wraps around to a negative number, so a download that is
    answered with status 200 returns no bytes at all, whatever the body
    holds. *)
Theorem DownloadImage_with_largest_limit_reads_nothing
    (rawURL : string) (w w' : World) (resp : http_Response) :
  http_Get rawURL w = (inr resp, w') ->
  StatusCode resp = 200 ->
  download rawURL MaxInt64 w = (inr [], w').
Proof.
  intros Hget Hs. subst download. unfold DownloadImage.
  rewrite Hget, Hs. reflexivity.
Qed.

End DownloadProperties.

Lemma DownloadImage_returns_whole_body_within_limit_witness :
  DownloadImage (fun (_ : string) (w : nat) =>
                   (inr {| StatusCode := 200; Body := b "image bytes";
                           BodyErr := None |}, S w))
    "https://cdn.example.org/a.png" 1024 0%nat
  = (inr (b "image bytes"), 1%nat).
Proof.
  apply DownloadImage_returns_whole_body_within_limit; [unfold MaxInt64; lia|].
  eexists. split; [reflexivity|]. repeat split. cbn. lia.
Defined.

Lemma DownloadImage_with_largest_limit_reads_nothing_witness :
  DownloadImage (fun (_ : string) (w : nat) =>
                   (inr {| StatusCode := 200; Body := b "image bytes";
                           BodyErr := None |}, S w))
    "https://cdn.example.org/a.png" MaxInt64 0%nat
  = (inr [], 1%nat).
Proof.
  by apply (DownloadImage_with_largest_limit_reads_nothing _ _ _ _
              {| StatusCode := 200; Body := b "image bytes"; BodyErr := None |}).
Defined.

(** ** Image introspection: the colour mode read off a model name *)

Lemma index_from_found (sub s : bytes) : forall i : Z,
  0 <= i ->
  (index_from sub s i <> -1 <-> exists p q, s = p ++ sub ++ q).
Proof.
  induction s as [|a s IH]; intros i Hi; cbn [index_from].
  - destruct (HasPrefix [] sub) eqn:E.
    + split; [|lia]. intros _. apply HasPrefix_true in E as [k Hk].
      exists [], k. done.
    + split; [done|]. intros (p & q & Hs). exfalso.
      apply not_true_iff_false in E. apply E, HasPrefix_true.
      symmetry in Hs. apply app_eq_nil in Hs as [-> Hs]. by exists q.
  - destruct (HasPrefix (a :: s) sub) eqn:E.
    + split; [|lia]. intros _. apply HasPrefix_true in E as [k Hk].
      exists [], k. done.
    + rewrite (IH (i + 1)) by lia. split.
      * intros (p & q & ->). by exists (a :: p), q.
      * intros ([|a' p] & q & Hs).
        -- exfalso. apply not_true_iff_false in E. apply E, HasPrefix_true.
           by exists q.
        -- injection Hs as -> ->. by exists p, q.
Qed.

Lemma Contains_true (s sub : bytes) :
  Contains s sub = true <-> exists p q, s = p ++ sub ++ q.
Proof.
  unfold Contains, Index. rewrite negb_true_iff, Z.eqb_neq.
  by apply index_from_found.
Qed.

Lemma Contains_NRGBA (s : bytes) :
  Contains s (b "RGBA") || Contains s (b "NRGBA") = Contains s (b "RGBA").
Proof.
  destruct (Contains s (b "RGBA")) eqn:E1; [done|]. cbn [orb].
  apply not_true_is_false. intros (p & q & ->)%Contains_true.
  apply not_true_iff_false in E1. apply E1, Contains_true.
  exists (p ++ b "N"), q. by rewrite <- app_assoc.
Qed.

(** X21: for an image that decodes with a colour model other than YCbCr,
    [GetImageInfo] reports the decoded width and height, no resolution,
    and the colour mode read off the model's type name: RGB when the name
    holds RGBA, else Grayscale when it holds Gray, else CMYK when it holds
    CMYK, else Unknown.  The test for NRGBA never decides, since a name
    that holds NRGBA holds RGBA. *)
Theorem GetImageInfo_reads_mode_off_model_name
    (strings_ToLower : string -> string)
    (image_DecodeConfig : bytes -> error + image_Config)
    (data : bytes) (ext modelStr : string) (cfg : image_Config) :
  strings_ToLower ext <> ".pdf" ->
  image_DecodeConfig data = inr cfg ->
  ColorModel cfg = Some (OtherModel modelStr) ->
  GetImageInfo strings_ToLower image_DecodeConfig data ext
  = {| Width := cfgWidth cfg; Height := cfgHeight cfg; DPI := None;
       ColorMode := mode_of_name modelStr |}.
Proof.
  intros Hext Hdec Hmodel. unfold GetImageInfo, mode_of_name.
  rewrite bool_decide_eq_false_2 by done.
  rewrite Hdec, Hmodel. by rewrite Contains_NRGBA.
Qed.

Lemma GetImageInfo_reads_mode_off_model_name_witness :
  GetImageInfo (fun s => s)
    (fun _ => inr {| ColorModel := Some (OtherModel "color.NRGBAModel");
                     cfgWidth := 640; cfgHeight := 480 |})
    (b "image bytes") ".png"
  = {| Width := 640; Height := 480; DPI := None; ColorMode := ColorModeRGB |}.
Proof.
  exact (GetImageInfo_reads_mode_off_model_name (fun s => s)
           (fun _ => inr {| ColorModel := Some (OtherModel "color.NRGBAModel");
                            cfgWidth := 640; cfgHeight := 480 |})
           (b "image bytes") ".png" "color.NRGBAModel"
           {| ColorModel := Some (OtherModel "color.NRGBAModel");
              cfgWidth := 640; cfgHeight := 480 |}
           ltac:(discriminate) eq_refl eq_refl).
Defined.

(** ** The prompt and the flags *)

(** X22: the prompt tells the model to leave out exactly the features
    that are switched off: it asks for a null summary exactly when the
    summary flag is off, a null language when language detection is off,
    null bounding boxes when bounding boxes are off, a confidence of 0.0
    when confidence scores are off, and an empty key-value object and
    table list when structured extraction is off; and it adds rule 6 on
    bounding boxes and rule 7 on the language exactly when those features
    are on. *)
Theorem prompt_follows_the_flags (cfg : PromptConfig) :
  let prompt := BuildOCRPrompt cfg in
  str_contains prompt asks_null_summary = negb (pWithSummary cfg)
  /\ str_contains prompt asks_null_language = negb (pWithLanguageDetection cfg)
  /\ str_contains prompt asks_null_bounding_box = negb (pWithBoundingBoxes cfg)
  /\ str_contains prompt asks_zero_confidence = negb (pWithConfidenceScores cfg)
  /\ str_contains prompt asks_empty_structured_data
     = negb (pWithStructuredExtraction cfg)
  /\ str_contains prompt rule_bounding_boxes = pWithBoundingBoxes cfg
  /\ str_contains prompt rule_language = pWithLanguageDetection cfg.
Proof.
  destruct cfg as [[] [] [] [] []]; vm_compute; repeat split.
Qed.

(** ** [Extract] as a whole *)

Lemma pages_loop_results {World : Type}
    (Generate : GenerateRequest -> World -> (error + GenerateResponse) * World)
    (time_Now : World -> Z) (ctx_Err : World -> option error)
    (json_Unmarshal : string -> error + OllamaVisionResponse)
    (EncodeBase64 : bytes -> string) (cfg : ProcessConfig) (pages : list bytes) :
  forall i acc st results st',
  process_pages Generate time_Now ctx_Err json_Unmarshal EncodeBase64
    cfg i pages acc st = (Some (inr results), st') ->
  length results = (length acc + length pages)%nat.
Proof.
  induction pages as [|page rest IH]; intros i acc st results st';
    cbn [process_pages].
  - unfold ret. intros [= <- <-]. cbn. lia.
  - unfold bind, ctx_done. destruct (ctx_Err (world st)); [done|].
    destruct (Process _ _ _ _ page cfg st) as [[[err|result]|] st1];
      [done| |done].
    intros Hrun. apply IH in Hrun. rewrite Hrun, length_app. cbn. lia.
Qed.

Lemma ProcessPDF_run {World : Type}
    (Generate : GenerateRequest -> World -> (error + GenerateResponse) * World)
    (time_Now : World -> Z) (ctx_Err : World -> option error)
    (PDFToImages : string -> World -> error + list bytes)
    (json_Unmarshal : string -> error + OllamaVisionResponse)
    (EncodeBase64 : bytes -> string)
    (pdfPath : string) (cfg : ProcessConfig) (st : State) :
  exists outcome st' new,
    ProcessPDF Generate time_Now ctx_Err PDFToImages json_Unmarshal
      EncodeBase64 pdfPath cfg st = (Some outcome, st')
    /\ sent st' = sent st ++ new
    /\ Forall (fun req => exists page,
                 req = Process_request EncodeBase64 page cfg) new
    /\ match outcome with
       | inl _ => True
       | inr None => False
       | inr (Some _) => new <> []
       end.
Proof.
  unfold ProcessPDF.
  destruct (PDFToImages pdfPath (world st)) as [err|[|page [|page2 rest]]].
  - eexists _, st, []. rewrite app_nil_r. by repeat split.
  - eexists _, st, []. rewrite app_nil_r. by repeat split.
  - destruct (Process_fuel_run Generate time_Now json_Unmarshal EncodeBase64
                page cfg st 0) as (o & st1 & _ & Hp & Hs).
    rewrite Hp.
    assert (exists new1, sent st1 = sent st ++ new1
              /\ Forall (fun req => exists p,
                           req = Process_request EncodeBase64 p cfg) new1
              /\ new1 <> []) as (new1 & Hs1 & Hf1 & Hl1).
    { destruct Hs as [Hs|Hs]; eexists; (split; [exact Hs|]);
        (split; [|done]); repeat (constructor; [by exists page|]);
        constructor. }
    destruct o as [err|result]; eexists _, st1, new1; by repeat split.
  - destruct (pages_loop_requests Generate time_Now ctx_Err json_Unmarshal
                EncodeBase64 cfg (page :: page2 :: rest) 0 [] st)
      as (o & st1 & new & Hrun & Hs & Hf & Hl & Hr).
    rewrite Hrun.
    assert (Forall (fun req => exists p,
                      req = Process_request EncodeBase64 p cfg) new) as Hf'.
    { eapply Forall_impl; [exact Hf|]. intros req (p & _ & ->). by exists p. }
    destruct o as [err|results]; eexists _, st1, new;
      (split; [reflexivity|]); (split; [done|]); (split; [done|]); [done|].
    apply pages_loop_results in Hrun. cbn in Hrun.
    destruct results as [|r0 [|r1 results]]; [cbn in Hrun; lia..|].
    cbn. specialize (Hr I). cbn in Hr. intros ->. cbn in Hr. lia.
Qed.

Section ExtractProperties.

Context {World : Type}.
Variable generateRequestID : World -> string.
Variable url_Parse : string -> error + url_URL.
Variable strings_ToLower : string -> string.
Variable filepath_Ext : string -> string.
Variable strconv_Quote : string -> string.
Variable os_Stat : string -> World -> stat.
Variable os_ReadFile : string -> World -> error + bytes.
Variable SHA256File : string -> World -> error + string.
Variable SHA256Bytes : bytes -> string.
Variable http_Get : string -> World -> (error + http_Response) * World.
Variable image_DecodeConfig : bytes -> error + image_Config.
Variable client_Ping : string -> Z -> World -> option error * World.
Variable client_Generate :
  string -> Z -> GenerateRequest -> World -> (error + GenerateResponse) * World.
Variable time_Now : World -> Z.
Variable ctx_Err : Z -> World -> option error.
Variable PDFToImages : string -> World -> error + list bytes.
Variable json_Unmarshal : string -> error + OllamaVisionResponse.
Variable EncodeBase64 : bytes -> string.
Variable os_CreateTemp : World -> (error + string) * World.
Variable file_Write : string -> bytes -> World -> option error * World.
Variable file_Close : string -> World -> World.
Variable os_Remove : string -> World -> World.

Let extract :=
  Extract generateRequestID url_Parse strings_ToLower filepath_Ext
    strconv_Quote os_Stat os_ReadFile SHA256File SHA256Bytes http_Get
    image_DecodeConfig client_Ping client_Generate time_Now ctx_Err
    PDFToImages json_Unmarshal EncodeBase64 os_CreateTemp file_Write
    file_Close os_Remove.

Let load :=
  load_source url_Parse strings_ToLower filepath_Ext strconv_Quote os_Stat
    os_ReadFile SHA256File SHA256Bytes http_Get.

Let engine :=
  run_engine client_Generate time_Now ctx_Err PDFToImages json_Unmarshal
    EncodeBase64 os_CreateTemp file_Write file_Close os_Remove.

(** An error of [Extract]: it carries the request identifier, and wraps
    the sentinel of its operation, or comes from the empty-source check
    or the temporary file. *)
Let tagged (requestID : string) (e : OCRError) : Prop :=
  eRequestID e = requestID
  /\ match Err e with
     | Errorf_wv sentinel _ => sentinel_of_op (Op e) = Some sentinel
     | as_is err =>
         (Op e = "Extract" /\ err = ErrEmptySource)
         \/ Op e = "Extract.TempFile" \/ Op e = "Extract.WriteTempFile"
     end.

(** A request of the run: with the configured model, not streamed, asking
    for JSON, with one image. *)
Let configured (cfg : Config) (req : GenerateRequest) : Prop :=
  rModel req = Model_ cfg
  /\ rStream req = false
  /\ rFormat req = "json"
  /\ length (elems (rImages req)) = 1%nat
  /\ (Temperature <$> rOptions req) = Some (Temperature_ cfg).

Lemma load_source_run (requestID source : string) (cfg : Config) (st : State) :
  exists r st',
    load requestID source cfg st = (r, st')
    /\ sent st' = sent st
    /\ match r with
       | inl e => tagged requestID e /\ Op e ∈ ops_before_the_engine
       | inr src =>
           sourceType src
           = (if IsURL source then SourceTypeURL else SourceTypeFile)
       end.
Proof.
  unfold load, tagged, load_source.
  destruct (IsURL source).
  - destruct (ValidateURL _ _ source) as [err|].
    { eexists _, _. split; [reflexivity|]. split; [done|].
      split; [by split | apply (bool_decide_unpack _); vm_compute; exact I]. }
    destruct (DownloadImage _ source _ (world st)) as [[err|data] w].
    + eexists _, _. split; [reflexivity|]. split; [done|].
      split; [by split | apply (bool_decide_unpack _); vm_compute; exact I].
    + eexists _, _. split; [reflexivity|]. by split.
  - destruct (ValidateFilePath _ _ _ _ source _ (world st)) as [err|].
    { eexists _, _. split; [reflexivity|]. split; [done|].
      split; [by split | apply (bool_decide_unpack _); vm_compute; exact I]. }
    destruct (LoadImageFromFile _ source (world st)) as [err|data].
    { eexists _, _. split; [reflexivity|]. split; [done|].
      split; [by split | apply (bool_decide_unpack _); vm_compute; exact I]. }
    destruct (SHA256File source (world st)) as [err|sum].
    { eexists _, _. split; [reflexivity|]. split; [done|].
      split; [by split | apply (bool_decide_unpack _); vm_compute; exact I]. }
    eexists _, _. split; [reflexivity|]. by split.
Qed.

Lemma Process_request_configured (requestID : string) (cfg : Config)
    (new : list GenerateRequest) :
  Forall (fun req => exists page,
            req = Process_request EncodeBase64 page
                    (processCfg_of cfg requestID)) new ->
  Forall (configured cfg) new.
Proof.
  intros H. eapply Forall_impl; [exact H|].
  intros req (page & ->). by repeat split.
Qed.

Lemma run_engine_run (requestID source : string) (cfg : Config) (src : loaded)
    (st : State) :
  exists outcome st' new,
    engine requestID source cfg src st = (Some outcome, st')
    /\ sent st' = sent st ++ new
    /\ Forall (configured cfg) new
    /\ match outcome with
       | inl e =>
           tagged requestID e
           /\ (Op e ∈ ops_before_the_engine -> new = [])
       | inr _ => new <> []
       end.
Proof.
  unfold engine, tagged, run_engine. cbv zeta.
  destruct (bool_decide (ext src = ".pdf")).
  - destruct (bool_decide (sourceType src = SourceTypeURL)).
    + destruct (os_CreateTemp (world st)) as [[err|name] w].
      { eexists _, _, []. split; [reflexivity|]. cbn. rewrite app_nil_r.
        split; [done|]. split; [constructor|]. split; [|done].
        split; [done|]. by right; left. }
      destruct (file_Write name (imageData src) w) as [[err|] w1].
      { eexists _, _, []. split; [reflexivity|]. cbn. rewrite app_nil_r.
        split; [done|]. split; [constructor|]. split; [|done].
        split; [done|]. by right; right. }
      destruct (ProcessPDF_run (client_Generate (OllamaURL cfg) (Timeout cfg))
                  time_Now (ctx_Err (Timeout cfg)) PDFToImages json_Unmarshal
                  EncodeBase64 name (processCfg_of cfg requestID)
                  (set_world (file_Close name w1) st))
        as (o & st1 & new & Hrun & Hs & Hf & Ho).
      rewrite Hrun.
      destruct o as [err|[result|]]; [| |done].
      * eexists _, _, new. split; [reflexivity|]. cbn.
        split; [done|]. split; [by eapply Process_request_configured|].
        split; [by split|]. intros Hin; exfalso; apply (bool_decide_pack _) in Hin;
          vm_compute in Hin; exact Hin.
      * eexists _, _, new. split; [reflexivity|]. cbn.
        split; [done|]. split; [by eapply Process_request_configured|]. done.
    + destruct (ProcessPDF_run (client_Generate (OllamaURL cfg) (Timeout cfg))
                  time_Now (ctx_Err (Timeout cfg)) PDFToImages json_Unmarshal
                  EncodeBase64 source (processCfg_of cfg requestID) st)
        as (o & st1 & new & Hrun & Hs & Hf & Ho).
      rewrite Hrun.
      destruct o as [err|[result|]]; [| |done].
      * eexists _, _, new. split; [reflexivity|]. cbn.
        split; [done|]. split; [by eapply Process_request_configured|].
        split; [by split|]. intros Hin; exfalso; apply (bool_decide_pack _) in Hin;
          vm_compute in Hin; exact Hin.
      * eexists _, _, new. split; [reflexivity|]. cbn.
        split; [done|]. split; [by eapply Process_request_configured|]. done.
  - destruct (Process_fuel_run (client_Generate (OllamaURL cfg) (Timeout cfg))
                time_Now json_Unmarshal EncodeBase64 (imageData src)
                (processCfg_of cfg requestID) st 0)
      as (o & st1 & _ & Hp & Hs).
    rewrite Hp.
    assert (exists new, sent st1 = sent st ++ new
              /\ Forall (configured cfg) new /\ new <> [])
      as (new & Hs1 & Hf1 & Hl1).
    { destruct Hs as [Hs|Hs]; eexists; (split; [exact Hs|]);
        (split; [|done]); repeat (constructor; [by repeat split|]);
        constructor. }
    destruct o as [err|result]; eexists _, _, new;
      (split; [reflexivity|]); (split; [done|]); (split; [done|]); [|done].
    split; [by split|]. intros Hin; exfalso; apply (bool_decide_pack _) in Hin;
          vm_compute in Hin; exact Hin.
Qed.

Lemma Extract_run (source : string) (opts : list Option) (st : State) :
  let cfg := apply_options opts in
  exists outcome st' new,
    extract source opts st = (Some outcome, st')
    /\ sent st' = sent st ++ new
    /\ Forall (configured cfg) new
    /\ (source = "" -> st' = st)
    /\ match outcome with
       | inl e =>
           tagged (generateRequestID (world st)) e
           /\ (Op e ∈ ops_before_the_engine -> new = [])
       | inr result =>
           new <> []
           /\ source <> ""
           /\ Path (Source_ result) = source
           /\ Type_ (Source_ result)
              = (if IsURL source then SourceTypeURL else SourceTypeFile)
           /\ DocumentType (Metadata_ result) ∈ DocumentTypes
           /\ ColorMode (Image result) ∈ ColorModes
           /\ KeyValuePairs (StructuredData_ result) <> None
           /\ Tables (StructuredData_ result) <> None
       end.
Proof.
  cbv zeta. unfold extract, Extract. cbv zeta.
  case_bool_decide as Hsource.
  { eexists _, st, []. rewrite app_nil_r. split; [reflexivity|].
    split; [done|]. split; [constructor|]. split; [done|].
    unfold tagged. cbn. split; [|done]. split; [done|]. by left. }
  destruct (load_source_run (generateRequestID (world st)) source
              (apply_options opts) st) as (r & st1 & Hload & Hs1 & Hr).
  unfold load in Hload. rewrite Hload.
  destruct r as [e|src].
  { destruct Hr as [Ht Hop].
    eexists _, st1, []. rewrite app_nil_r. split; [reflexivity|].
    split; [done|]. split; [constructor|]. split; [done|]. by split. }
  destruct (client_Ping _ _ (world st1)) as [[err|] w].
  { eexists _, _, []. rewrite app_nil_r. split; [reflexivity|].
    split; [done|]. split; [constructor|]. split; [done|].
    unfold tagged. cbn. split; [|done]. by split. }
  destruct (run_engine_run (generateRequestID (world st)) source
              (apply_options opts) src (set_world w st1))
    as (o & st2 & new & Hrun & Hs2 & Hf & Ho).
  unfold engine in Hrun. rewrite Hrun.
  destruct o as [e|result].
  - eexists _, st2, new. split; [reflexivity|].
    split; [by rewrite Hs2; cbn; rewrite Hs1|]. split; [done|].
    split; [done|]. done.
  - eexists _, st2, new. split; [reflexivity|].
    split; [by rewrite Hs2; cbn; rewrite Hs1|]. split; [done|].
    split; [done|]. split; [done|]. split; [done|].
    unfold Extract_finish. cbn [fst].
    split; [done|]. split; [done|].
    split; [apply buildMetadata_DocumentType|].
    split; [apply buildOCRResult_ColorMode, GetImageInfo_ColorMode|].
    apply buildStructuredData_not_nil.
Qed.

(** X23: [Extract] always ends with an outcome, an error or a result.
    Every error carries the identifier of the request and names its
    operation, and the operation decides the sentinel the error wraps:
    the empty-source sentinel for "Extract" itself, the sentinel of the
    failing step for the others; only the two operations on the temporary
    file pass the system's error on unwrapped. *)
Theorem Extract_errors_name_operation_and_sentinel
    (source : string) (opts : list Option) (st : State) :
  exists outcome st',
    extract source opts st = (Some outcome, st')
    /\ match outcome with
       | inr _ => True
       | inl e =>
           eRequestID e = generateRequestID (world st)
           /\ match Err e with
              | Errorf_wv sentinel _ => sentinel_of_op (Op e) = Some sentinel
              | as_is err =>
                  (Op e = "Extract" /\ err = ErrEmptySource
                   /\ sentinel_of_op (Op e) = Some err)
                  \/ Op e = "Extract.TempFile"
                  \/ Op e = "Extract.WriteTempFile"
              end
       end.
Proof.
  destruct (Extract_run source opts st)
    as (outcome & st' & new & Hrun & _ & _ & _ & Ho).
  exists outcome, st'. split; [done|].
  destruct outcome as [e|result]; [|done].
  destruct Ho as [[Hid He] _]. split; [done|].
  destruct (Err e) as [err|sentinel err]; [|done].
  destruct He as [[Hop ->]|He]; [|by right].
  left. by rewrite Hop.
Qed.

(** X24: [Extract] asks the model last.  With an empty source it fails
    and leaves the world as it was; when it fails in any step before the
    engine (the checks of the source, loading, the checksum, the ping,
    the temporary file) no generation request has been sent; when it
    gives a result at least one has; and every request it sends names the
    configured model and temperature, is not streamed, asks for JSON and
    carries one image. *)
Theorem Extract_asks_the_model_last
    (source : string) (opts : list Option) (st : State) :
  exists outcome st' new,
    extract source opts st = (Some outcome, st')
    /\ sent st' = sent st ++ new
    /\ Forall (fun req =>
                 rModel req = Model_ (apply_options opts)
                 /\ rStream req = false
                 /\ rFormat req = "json"
                 /\ length (elems (rImages req)) = 1%nat
                 /\ (Temperature <$> rOptions req)
                    = Some (Temperature_ (apply_options opts))) new
    /\ (source = "" -> st' = st)
    /\ match outcome with
       | inl e => Op e ∈ ops_before_the_engine -> new = []
       | inr _ => new <> []
       end.
Proof.
  destruct (Extract_run source opts st)
    as (outcome & st' & new & Hrun & Hs & Hf & He & Ho).
  exists outcome, st', new. split; [done|]. split; [done|].
  split; [done|]. split; [done|].
  destruct outcome as [e|result]; tauto.
Qed.

(** X25: a result of [Extract] is for a source that is not empty, names
    that source as its path, has the source type url exactly when the
    source starts with http:// or https://, and has an enumerated
    document type and colour mode and a key-value mapping and table
    sequence that are not nil, whatever the model replied. *)
Theorem Extract_result_describes_its_source
    (source : string) (opts : list Option) (st st' : State)
    (result : OCRResult) :
  extract source opts st = (Some (inr result), st') ->
  source <> ""
  /\ Path (Source_ result) = source
  /\ Type_ (Source_ result)
     = (if IsURL source then SourceTypeURL else SourceTypeFile)
  /\ DocumentType (Metadata_ result) ∈ DocumentTypes
  /\ ColorMode (Image result) ∈ ColorModes
  /\ KeyValuePairs (StructuredData_ result) <> None
  /\ Tables (StructuredData_ result) <> None.
Proof.
  intros Hrun.
  destruct (Extract_run source opts st)
    as (outcome & st1 & new & Hrun' & _ & _ & _ & Ho).
  rewrite Hrun in Hrun'. injection Hrun' as <- <-. tauto.
Qed.

End ExtractProperties.

Lemma Extract_result_describes_its_source_witness :
  exists result st',
    stub_Extract "scan.png" [] {| world := 0%nat; sent := [] |}
    = (Some (inr result), st')
    /\ Path (Source_ result) = "scan.png"
    /\ Type_ (Source_ result) = SourceTypeFile
    /\ DocumentType (Metadata_ result) ∈ DocumentTypes.
Proof.
  destruct (stub_Extract "scan.png" [] {| world := 0%nat; sent := [] |})
    as [[[e|result]|] st'] eqn:E;
    [vm_compute in E; discriminate | | vm_compute in E; discriminate].
  exists result, st'. split; [reflexivity|].
  pose proof (Extract_result_describes_its_source _ _ _ _ _ _ _ _ _ _ _ _ _ _
                _ _ _ _ _ _ _ _ "scan.png" [] _ st' result E)
    as (_ & Hpath & Htype & Hdoc & _).
  split; [exact Hpath|]. split; [exact Htype | exact Hdoc].
Defined.

(** ** Sources: files, and what [Extract] does with a source *)

Lemma index_bool_SupportedExtensions (ext : string) :
  index_bool SupportedExtensions ext = true
  <-> ext ∈ [".png"; ".jpg"; ".jpeg"; ".pdf"].
Proof.
  unfold index_bool, SupportedExtensions. split.
  - destruct (_ !! ext) as [v|] eqn:E; [|done]. intros _.
    apply elem_of_dom_2 in E. revert E.
    rewrite !dom_insert_L, dom_empty_L. set_solver.
  - intros H. assert (ext ∈ dom SupportedExtensions) as Hd.
    { unfold SupportedExtensions. rewrite !dom_insert_L, dom_empty_L.
      set_solver. }
    apply elem_of_dom in Hd as [v Hv]. unfold SupportedExtensions in Hv.
    rewrite Hv. cbn.
    repeat (apply lookup_insert_Some in Hv as [[_ <-]|[_ Hv]]; [done|]).
    by rewrite lookup_empty in Hv.
Qed.

Section FileProperties.

Context {World : Type}.
Variable strings_ToLower : string -> string.
Variable filepath_Ext : string -> string.
Variable strconv_Quote : string -> string.
Variable os_Stat : string -> World -> stat.

Let validate :=
  ValidateFilePath strings_ToLower filepath_Ext strconv_Quote os_Stat.

(** X26: [ValidateFilePath] accepts a path exactly when its lower-cased
    extension is .png, .jpg, .jpeg or .pdf and the path names an existing
    entry that is not a directory and is not larger than the limit. *)
Theorem ValidateFilePath_accepts_supported_files_within_limit
    (path : string) (maxSize : Z) (w : World) :
  validate path maxSize w = None
  <-> strings_ToLower (filepath_Ext path) ∈ [".png"; ".jpg"; ".jpeg"; ".pdf"]
      /\ exists info,
           os_Stat path w = stat_info info
           /\ IsDir info = false
           /\ Size info <= maxSize.
Proof.
  unfold validate, ValidateFilePath. cbv zeta.
  rewrite <- index_bool_SupportedExtensions.
  destruct (index_bool SupportedExtensions _); cbn [negb];
    [|split; [done | by intros [? _]]].
  destruct (os_Stat path w) as [info|[] err].
  - destruct (IsDir info) eqn:Ed.
    { split; [done|]. intros (_ & info' & [= <-] & ? & _). congruence. }
    destruct (Z.gtb_spec (Size info) maxSize) as [Hs|Hs].
    { split; [done|]. intros (_ & info' & [= <-] & _ & ?). lia. }
    split; [|done]. intros _. split; [done|]. by exists info.
  - split; [done|]. by intros (_ & info & [=] & _).
  - split; [done|]. by intros (_ & info & [=] & _).
Qed.

End FileProperties.

Lemma ValidateURL_private (url_Parse : string -> error + url_URL)
    (strings_ToLower : string -> string) (source : string) (u : url_URL) :
  url_Parse source = inr u ->
  private_dotted (strings_ToLower (Hostname u)) ->
  exists err, ValidateURL url_Parse strings_ToLower source = Some err.
Proof.
  intros Hu Hp. unfold ValidateURL. rewrite Hu.
  destruct (negb _ && negb _); [by eexists|].
  destruct (bool_decide (Host u = "")); [by eexists|].
  cbv zeta. destruct (existsb _ blockedHosts); [by eexists|].
  rewrite (private_dotted_blocked _ Hp). by eexists.
Qed.

Section ExtractSources.

Context {World : Type}.
Variable generateRequestID : World -> string.
Variable url_Parse : string -> error + url_URL.
Variable strings_ToLower : string -> string.
Variable filepath_Ext : string -> string.
Variable strconv_Quote : string -> string.
Variable os_Stat : string -> World -> stat.
Variable os_ReadFile : string -> World -> error + bytes.
Variable SHA256File : string -> World -> error + string.
Variable SHA256Bytes : bytes -> string.
Variable http_Get : string -> World -> (error + http_Response) * World.
Variable image_DecodeConfig : bytes -> error + image_Config.
Variable client_Ping : string -> Z -> World -> option error * World.
Variable client_Generate :
  string -> Z -> GenerateRequest -> World -> (error + GenerateResponse) * World.
Variable time_Now : World -> Z.
Variable ctx_Err : Z -> World -> option error.
Variable PDFToImages : string -> World -> error + list bytes.
Variable json_Unmarshal : string -> error + OllamaVisionResponse.
Variable EncodeBase64 : bytes -> string.
Variable os_CreateTemp : World -> (error + string) * World.
Variable file_Write : string -> bytes -> World -> option error * World.
Variable file_Close : string -> World -> World.
Variable os_Remove : string -> World -> World.

Let extract :=
  Extract generateRequestID url_Parse strings_ToLower filepath_Ext
    strconv_Quote os_Stat os_ReadFile SHA256File SHA256Bytes http_Get
    image_DecodeConfig client_Ping client_Generate time_Now ctx_Err
    PDFToImages json_Unmarshal EncodeBase64 os_CreateTemp file_Write
    file_Close os_Remove.

(** X27: a URL whose host is a dotted name in the loopback or a private
    range is refused by [Extract] before anything is fetched: the error
    is that of the operation Extract.ValidateURL and wraps the invalid-URL
    sentinel, and the world is as it was. *)
Theorem Extract_refuses_private_hosts_before_download
    (source : string) (opts : list Option) (st : State) (u : url_URL) :
  IsURL source = true ->
  url_Parse source = inr u ->
  private_dotted (strings_ToLower (Hostname u)) ->
  exists err,
    extract source opts st
    = (Some (inl (NewOCRError "Extract.ValidateURL"
                    (generateRequestID (world st))
                    (Errorf_wv ErrInvalidURL err))), st).
Proof.
  intros Hurl Hu Hp. unfold extract, Extract. cbv zeta.
  case_bool_decide as Hs; [by rewrite Hs in Hurl|].
  unfold load_source. rewrite Hurl.
  destruct (ValidateURL_private _ _ _ _ Hu Hp) as [err ->].
  by exists err.
Qed.

(** X28: for a source that is a file and not a PDF, a result of [Extract]
    means that the file was read, and what went to the model is that
    file's content: the one request, sent once or twice, is the request
    [Process] builds from the bytes read; the checksum of the result is
    the one computed from the file. *)
Theorem Extract_sends_the_file_it_read
    (source : string) (opts : list Option) (st st' : State)
    (result : OCRResult) :
  IsURL source = false ->
  FileExtension url_Parse strings_ToLower filepath_Ext source <> ".pdf" ->
  extract source opts st = (Some (inr result), st') ->
  exists data,
    os_ReadFile source (world st) = inr data
    /\ SHA256File source (world st) = inr (Checksum (Source_ result))
    /\ let req := Process_request EncodeBase64 data
                    (processCfg_of (apply_options opts)
                       (generateRequestID (world st))) in
       sent st' = sent st ++ [req] \/ sent st' = sent st ++ [req; req].
Proof.
  intros Hurl Hext. unfold extract, Extract. cbv zeta.
  case_bool_decide as Hs; [done|].
  unfold load_source. rewrite Hurl.
  destruct (ValidateFilePath _ _ _ _ source _ (world st)); [done|].
  unfold LoadImageFromFile.
  destruct (os_ReadFile source (world st)) as [err|data]; [done|].
  destruct (SHA256File source (world st)) as [err|sum]; [done|].
  destruct (client_Ping _ _ (world st)) as [[err|] w]; [done|].
  unfold run_engine. cbv zeta. cbn [ext imageData sourceType checksum].
  rewrite bool_decide_eq_false_2 by done.
  destruct (Process_fuel_run (client_Generate (OllamaURL (apply_options opts))
                                (Timeout (apply_options opts)))
              time_Now json_Unmarshal EncodeBase64 data
              (processCfg_of (apply_options opts)
                 (generateRequestID (world st)))
              (set_world w st) 0) as (o & st1 & _ & Hp & Hsent).
  rewrite Hp. destruct o as [err|r]; [done|].
  intros [= <- <-]. exists data. split; [done|]. split; [done|].
  exact Hsent.
Qed.

End ExtractSources.

Lemma Extract_refuses_private_hosts_before_download_witness :
  exists err,
    stub_Extract_with (inr private_URL) "http://192.168.1.1/image.png" []
      {| world := 0%nat; sent := [] |}
    = (Some (inl (NewOCRError "Extract.ValidateURL" "ocr-1"
                    (Errorf_wv ErrInvalidURL err))),
       {| world := 0%nat; sent := [] |}).
Proof.
  exact (Extract_refuses_private_hosts_before_download (fun _ => "ocr-1")
           (fun _ => inr private_URL) _ _ _ _ _ _ _ _ _ _ _ _ _ _ _ _ _ _ _ _
           "http://192.168.1.1/image.png" [] {| world := 0%nat; sent := [] |}
           private_URL eq_refl eq_refl (private_192_168 "1.1")).
Defined.

Lemma Extract_sends_the_file_it_read_witness :
  exists result st' data,
    stub_Extract "scan.png" [] {| world := 0%nat; sent := [] |}
    = (Some (inr result), st')
    /\ data = b "0123456789"
    /\ Checksum (Source_ result) = "9a3f"
    /\ length (sent st') = 1%nat.
Proof.
  destruct (stub_Extract "scan.png" [] {| world := 0%nat; sent := [] |})
    as [[[e|result]|] st'] eqn:E;
    [vm_compute in E; discriminate | | vm_compute in E; discriminate].
  assert (FileExtension (fun _ => inl (errors_New "not a URL")) (fun s => s)
            (fun _ => ".png") "scan.png" <> ".pdf") as Hext
    by (vm_compute; discriminate).
  destruct (Extract_sends_the_file_it_read _ _ _ _ _ _ _ _ _ _ _ _ _ _
              _ _ _ _ _ _ _ _ "scan.png" [] _ st' result eq_refl
              Hext E) as (data & Hdata & Hsum & Hsent).
  exists result, st', data. split; [reflexivity|].
  cbn in Hdata, Hsum. injection Hdata as <-. injection Hsum as Hsum.
  split; [reflexivity|]. split; [by rewrite <- Hsum|].
  vm_compute in E. by injection E as <- <-.
Defined.

(** ** The engine and the clean step together *)

Lemma CleanJSONResponse_around (pre body post : string) :
  lbrace ∉ b pre -> rbrace ∉ b post ->
  CleanJSONResponse (pre +:+ "{" +:+ body +:+ "}" +:+ post)
  = "{" +:+ body +:+ "}".
Proof.
  intros Hpre Hpost.
  rewrite <- (str_b (pre +:+ "{" +:+ body +:+ "}" +:+ post)).
  rewrite !b_app. change (b "{") with [lbrace]. change (b "}") with [rbrace].
  cbn [app]. rewrite (clean_brace_span _ _ _ Hpre Hpost).
  change (lbrace :: b body ++ [rbrace]) with ([lbrace] ++ b body ++ [rbrace]).
  by rewrite !str_app, str_b.
Qed.

Section ProcessAndClean.

Context {World : Type}.
Variable Generate : GenerateRequest -> World -> (error + GenerateResponse) * World.
Variable time_Now : World -> Z.
Variable json_Unmarshal : string -> error + OllamaVisionResponse.
Variable EncodeBase64 : bytes -> string.

Let process := Process Generate time_Now json_Unmarshal EncodeBase64.
Let request := Process_request EncodeBase64.

(** X29: text around the JSON object does not cost a retry: when the
    first reply holds an object that the decoder accepts, with no opening
    brace in the text before it and no closing brace in the text after
    it, [Process] gives the decoded object with the reply's model name
    and token counts after that one request. *)
Theorem Process_accepts_a_reply_with_text_around_the_object
    (image : bytes) (cfg : ProcessConfig) (st : State) (w1 : World)
    (resp : GenerateResponse) (pre body post : string)
    (visionResp : OllamaVisionResponse) :
  Generate (request image cfg) (world st) = (inr resp, w1) ->
  Response resp = pre +:+ "{" +:+ body +:+ "}" +:+ post ->
  str_contains pre "{" = false ->
  str_contains post "}" = false ->
  json_Unmarshal ("{" +:+ body +:+ "}") = inr visionResp ->
  process image cfg st
  = (Some (inr {| VisionResponse := visionResp;
                  Model := gModel resp;
                  PromptTokens := PromptEvalCount resp;
                  EvalTokens := EvalCount resp;
                  Latency := sat64 (time_Now w1 - time_Now (world st)) |}),
     {| world := w1; sent := sent st ++ [request image cfg] |}).
Proof.
  unfold str_contains. change (b "{") with [lbrace]. change (b "}") with [rbrace].
  rewrite !Contains_single. intros Hgen Hresp Hpre Hpost Hjson.
  unfold process, request in *.
  unfold Process, Process_fuel, bind, now, attempts, call_Generate,
    since, ret, bind.
  change (0 <=? 1) with true. cbv iota. cbn [world sent].
  rewrite Hgen. cbn [world sent].
  unfold ParseAndValidateJSON.
  rewrite Hresp, (CleanJSONResponse_around _ _ _ Hpre Hpost), Hjson.
  reflexivity.
Qed.

End ProcessAndClean.

Lemma Process_accepts_a_reply_with_text_around_the_object_witness :
  Process (fun (req : GenerateRequest) (w : nat) =>
             (inr {| gModel := rModel req; CreatedAt := "";
                     Response := "Here you go: " +:+ "{" +:+ "'summary': null"
                                 +:+ "}" +:+ " Anything else?";
                     Done := true; TotalDuration := 0; LoadDuration := 0;
                     PromptEvalCount := 7; PromptEvalDuration := 0;
                     EvalCount := 5; EvalDuration := 0 |}, S w))
    Z.of_nat stub_Unmarshal (fun _ => "") (b "0123456789") stub_cfg
    {| world := 0%nat; sent := [] |}
  = (Some (inr {| VisionResponse := stub_reply; Model := "llama3.2-vision";
                  PromptTokens := 7; EvalTokens := 5; Latency := 1 |}),
     {| world := 1%nat;
        sent := [Process_request (fun _ => "") (b "0123456789") stub_cfg] |}).
Proof.
  exact (Process_accepts_a_reply_with_text_around_the_object _ Z.of_nat
           stub_Unmarshal (fun _ => "") (b "0123456789") stub_cfg
           {| world := 0%nat; sent := [] |} 1%nat
           {| gModel := "llama3.2-vision"; CreatedAt := "";
              Response := "Here you go: " +:+ "{" +:+ "'summary': null"
                          +:+ "}" +:+ " Anything else?";
              Done := true; TotalDuration := 0; LoadDuration := 0;
              PromptEvalCount := 7; PromptEvalDuration := 0;
              EvalCount := 5; EvalDuration := 0 |}
           "Here you go: " "'summary': null" " Anything else?" stub_reply
           eq_refl eq_refl eq_refl eq_refl eq_refl).
Defined.

(** ** The confidence values of a returned result *)

(** C2, amended: the confidence values of the returned result are the
    model's own, passed through unclamped: the document score is the
    reply's (0 for a reply without metadata), and each line's confidence
    is the reply's for that line, or 0 when confidence scores are
    switched off.  So they lie in [0,1] whenever the model's values do;
    and a document score outside [0,1] is found by the validation of a
    result whose source is in order, which only reports it: the result
    is returned with the score as it is. *)
Theorem returned_confidence_in_range (source sourceType checksum : string)
    (imageInfo : ImageInfo) (result : ProcessResult) (cfg : Config) :
  let resp := VisionResponse result in
  let out := Extract_finish source sourceType checksum imageInfo result cfg in
  ConfidenceScore (Metadata_ (fst out)) = response_confidence resp
  /\ map Confidence (elems (Lines (Text_ (fst out))))
     = map (fun line => if WithConfidenceScores_ cfg
                        then oConfidence line else 0%Q)
         (response_lines resp)
  /\ (response_confidences_in_range resp ->
      in_range (ConfidenceScore (Metadata_ (fst out)))
      /\ Forall (fun line => in_range (Confidence line))
           (elems (Lines (Text_ (fst out)))))
  /\ (sourceType = SourceTypeFile \/ sourceType = SourceTypeURL ->
      source <> "" -> checksum <> "" ->
      ~ in_range (response_confidence resp) ->
      snd out = Some (errors_New "confidence_score out of range [0, 1]")
      /\ ConfidenceScore (Metadata_ (fst out)) = response_confidence resp).
Proof.
  cbv zeta. unfold Extract_finish. cbn [fst snd].
  assert (ConfidenceScore
            (Metadata_ (buildOCRResult source sourceType checksum imageInfo
                          result cfg))
          = response_confidence (VisionResponse result)) as Hscore.
  { unfold buildOCRResult. cbn [Metadata_].
    apply buildMetadata_ConfidenceScore. }
  assert (elems (Lines (Text_ (buildOCRResult source sourceType checksum
                                 imageInfo result cfg)))
          = map (build_line cfg) (response_lines (VisionResponse result)))
    as Hlines.
  { unfold buildOCRResult. cbn [Text_]. by rewrite buildText_lines. }
  split; [done|]. split; [|split].
  - rewrite Hlines, map_map. apply map_ext. intros line.
    unfold build_line. cbn [Confidence].
    by destruct (WithConfidenceScores_ cfg).
  - intros [Hmeta Hl]. split.
    + rewrite Hscore. unfold response_confidence.
      destruct (vMetadata (VisionResponse result)); [done | apply in_range_0].
    + rewrite Hlines, Forall_map. eapply Forall_impl; [exact Hl|].
      intros line Hin. unfold build_line. cbn [Confidence].
      destruct (WithConfidenceScores_ cfg); [done | apply in_range_0].
  - intros Htype Hsource Hsum Hout. split; [|done].
    assert (negb (bool_decide (sourceType = SourceTypeFile))
            && negb (bool_decide (sourceType = SourceTypeURL)) = false) as E1.
    { destruct Htype as [->| ->]; reflexivity. }
    pose proof (buildMetadata_DocumentType (VisionResponse result)) as Hdoc.
    apply index_bool_DocumentTypes in Hdoc.
    set (r := buildOCRResult source sourceType checksum imageInfo result cfg)
      in *.
    unfold ValidateOCRResult.
    change (Type_ (Source_ r)) with sourceType.
    change (Path (Source_ r)) with source.
    change (Checksum (Source_ r)) with checksum.
    change (DocumentType (Metadata_ r))
      with (DocumentType (buildMetadata (VisionResponse result))).
    rewrite E1, !bool_decide_eq_false_2, Hdoc, Hscore by done. cbn [negb].
    destruct (flt (response_confidence (VisionResponse result)) 0%Q
              || flt 1%Q (response_confidence (VisionResponse result))) eqn:E;
      [done|].
    by apply out_of_range_false in E.
Qed.

Lemma returned_confidence_in_range_witness :
  ConfidenceScore (Metadata_ (fst (Extract_finish "doc.png" SourceTypeFile
    "abc" sample_image reply_with_lines DefaultConfig))) = 0.9%Q
  /\ map Confidence (elems (Lines (Text_ (fst (Extract_finish "doc.png"
        SourceTypeFile "abc" sample_image reply_with_lines DefaultConfig)))))
     = [0.8%Q; 0.95%Q]
  /\ Forall (fun line => in_range (Confidence line))
       (elems (Lines (Text_ (fst (Extract_finish "doc.png" SourceTypeFile
          "abc" sample_image reply_with_lines DefaultConfig))))).
Proof.
  destruct (returned_confidence_in_range "doc.png" SourceTypeFile "abc"
              sample_image reply_with_lines DefaultConfig)
    as (Hscore & Hlines & Hrange & _).
  split; [exact Hscore|]. split; [exact Hlines|].
  apply Hrange. split; [split; discriminate|].
  repeat constructor; discriminate.
Defined.
